(* ===== verification/_CoqProject ===== *)
-Q . S2P
Prelude.v
PyInt.v
DateTime.v
IsoFormat.v
Calendar.v
Clock.v
Json.v
App.v
Http.v
JsonDecode.v
Server.v
