(* ===== verification/Prelude.v ===== *)
(** * A verification development of python-API ([src/python-API/app.py])

    The program is a FastAPI application of one route:

      app = FastAPI()                                   (line 4)
      @app.get("/datetime")                             (line 6)
      def get_current_datetime():                       (line 7)
          return {"current_datetime": datetime.now().isoformat()}   (line 8)
      uvicorn.run(app, host="0.0.0.0", port=8000)       (line 13)

    Its behaviour is almost entirely the behaviour of the library calls
    those lines make, so each definition below models what one line does,
    following the library code that runs there (CPython's [datetime],
    FastAPI/Starlette's routing and JSON rendering, uvicorn's startup).

    The files, one per component, in dependency order:
    - [Prelude]   this file: Python's exception results ([result], [Ok],
                  [Raise]) and their monad notation, the hint databases,
                  the tactics [zlia], [split_bools] and [break_match_hyp],
                  and the lemmas on strings, lexicographic comparison and
                  positional integers the components share.
    - [PyInt]     the ["%0*d" % n] formatting of an int ([format_d0]),
                  fixed-width digits ([digits_fixed]), their order, their
                  parser ([parse_digits]), the digit count [ndigits].
    - [DateTime]  the naive [datetime] value, [_is_leap],
                  [_days_in_month], the C module's constructor
                  [new_datetime_ex2] that [datetime.now()] calls;
                  [datetime._cmp] as [dt_compare], a total order; and, for
                  the client's [parse] of the spec, [_pydatetime]'s
                  constructor [datetime_new] (the program never runs it).
    - [IsoFormat] [_format_time] ([format_time], [render_time]) and
                  [datetime.isoformat]; the ISO-8601 parser [parse_iso] of
                  the spec.
    - [Calendar]  [_ymd2ord] and [_ord2ymd], and their round trip.
    - [Clock]     [datetime.now()] as CPython's C code computes it: the
                  int64 [PyTime_t] reading, its rounding, [localtime_r]
                  under a time zone, the [fold] probes; the interface
                  [TimeSource]/[TimeSourceLaws] the handler is proved
                  against, and its instance for [SystemClock].
    - [Json]      [jsonable_encoder] and Starlette's [JSONResponse.render]
                  ([dumps] with compact separators).
    - [App]       the handler [get_current_datetime] (lines 7-8), the
                  route table [app_routes] of [FastAPI()] and
                  [@app.get] (lines 4, 6), and Starlette's router
                  [handle_request] (200, 307, 404, 405, 500), with the
                  redirect URL rebuilt from the scope ([redirect_url]) and
                  the [quote] of [RedirectResponse].
    - [Http]      uvicorn's [httptools] protocol writing a response:
                  Starlette's [Response.__call__] ([response_messages]),
                  [RequestResponseCycle.send] ([send]) on the record
                  [cycle], [run_asgi], [int()] of the [content-length]
                  value ([py_int]), the [date] and [server] default
                  headers ([formatdate], [default_headers], through
                  [time.time()]'s [PyTime_Time]), and a request served end
                  to end ([serve]).
    - [JsonDecode] the client's [json.loads] ([loads]), from the spec.
    - [Server]    lines 11-13: [main] and [uvicorn_startup], and serving
                  as the step relation [step] on [server_state] (arrive,
                  tick, adjust, [on_tick] refreshing the default
                  headers, handle, send), interleaved freely; each
                  request handled is served through [Http.serve] with
                  the default headers of the last tick.

    How they interact: [App.app] calls the handler, which reads the clock
    through [TimeSource.clock_read] and formats with [isoformat]; the
    router wraps the result with [jsonable_encoder] and [dumps]; uvicorn
    writes the response through [send] with its default headers; a client
    reads the body with [loads] and the text with [parse_iso].  [Server]
    calls [App.app] at the clock of the moment a request is handled.

    What the theorems show:
    - the response to [GET /datetime] is 200 with the body
      [{"current_datetime":"YYYY-MM-DDTHH:MM:SS[.ffffff]"}] of the clock's
      reading, which [loads] and [parse_iso] read back; a 500 when the
      clock cannot be read; the other paths and methods answer 404, 405,
      307, or FastAPI's pages; every byte body states its length;
    - the bytes uvicorn writes are the HTTP/1.1 message of that response
      (no body for [HEAD]; the connection closed after a 500, on
      [connection: close] and on HTTP/1.0); whatever an application sends,
      the cycle never writes before the start, completes only with the
      declared length, and raises [RuntimeError] on a length mismatch;
      the [content-length] Starlette writes frames exactly the body's
      length once uvicorn's [int()] reads it back; the [date] header has
      29 characters on every reading [time.time()] accepts, and outside
      the int64 range [on_tick] raises [OverflowError];
    - under every interleaving of the server's steps, each response sent
      is [app] of its own request at its handling time, and went on the
      wire as the message [send] writes for it, with the [date] header of
      a tick no later than its handling (none before the first tick); no
      request is answered twice, and from every reachable state the
      server can answer every request it holds; without clock
      adjustments and in a zone whose offset never falls, a later request
      gets a datetime not earlier, while in every zone that falls back a
      run exists in which it gets an earlier one (the spec's monotonicity
      fails);
    - [isoformat] prints the spec's format, of length 19 or 26, that
      [parse_iso] reads back, and whose string order is the order of the
      datetimes;
    - [datetime.now()] gives the local time of the reading floored to
      microseconds, succeeds on every int64 reading and raises
      [OverflowError] outside it (after 2262-04-11), and sets [fold]
      exactly on the repeated local times after a fall-back; across a
      fall-back of [d] seconds a later reading gets an earlier datetime
      exactly when it is less than [d] seconds later;
    - [_ord2ymd] and [_ymd2ord] are inverse and monotone on all integers;
    - [loads] inverts [dumps] and needs no more fuel than twice the
      length of its input.

    Bounds and fuel: the round trip of [_ord2ymd] is checked by evaluation
    ([vm_compute]) over the 146097 ordinals of one 400-year cycle and
    carried to every integer by the shift lemmas of [Calendar];
    [ndigits] takes as fuel [log2 n], at least the number of divisions by
    10 it makes, and more fuel changes nothing ([ndigits_aux_fuel]); [loads] takes [2 * length + 2], and any larger fuel gives
    the same result ([parse_value_fuel_enough]).  Integers are [Z] where
    Python's are unbounded; the [PyTime_t] reading is kept in its int64
    range with the overflow checks of [pytime.c].  [int()] is modelled
    with its limit of 4300 digits; [%x] is given [log2 n + 1] steps, more
    than the number of hexadecimal digits of [n].

    Not modelled: the request side of the HTTP layer (parsing by
    [httptools], the percent-decoding of the path, keep-alive timers,
    flow control, the access log) and the [h11] protocol uvicorn uses when
    [httptools] is absent; [int()] on non-ASCII text; the [time.time()]
    float behind the [date] header (taken here as the whole second of the
    reading); the end of the process when [on_tick]'s [time.time()]
    raises (the step relation has no step for it, so its safety theorems
    cover a superset of the process's runs); the contents of the OpenAPI
    and documentation pages;
    Python's limit of 4300 digits on [int] to text conversion (no int
    reaches [dumps] here); floats and non-ASCII text in [loads]; leap
    seconds in the zone (the cap of [tm_sec] at 59 is kept but never
    reached).
*)

From Stdlib Require Import ZArith String Ascii List Bool Lia.
Import ListNotations.

(** ** Python exceptions as values *)

(** The exceptions the modelled code can raise; each carries the message
    Python attaches to it. *)
Inductive exc : Type :=
| ValueError (msg : string)
| OverflowError (msg : string)
| OSError (errno : Z) (msg : string)
| RuntimeError (msg : string)
| KeyError (key : Z).

(** The outcome of a Python call: a value, or a raised exception. *)
Inductive result (A : Type) : Type :=
| Ok (a : A)
| Raise (e : exc).
Arguments Ok {A} a.
Arguments Raise {A} e.

Definition bind {A B} (r : result A) (k : A -> result B) : result B :=
  match r with
  | Ok a => k a
  | Raise e => Raise e
  end.

Definition is_ok {A} (r : result A) : bool :=
  match r with Ok _ => true | Raise _ => false end.

Declare Scope py_scope.
Delimit Scope py_scope with py.
Notation "x <- c1 ;; c2" := (bind c1 (fun x => c2))
  (at level 100, c1 at next level, right associativity) : py_scope.

(** ** Shared automation *)

Create HintDb pyapi.
Create Rewrite HintDb pyapi_rw.
#[export] Hint Constants Transparent : pyapi.

Lemma bind_ok {A B} (a : A) (k : A -> result B) : bind (Ok a) k = k a.
Proof. reflexivity. Qed.

Lemma bind_raise {A B} (e : exc) (k : A -> result B) : bind (Raise e) k = Raise e.
Proof. reflexivity. Qed.

Lemma bind_eq_ok {A B} (r : result A) (k : A -> result B) (b : B) :
  bind r k = Ok b -> exists a, r = Ok a /\ k a = Ok b.
Proof. destruct r; simpl; [eauto | discriminate]. Qed.

#[export] Hint Rewrite @bind_ok @bind_raise : pyapi_rw.

(** Split the boolean tests of a goal or hypothesis into their cases. *)
Ltac split_bools :=
  repeat match goal with
  | H : (_ && _)%bool = true |- _ => apply andb_prop in H; destruct H
  | H : (_ <=? _)%Z = true |- _ => apply Z.leb_le in H
  | H : (_ <? _)%Z = true |- _ => apply Z.ltb_lt in H
  | H : (_ =? _)%Z = true |- _ => apply Z.eqb_eq in H
  | |- (_ && _)%bool = true => apply andb_true_intro; split
  | |- (_ <=? _)%Z = true => apply Z.leb_le
  | |- (_ <? _)%Z = true => apply Z.ltb_lt
  | |- (_ =? _)%Z = true => apply Z.eqb_eq
  end.

(** [lia] after turning divisions and remainders into their equations. *)
Ltac zlia := Z.div_mod_to_equations; lia.

(** Case analysis on the first [match] (or [if]) of a hypothesis, keeping
    the equation of the scrutinee. *)
Ltac break_match_hyp :=
  match goal with
  | H : context [match ?X with _ => _ end] |- _ => destruct X eqn:?
  end.

(** ** Strings *)

Local Open Scope string_scope.

Lemma string_app_assoc (s1 s2 s3 : string) :
  (s1 ++ s2) ++ s3 = s1 ++ (s2 ++ s3).
Proof. induction s1; simpl; congruence. Qed.

Lemma string_app_nil_r (s : string) : s ++ "" = s.
Proof. induction s; simpl; congruence. Qed.

Lemma string_length_app (s1 s2 : string) :
  String.length (s1 ++ s2) = (String.length s1 + String.length s2)%nat.
Proof. induction s1; simpl; auto. Qed.

#[export] Hint Rewrite string_app_assoc string_app_nil_r string_length_app : pyapi_rw.

(** Comparing two strings that share a prefix compares what follows it. *)
Lemma compare_app_common (p s1 s2 : string) :
  String.compare (p ++ s1) (p ++ s2) = String.compare s1 s2.
Proof.
  induction p as [|c p IH]; simpl; [reflexivity |].
  unfold Ascii.compare. rewrite N.compare_refl. exact IH.
Qed.

Lemma compare_refl (s : string) : String.compare s s = Eq.
Proof.
  pose proof (compare_app_common s "" "") as H.
  rewrite string_app_nil_r in H. exact H.
Qed.

(** The empty string is below every non-empty one. *)
Lemma compare_nil_cons (c : ascii) (s : string) :
  String.compare "" (String c s) = Lt.
Proof. reflexivity. Qed.

(** [comparison] composed lexicographically: the first that is not [Eq]. *)
Definition lex (c1 : comparison) (c2 : comparison) : comparison :=
  match c1 with Eq => c2 | c => c end.

Lemma lex_Eq_l c : lex Eq c = c.
Proof. reflexivity. Qed.

Lemma lex_eq_Eq c1 c2 : lex c1 c2 = Eq <-> c1 = Eq /\ c2 = Eq.
Proof. destruct c1; simpl; intuition congruence. Qed.

#[export] Hint Rewrite lex_Eq_l : pyapi_rw.

(** ** Integers *)

Local Open Scope Z_scope.

(** Comparing [h1 * B + a] and [h2 * B + b] with both remainders below [B]
    is comparing [h1, h2] first, then [a, b]: positional notation. *)
Lemma compare_positional (B h1 h2 a b : Z) :
  0 <= a < B -> 0 <= b < B ->
  Z.compare (h1 * B + a) (h2 * B + b) = lex (Z.compare h1 h2) (Z.compare a b).
Proof.
  intros Ha Hb.
  destruct (Z.compare_spec h1 h2) as [<- | Hlt | Hgt]; simpl.
  - destruct (Z.compare_spec a b);
      [apply Z.compare_eq_iff | apply Z.compare_lt_iff | apply Z.compare_gt_iff]; lia.
  - apply Z.compare_lt_iff. nia.
  - apply Z.compare_gt_iff. nia.
Qed.

(** [a mod (B * 10)] splits into the digit at position [B] and the rest. *)
Lemma mod_mul_split (n B : Z) :
  0 < B -> n mod (B * 10) = ((n / B) mod 10) * B + n mod B.
Proof.
  intros HB. rewrite Z.rem_mul_r by lia. lia.
Qed.

(** Lexicographic comparison of [Z] keys: equality, antisymmetry and
    transitivity, one key at a time. *)
Lemma lex_compare_Eq (a b : Z) (c : comparison) :
  lex (Z.compare a b) c = Eq <-> a = b /\ c = Eq.
Proof. rewrite lex_eq_Eq, Z.compare_eq_iff. reflexivity. Qed.

Lemma lex_opp (c1 c2 : comparison) : CompOpp (lex c1 c2) = lex (CompOpp c1) (CompOpp c2).
Proof. destruct c1; reflexivity. Qed.

Lemma lex_compare_opp (a b : Z) (c : comparison) :
  lex (Z.compare b a) (CompOpp c) = CompOpp (lex (Z.compare a b) c).
Proof. destruct (Z.compare_spec a b), (Z.compare_spec b a); simpl; try reflexivity; lia. Qed.

Lemma lex_compare_lt_trans (a b c : Z) (r1 r2 r3 : comparison) :
  lex (Z.compare a b) r1 = Lt -> lex (Z.compare b c) r2 = Lt ->
  (a = b -> b = c -> r1 = Lt -> r2 = Lt -> r3 = Lt) ->
  lex (Z.compare a c) r3 = Lt.
Proof.
  destruct (Z.compare_spec a b), (Z.compare_spec b c), (Z.compare_spec a c);
    simpl; intros; subst; auto; try lia; discriminate.
Qed.

(** A function that does not decrease from each point to the next on an
    interval does not decrease on it. *)
Lemma monotone_steps (f : Z -> Z) (lo hi : Z) :
  (forall i, lo <= i < hi -> f i <= f (i + 1)) ->
  forall i j, lo <= i <= j -> j <= hi -> f i <= f j.
Proof.
  intros Hstep i j Hij Hj.
  assert (Hgen : forall k : nat, i + Z.of_nat k <= hi -> f i <= f (i + Z.of_nat k)).
  { induction k as [|k IH]; intros Hk.
    - rewrite Z.add_0_r. lia.
    - rewrite Nat2Z.inj_succ, <- Z.add_1_r, Z.add_assoc.
      specialize (Hstep (i + Z.of_nat k)). specialize (IH ltac:(lia)). lia. }
  replace j with (i + Z.of_nat (Z.to_nat (j - i))) by lia. apply Hgen. lia.
Qed.

Lemma lex_assoc (c1 c2 c3 : comparison) : lex (lex c1 c2) c3 = lex c1 (lex c2 c3).
Proof. destruct c1; reflexivity. Qed.

Lemma compare_sub_r (a b c : Z) : Z.compare (a - c) (b - c) = Z.compare a b.
Proof.
  destruct (Z.compare_spec a b);
    [apply Z.compare_eq_iff | apply Z.compare_lt_iff | apply Z.compare_gt_iff]; lia.
Qed.
