(* ===== verification/PyInt.v ===== *)
(** * PyInt: Python's ["%0*d" % n] formatting of an int

    [datetime.isoformat] (called at [src/python-API/app.py] line 8) builds
    its text with ["%04d-%02d-%02d" % (year, month, day)] and
    ["{:02d}:{:02d}:{:02d}.{:06d}"]: the decimal digits of an int, padded
    with zeros on the left to a minimum width, a sign first when it is
    negative.  This file holds that formatting ([format_d0]), the
    fixed-width digits it reduces to on fields in range
    ([digits_fixed]), their parser ([parse_digits]), and the facts the
    ISO layer needs: length, round trip, and that the lexicographic order
    of fixed-width digit strings is the numeric order; and that the digit
    count [ndigits] reaches its exact result within its fuel. *)

From Stdlib Require Import ZArith String Ascii List Bool Lia.
From S2P Require Import Prelude.

Local Open Scope string_scope.
Local Open Scope Z_scope.

(** ** Definitions *)

(** The character of a decimal digit [0 <= d < 10]: ['0'] is code 48. *)
Definition digit_char (d : Z) : ascii := ascii_of_N (48 + Z.to_N d).

(** The [w] least significant decimal digits of [n], most significant
    first: what ["%0wd"] prints for [0 <= n < 10 ^ w]. *)
Fixpoint digits_fixed (w : nat) (n : Z) : string :=
  match w with
  | O => ""
  | S w' => String (digit_char ((n / 10 ^ Z.of_nat w') mod 10)) (digits_fixed w' n)
  end.

(** The number of decimal digits of [n > 0] ([str(n)]'s length); [fuel]
    divisions by ten are tried, and [log2 n] of them are enough. *)
Fixpoint ndigits_aux (fuel : nat) (n : Z) : nat :=
  match fuel with
  | O => 1
  | S f => if n <? 10 then 1 else S (ndigits_aux f (n / 10))
  end.

Definition ndigits (n : Z) : nat := ndigits_aux (Z.to_nat (Z.log2 n)) n.

(** ["%0*d" % (w, n)]: the sign, then the digits of [|n|] padded with
    zeros so that the whole text is at least [w] characters long. *)
Definition format_d0 (w : nat) (n : Z) : string :=
  if n <? 0
  then "-" ++ digits_fixed (Nat.max (w - 1) (ndigits (- n))) (- n)
  else digits_fixed (Nat.max w (ndigits n)) n.

(** A character is a decimal digit; its value. *)
Definition is_digit (c : ascii) : bool :=
  (Ascii.leb "0" c && Ascii.leb c "9")%bool.

Definition digit_value (c : ascii) : Z := Z.of_N (N_of_ascii c) - 48.

(** Read exactly [w] decimal digits in front of [s], accumulating onto
    [acc]; fails on a missing or non-digit character. *)
Fixpoint parse_digits (w : nat) (acc : Z) (s : string) : option (Z * string) :=
  match w with
  | O => Some (acc, s)
  | S w' =>
      match s with
      | String c s' =>
          if is_digit c then parse_digits w' (acc * 10 + digit_value c) s' else None
      | EmptyString => None
      end
  end.

(** ** Lemmas on digits *)

Lemma pow10_succ (w : nat) : 10 ^ Z.of_nat (S w) = 10 ^ Z.of_nat w * 10.
Proof. rewrite Nat2Z.inj_succ, Z.pow_succ_r by lia. lia. Qed.

Lemma pow10_pos (w : nat) : 0 < 10 ^ Z.of_nat w.
Proof. apply Z.pow_pos_nonneg; lia. Qed.

#[export] Hint Resolve pow10_pos : pyapi.

Lemma digit_char_value (d : Z) : 0 <= d < 10 -> digit_value (digit_char d) = d.
Proof.
  intros Hd. unfold digit_value, digit_char.
  rewrite N_ascii_embedding by lia. lia.
Qed.

Lemma is_digit_iff (c : ascii) :
  is_digit c = true <-> (48 <= N_of_ascii c <= 57)%N.
Proof.
  unfold is_digit, Ascii.leb, Ascii.compare.
  change (N_of_ascii "0") with 48%N. change (N_of_ascii "9") with 57%N.
  destruct (N.compare_spec 48 (N_of_ascii c));
    destruct (N.compare_spec (N_of_ascii c) 57); simpl;
    intuition (try lia; try discriminate).
Qed.

Lemma digit_char_is_digit (d : Z) : 0 <= d < 10 -> is_digit (digit_char d) = true.
Proof.
  intros Hd. apply is_digit_iff. unfold digit_char.
  rewrite N_ascii_embedding by lia. lia.
Qed.

(** A digit character is the character of its value. *)
Lemma digit_value_char (c : ascii) :
  is_digit c = true -> digit_char (digit_value c) = c /\ 0 <= digit_value c < 10.
Proof.
  intros H. apply is_digit_iff in H. unfold digit_char, digit_value. split; [| lia].
  replace (48 + Z.to_N (Z.of_N (N_of_ascii c) - 48))%N with (N_of_ascii c) by lia.
  apply ascii_N_embedding.
Qed.

(** The characters of digits are ordered as the digits. *)
Lemma digit_char_compare (a b : Z) :
  0 <= a < 10 -> 0 <= b < 10 ->
  Ascii.compare (digit_char a) (digit_char b) = Z.compare a b.
Proof.
  intros Ha Hb. unfold Ascii.compare, digit_char.
  rewrite !N_ascii_embedding by lia.
  rewrite <- N2Z.inj_compare, !N2Z.inj_add, !Z2N.id by lia.
  apply Z.add_compare_mono_l.
Qed.

Lemma digits_fixed_length (w : nat) (n : Z) : String.length (digits_fixed w n) = w.
Proof. induction w; simpl; auto. Qed.

#[export] Hint Rewrite digits_fixed_length : pyapi_rw.

(** Fixed-width digit strings compare as the numbers they denote (modulo
    [10 ^ w]); what follows them is compared only on a tie. *)
Lemma compare_digits_fixed (w : nat) (x y : Z) (s1 s2 : string) :
  String.compare (digits_fixed w x ++ s1) (digits_fixed w y ++ s2)
  = lex (Z.compare (x mod 10 ^ Z.of_nat w) (y mod 10 ^ Z.of_nat w)) (String.compare s1 s2).
Proof.
  induction w as [|w IH]; simpl digits_fixed.
  - rewrite !Z.mod_1_r. reflexivity.
  - cbn [String.append String.compare]. rewrite IH.
    pose proof (pow10_pos w).
    rewrite digit_char_compare by (apply Z.mod_pos_bound; lia).
    rewrite pow10_succ, !mod_mul_split by lia.
    rewrite compare_positional by (apply Z.mod_pos_bound; lia).
    destruct (Z.compare ((x / 10 ^ Z.of_nat w) mod 10) _); reflexivity.
Qed.

(** Reading back [w] printed digits gives the number (modulo [10 ^ w]). *)
Lemma parse_digits_fixed (w : nat) (acc n : Z) (s : string) :
  parse_digits w acc (digits_fixed w n ++ s)
  = Some (acc * 10 ^ Z.of_nat w + n mod 10 ^ Z.of_nat w, s).
Proof.
  revert acc. induction w as [|w IH]; intros acc.
  - simpl. rewrite Z.mod_1_r. f_equal. f_equal. lia.
  - rewrite pow10_succ. cbn [parse_digits digits_fixed String.append].
    pose proof (pow10_pos w).
    assert (Hd : 0 <= (n / 10 ^ Z.of_nat w) mod 10 < 10) by (apply Z.mod_pos_bound; lia).
    rewrite digit_char_is_digit, digit_char_value, IH by exact Hd.
    rewrite mod_mul_split by lia.
    f_equal. f_equal. lia.
Qed.

(** Digits above position [w] do not show in [digits_fixed w]. *)
Lemma digits_fixed_high (w : nat) (k n : Z) :
  digits_fixed w (k * 10 ^ Z.of_nat w + n) = digits_fixed w n.
Proof.
  revert k. induction w as [|w IH]; intros k; [reflexivity |].
  rewrite pow10_succ. cbn [digits_fixed]. pose proof (pow10_pos w).
  replace (k * (10 ^ Z.of_nat w * 10) + n) with ((k * 10) * 10 ^ Z.of_nat w + n) by lia.
  rewrite IH, Z.div_add_l by lia.
  rewrite (Z.add_comm (k * 10)), Z.mod_add by lia. reflexivity.
Qed.

(** Whatever [parse_digits] accepts is [w] printed digits. *)
Lemma parse_digits_sound (w : nat) (acc v : Z) (s r : string) :
  parse_digits w acc s = Some (v, r) ->
  exists n, 0 <= n < 10 ^ Z.of_nat w /\ s = digits_fixed w n ++ r
            /\ v = acc * 10 ^ Z.of_nat w + n.
Proof.
  revert acc s. induction w as [|w IH]; intros acc s H; simpl in H.
  - injection H as <- <-. exists 0. simpl. split; [lia | split; [reflexivity | lia]].
  - destruct s as [|c s']; [discriminate |].
    destruct (is_digit c) eqn:Hc; [| discriminate].
    destruct (IH _ _ H) as (n & Hn & -> & ->).
    destruct (digit_value_char c Hc) as [Hch Hd].
    pose proof (pow10_pos w).
    exists (digit_value c * 10 ^ Z.of_nat w + n). rewrite pow10_succ.
    split; [nia |]. split; [| lia].
    cbn [digits_fixed String.append]. rewrite digits_fixed_high.
    rewrite Z.div_add_l, (Z.div_small n), Z.add_0_r, Z.mod_small by lia.
    rewrite Hch. reflexivity.
Qed.

(** ** ["%0*d"] on values in range *)

(** A number below [10 ^ k] has at most [k] digits, whatever the fuel. *)
Lemma ndigits_aux_le (f k : nat) (n : Z) :
  (1 <= k)%nat -> n < 10 ^ Z.of_nat k -> (ndigits_aux f n <= k)%nat.
Proof.
  revert k n. induction f as [|f IH]; intros k n Hk Hn; simpl; [lia |].
  destruct (n <? 10) eqn:E; [lia |]. apply Z.ltb_ge in E.
  destruct k as [|[|k]]; [lia | simpl in Hn; lia |].
  enough (ndigits_aux f (n / 10) <= S k)%nat by lia.
  apply IH; [lia |]. rewrite pow10_succ in Hn.
  apply Z.div_lt_upper_bound; lia.
Qed.

(** With enough fuel, [ndigits_aux] counts the digits exactly. *)
Lemma ndigits_aux_spec (f : nat) (n : Z) :
  1 <= n < 10 ^ Z.of_nat (S f) ->
  (1 <= ndigits_aux f n)%nat
  /\ 10 ^ (Z.of_nat (ndigits_aux f n) - 1) <= n < 10 ^ Z.of_nat (ndigits_aux f n).
Proof.
  revert n. induction f as [| f IH]; intros n Hn; simpl.
  - simpl in Hn. lia.
  - destruct (Z.ltb_spec n 10); [simpl; lia |].
    rewrite pow10_succ in Hn.
    destruct (IH (n / 10)) as (H1 & H2 & H3).
    { split; [apply Z.div_le_lower_bound | apply Z.div_lt_upper_bound]; lia. }
    split; [lia |]. rewrite Nat2Z.inj_succ.
    set (K := Z.of_nat (ndigits_aux f (n / 10))) in *.
    replace (Z.succ K - 1) with K by lia. rewrite Z.pow_succ_r by lia.
    assert (E : 10 ^ K = 10 ^ (K - 1) * 10)
      by (rewrite Z.mul_comm, <- Z.pow_succ_r by lia; f_equal; lia).
    rewrite E in *. zlia.
Qed.

(** [ndigits n] is the number of decimal digits of a positive [n]: no
    leading zero is printed. *)
Lemma ndigits_spec (n : Z) :
  1 <= n ->
  (1 <= ndigits n)%nat /\ 10 ^ (Z.of_nat (ndigits n) - 1) <= n < 10 ^ Z.of_nat (ndigits n).
Proof.
  intros Hn. apply ndigits_aux_spec. split; [exact Hn |].
  pose proof (Z.log2_spec n ltac:(lia)) as [_ H2].
  rewrite Nat2Z.inj_succ, Z2Nat.id by (apply Z.log2_nonneg).
  rewrite <- Z.add_1_r.
  apply (Z.lt_le_trans _ _ _ H2). apply Z.pow_le_mono_l. lia.
Qed.

(** A number has one digit count: the [k] with [10^(k-1) <= n < 10^k]. *)
Lemma digit_count_unique (a b : nat) (n : Z) :
  (1 <= a)%nat -> (1 <= b)%nat ->
  10 ^ (Z.of_nat a - 1) <= n < 10 ^ Z.of_nat a ->
  10 ^ (Z.of_nat b - 1) <= n < 10 ^ Z.of_nat b -> a = b.
Proof.
  intros Ha Hb HA HB.
  destruct (Nat.lt_total a b) as [Hlt | [Heq | Hlt]]; [exfalso | exact Heq | exfalso].
  - assert (10 ^ Z.of_nat a <= 10 ^ (Z.of_nat b - 1)) by (apply Z.pow_le_mono_r; lia). lia.
  - assert (10 ^ Z.of_nat b <= 10 ^ (Z.of_nat a - 1)) by (apply Z.pow_le_mono_r; lia). lia.
Qed.

(** Fuel of at least [log2 n] covers every digit of [n]. *)
Lemma log2_fuel_enough (f : nat) (n : Z) :
  1 <= n -> (Z.to_nat (Z.log2 n) <= f)%nat -> 1 <= n < 10 ^ Z.of_nat (S f).
Proof.
  intros Hn Hf. split; [exact Hn |].
  pose proof (Z.log2_spec n ltac:(lia)) as [_ H2].
  apply (Z.lt_le_trans _ _ _ H2). rewrite Nat2Z.inj_succ, <- !Z.add_1_r.
  apply (Z.le_trans _ (2 ^ (Z.of_nat f + 1))).
  - apply Z.pow_le_mono_r; [lia |]. pose proof (Z.log2_nonneg n). lia.
  - apply Z.pow_le_mono_l. lia.
Qed.

(** Counting the digits terminates within the fuel [ndigits] gives: any
    fuel from [log2 n] on yields the same count, the exact one. *)
Lemma ndigits_aux_fuel (f : nat) (n : Z) :
  1 <= n -> (Z.to_nat (Z.log2 n) <= f)%nat ->
  ndigits_aux f n = ndigits n
  /\ 10 ^ (Z.of_nat (ndigits n) - 1) <= n < 10 ^ Z.of_nat (ndigits n).
Proof.
  intros Hn Hf. destruct (ndigits_spec n Hn) as (H1 & H2).
  destruct (ndigits_aux_spec f n (log2_fuel_enough f n Hn Hf)) as (H3 & H4).
  split; [apply (digit_count_unique _ _ n); assumption | exact H2].
Qed.

(** On a non-negative number that fits in [w >= 1] digits, ["%0wd"] prints
    exactly [w] digits. *)
Lemma format_d0_fixed (w : nat) (n : Z) :
  (1 <= w)%nat -> 0 <= n < 10 ^ Z.of_nat w -> format_d0 w n = digits_fixed w n.
Proof.
  intros Hw Hn. unfold format_d0.
  destruct (n <? 0) eqn:E; [apply Z.ltb_lt in E; lia |].
  rewrite Nat.max_l; [reflexivity |].
  apply ndigits_aux_le; lia.
Qed.

(** Python's own outputs: ["%04d" % 2024], ["%02d" % 5], ["%06d" % 123456],
    ["%02d" % 123] (wider than the width), ["%04d" % -5]. *)
Example format_d0_examples :
  format_d0 4 2024 = "2024" /\ format_d0 2 5 = "05" /\ format_d0 6 123456 = "123456"
  /\ format_d0 2 123 = "123" /\ format_d0 4 (-5) = "-005".
Proof. repeat split; reflexivity. Qed.
