(* ===== verification/DateTime.v ===== *)
(** * DateTime: the value [datetime.now()] returns

    [datetime.now()] (called at [src/python-API/app.py] line 8) returns a
    naive [datetime]: seven int fields, compared as the tuple of its
    fields ([datetime._cmp]).  This file models the value ([datetime]),
    the calendar tables ([is_leap], [days_in_month]), the validity of the
    fields ([valid_datetime]) and the order ([dt_compare], [dt_le]).

    The client's [parse] of the spec checks the fields it reads with the
    constructor [datetime(...)]; that side is not under [src/] and is
    modelled after [Lib/_pydatetime.py]'s [datetime.__new__]
    ([datetime_new], with [_check_date_fields] and [_check_time_fields]);
    the program itself never runs it.

    [datetime.now()] builds its value with the C module's constructor
    [new_datetime_ex2], whose checks ([check_date_args], [check_time_args])
    raise with the messages of [_datetimemodule.c]; it returns the value
    with its [fold].  [tzinfo] ([None] for [now()] without argument) and
    [fold] are left out of the record: [isoformat] and the comparison of
    naive values ignore them. *)

From Stdlib Require Import ZArith String List Bool Lia.
From S2P Require Import Prelude PyInt.
Import ListNotations.

Local Open Scope string_scope.
Local Open Scope Z_scope.

(** ** The calendar tables of [_pydatetime] *)

Definition MINYEAR : Z := 1.
Definition MAXYEAR : Z := 9999.

(** [_DAYS_IN_MONTH], indexed by month; index 0 is a placeholder. *)
Definition DAYS_IN_MONTH : list Z := [-1; 31; 28; 31; 30; 31; 30; 31; 31; 30; 31; 30; 31].

(** [_is_leap(year)]. *)
Definition is_leap (year : Z) : bool :=
  (year mod 4 =? 0) && (negb (year mod 100 =? 0) || (year mod 400 =? 0)).

(** [_days_in_month(year, month)], for [1 <= month <= 12] (it asserts it). *)
Definition days_in_month (year month : Z) : Z :=
  if (month =? 2) && is_leap year then 29 else nth (Z.to_nat month) DAYS_IN_MONTH 0.

(** ** The value *)

Record datetime : Type := mk_datetime {
  year : Z; month : Z; day : Z;
  hour : Z; minute : Z; second : Z; microsecond : Z
}.

Definition in_range (lo x hi : Z) : bool := (lo <=? x) && (x <=? hi).

(** [_check_date_fields(year, month, day)]: each test raises [ValueError]
    with Python's message, in the code's order. *)
Definition check_date_fields (year month day : Z) : result (Z * Z * Z) :=
  if negb (in_range MINYEAR year MAXYEAR)
  then Raise (ValueError "year must be in 1..9999")
  else if negb (in_range 1 month 12)
  then Raise (ValueError "month must be in 1..12")
  else
    let dim := days_in_month year month in
    if negb (in_range 1 day dim)
    then Raise (ValueError ("day must be in 1.." ++ format_d0 0 dim))
    else Ok (year, month, day).

(** [_check_time_fields(hour, minute, second, microsecond, fold)] with
    [fold = 0]. *)
Definition check_time_fields (hour minute second microsecond : Z) : result (Z * Z * Z * Z) :=
  if negb (in_range 0 hour 23) then Raise (ValueError "hour must be in 0..23")
  else if negb (in_range 0 minute 59) then Raise (ValueError "minute must be in 0..59")
  else if negb (in_range 0 second 59) then Raise (ValueError "second must be in 0..59")
  else if negb (in_range 0 microsecond 999999)
  then Raise (ValueError "microsecond must be in 0..999999")
  else Ok (hour, minute, second, microsecond).

(** [datetime(year, month, day, hour, minute, second, microsecond)]. *)
Definition datetime_new (y mo d h mi s us : Z) : result datetime :=
  bind (check_date_fields y mo d) (fun '(y, mo, d) =>
  bind (check_time_fields h mi s us) (fun '(h, mi, s, us) =>
  Ok (mk_datetime y mo d h mi s us))).

(** The constructor of the C module [_datetime], which [datetime.now()]
    calls: [new_datetime_ex2] checks the fields with [check_date_args] and
    [check_time_args] (their messages differ from [_pydatetime]'s) and
    builds the value with its [fold]. *)
Definition check_date_args (year month day : Z) : result unit :=
  if negb (in_range MINYEAR year MAXYEAR)
  then Raise (ValueError ("year " ++ format_d0 0 year ++ " is out of range"))
  else if negb (in_range 1 month 12) then Raise (ValueError "month must be in 1..12")
  else
    let dim := days_in_month year month in
    if negb (in_range 1 day dim)
    then Raise (ValueError ("day must be in 1.." ++ format_d0 0 dim))
    else Ok tt.

Definition check_time_args (h m s us fold : Z) : result unit :=
  if negb (in_range 0 h 23) then Raise (ValueError "hour must be in 0..23")
  else if negb (in_range 0 m 59) then Raise (ValueError "minute must be in 0..59")
  else if negb (in_range 0 s 59) then Raise (ValueError "second must be in 0..59")
  else if negb (in_range 0 us 999999) then Raise (ValueError "microsecond must be in 0..999999")
  else if negb ((fold =? 0) || (fold =? 1)) then Raise (ValueError "fold must be either 0 or 1")
  else Ok tt.

(** [new_datetime_ex2(year, ..., usecond, Py_None, fold, type)]: the naive
    value and its [fold]. *)
Definition new_datetime_ex2 (year month day hour minute second usecond fold : Z)
    : result (datetime * Z) :=
  bind (check_date_args year month day) (fun _ =>
  bind (check_time_args hour minute second usecond fold) (fun _ =>
  Ok (mk_datetime year month day hour minute second usecond, fold))).

(** The fields a constructed [datetime] has: what the checks let through. *)
Definition valid_datetime (dt : datetime) : bool :=
  in_range MINYEAR (year dt) MAXYEAR && in_range 1 (month dt) 12
  && in_range 1 (day dt) (days_in_month (year dt) (month dt))
  && in_range 0 (hour dt) 23 && in_range 0 (minute dt) 59
  && in_range 0 (second dt) 59 && in_range 0 (microsecond dt) 999999.

(** [datetime._cmp] on naive values: the tuples of fields, in order. *)
Definition dt_compare (a b : datetime) : comparison :=
  lex (Z.compare (year a) (year b))
  (lex (Z.compare (month a) (month b))
  (lex (Z.compare (day a) (day b))
  (lex (Z.compare (hour a) (hour b))
  (lex (Z.compare (minute a) (minute b))
  (lex (Z.compare (second a) (second b))
       (Z.compare (microsecond a) (microsecond b))))))).

(** [a <= b] and [a < b] on datetimes. *)
Definition dt_le (a b : datetime) : Prop := dt_compare a b <> Gt.
Definition dt_lt (a b : datetime) : Prop := dt_compare a b = Lt.

Definition datetime_eq_dec (a b : datetime) : {a = b} + {a <> b}.
Proof. decide equality; apply Z.eq_dec. Defined.

(** ** The constructor *)

Lemma in_range_iff (lo x hi : Z) : in_range lo x hi = true <-> lo <= x <= hi.
Proof. unfold in_range. rewrite andb_true_iff, !Z.leb_le. reflexivity. Qed.

(** Every month of every year has 28 to 31 days. *)
Lemma days_in_month_bounds (y m : Z) : 1 <= m <= 12 -> 28 <= days_in_month y m <= 31.
Proof.
  intros Hm. unfold days_in_month.
  destruct (_ && _); [lia |].
  assert (Hk : (1 <= Z.to_nat m <= 12)%nat) by lia.
  destruct (Z.to_nat m) as [|k]; [lia |].
  do 12 (destruct k as [|k]; [simpl; lia |]). lia.
Qed.

(** The valid datetimes are those whose fields are in Python's ranges. *)
Lemma valid_datetime_iff (dt : datetime) :
  valid_datetime dt = true <->
  (1 <= year dt <= 9999 /\ 1 <= month dt <= 12
   /\ 1 <= day dt <= days_in_month (year dt) (month dt)
   /\ 0 <= hour dt <= 23 /\ 0 <= minute dt <= 59
   /\ 0 <= second dt <= 59 /\ 0 <= microsecond dt <= 999999).
Proof.
  unfold valid_datetime. rewrite !andb_true_iff, !in_range_iff.
  unfold MINYEAR, MAXYEAR. tauto.
Qed.

(** The constructor succeeds exactly on fields in range, and builds them. *)
Lemma datetime_new_iff (y mo d h mi s us : Z) (dt : datetime) :
  datetime_new y mo d h mi s us = Ok dt <->
  valid_datetime (mk_datetime y mo d h mi s us) = true /\ dt = mk_datetime y mo d h mi s us.
Proof.
  unfold datetime_new, check_date_fields, check_time_fields, valid_datetime; simpl.
  destruct (in_range MINYEAR y MAXYEAR), (in_range 1 mo 12),
    (in_range 1 d (days_in_month y mo)), (in_range 0 h 23), (in_range 0 mi 59),
    (in_range 0 s 59), (in_range 0 us 999999);
    simpl; split; intros H; try discriminate; try (destruct H; discriminate);
    try (injection H as <-; auto); destruct H as [_ ->]; reflexivity.
Qed.

(** A valid datetime is what the constructor builds from its fields. *)
Lemma datetime_new_valid (dt : datetime) :
  valid_datetime dt = true ->
  datetime_new (year dt) (month dt) (day dt) (hour dt) (minute dt) (second dt)
    (microsecond dt) = Ok dt.
Proof. intros Hv. destruct dt. apply datetime_new_iff. auto. Qed.

(** The C constructor succeeds exactly on fields in range and a fold of 0
    or 1. *)
Lemma new_datetime_ex2_iff (y mo d h mi s us f : Z) (p : datetime * Z) :
  new_datetime_ex2 y mo d h mi s us f = Ok p <->
  valid_datetime (mk_datetime y mo d h mi s us) = true /\ (f = 0 \/ f = 1)
  /\ p = (mk_datetime y mo d h mi s us, f).
Proof.
  unfold new_datetime_ex2, check_date_args, check_time_args, valid_datetime; simpl.
  destruct (in_range MINYEAR y MAXYEAR), (in_range 1 mo 12),
    (in_range 1 d (days_in_month y mo)), (in_range 0 h 23), (in_range 0 mi 59),
    (in_range 0 s 59), (in_range 0 us 999999); simpl;
    try (split; [discriminate | intros (? & _); discriminate]).
  destruct (Z.eqb_spec f 0) as [-> | F0]; [simpl; split; [intros H; injection H as <-; auto | intros (_ & _ & ->); reflexivity] |].
  destruct (Z.eqb_spec f 1) as [-> | F1]; [simpl; split; [intros H; injection H as <-; auto | intros (_ & _ & ->); reflexivity] |].
  simpl. split; [discriminate | intros (_ & [E | E] & _); contradiction].
Qed.

(** ** The order *)

(** Two datetimes compare equal exactly when they are the same value. *)
Lemma dt_compare_eq (a b : datetime) : dt_compare a b = Eq <-> a = b.
Proof.
  unfold dt_compare. rewrite !lex_compare_Eq, Z.compare_eq_iff.
  split.
  - destruct a, b; simpl; intuition congruence.
  - intros ->. intuition.
Qed.

Lemma dt_compare_antisym (a b : datetime) : dt_compare b a = CompOpp (dt_compare a b).
Proof.
  unfold dt_compare. rewrite !lex_opp, <- !Z.compare_antisym. reflexivity.
Qed.

Ltac lex_lt_trans :=
  repeat (intros ?H1 ?H2; eapply lex_compare_lt_trans; [exact H1 | exact H2 |];
          intros _ _; clear H1 H2).

Lemma dt_lt_trans (a b c : datetime) : dt_lt a b -> dt_lt b c -> dt_lt a c.
Proof.
  unfold dt_lt, dt_compare. lex_lt_trans.
  rewrite !Z.compare_lt_iff. lia.
Qed.

Lemma dt_le_lt_eq (a b : datetime) : dt_le a b <-> dt_lt a b \/ a = b.
Proof.
  unfold dt_le, dt_lt. rewrite <- dt_compare_eq.
  destruct (dt_compare a b); intuition discriminate.
Qed.

Lemma dt_le_refl (a : datetime) : dt_le a a.
Proof. apply dt_le_lt_eq. auto. Qed.

Lemma dt_le_trans (a b c : datetime) : dt_le a b -> dt_le b c -> dt_le a c.
Proof.
  rewrite !dt_le_lt_eq. intros [H1 | <-] [H2 | <-]; eauto using dt_lt_trans.
Qed.

Lemma dt_le_total (a b : datetime) : dt_le a b \/ dt_le b a.
Proof.
  unfold dt_le. rewrite (dt_compare_antisym a b).
  destruct (dt_compare a b); simpl; intuition discriminate.
Qed.

#[export] Hint Resolve dt_le_refl dt_le_trans : pyapi.

