(* ===== verification/IsoFormat.v ===== *)
(** * IsoFormat: [datetime.isoformat()] and ISO-8601 parsing

    The handler ([src/python-API/app.py] line 8) returns
    [datetime.now().isoformat()], with the defaults [sep='T'] and
    [timespec='auto'].  CPython's [datetime.isoformat] prints
    ["%04d-%02d-%02d%c" % (year, month, day, sep)], then the time by
    [_format_time(hh, mm, ss, us, timespec)], then the UTC offset, empty
    for a naive value.  [_format_time] looks [timespec] up in a table of
    five formats and raises [ValueError] on an unknown name; ['auto'] picks
    ['microseconds'] when [us] is non-zero and ['seconds'] otherwise.

    [parse_iso] reads the format the spec describes,
    [YYYY-MM-DDTHH:MM:SS[.ffffff]], and checks the fields as the
    constructor does; it is the [parse] of the spec's properties.

    Theorems: the text of a valid datetime ([isoformat_auto_iso]), its
    length, the round trip through [parse_iso], what [parse_iso] accepts,
    and that comparing the texts as strings compares the datetimes. *)

From Stdlib Require Import ZArith String Ascii List Bool Lia.
From S2P Require Import Prelude PyInt DateTime.

Local Open Scope string_scope.
Local Open Scope Z_scope.

(** ** [_format_time] *)

(** The formats of [_format_time]'s [specs] table. *)
Inductive time_spec : Type :=
| Hours | Minutes | Seconds | Milliseconds | Microseconds.

(** [specs[timespec]]: the table lookup by name. *)
Definition lookup_spec (timespec : string) : option time_spec :=
  if String.eqb timespec "hours" then Some Hours
  else if String.eqb timespec "minutes" then Some Minutes
  else if String.eqb timespec "seconds" then Some Seconds
  else if String.eqb timespec "milliseconds" then Some Milliseconds
  else if String.eqb timespec "microseconds" then Some Microseconds
  else None.

(** [fmt.format(hh, mm, ss, us)] for each entry of the table. *)
Definition render_time (spec : time_spec) (hh mm ss us : Z) : string :=
  match spec with
  | Hours => format_d0 2 hh
  | Minutes => format_d0 2 hh ++ ":" ++ format_d0 2 mm
  | Seconds => format_d0 2 hh ++ ":" ++ format_d0 2 mm ++ ":" ++ format_d0 2 ss
  | Milliseconds =>
      format_d0 2 hh ++ ":" ++ format_d0 2 mm ++ ":" ++ format_d0 2 ss ++ "." ++ format_d0 3 us
  | Microseconds =>
      format_d0 2 hh ++ ":" ++ format_d0 2 mm ++ ":" ++ format_d0 2 ss ++ "." ++ format_d0 6 us
  end.

(** [_format_time(hh, mm, ss, us, timespec)]. *)
Definition format_time (hh mm ss us : Z) (timespec : string) : result string :=
  let '(timespec, us) :=
    if String.eqb timespec "auto"
    then ((if us =? 0 then "seconds" else "microseconds"), us)
    else if String.eqb timespec "milliseconds" then (timespec, us / 1000)
    else (timespec, us) in
  match lookup_spec timespec with
  | Some spec => Ok (render_time spec hh mm ss us)
  | None => Raise (ValueError "Unknown timespec value")
  end.

(** [datetime.isoformat(sep, timespec)] of a naive datetime: the offset
    part [_format_offset(None)] is empty. *)
Definition isoformat (dt : datetime) (sep : ascii) (timespec : string) : result string :=
  bind (format_time (hour dt) (minute dt) (second dt) (microsecond dt) timespec)
    (fun t =>
       Ok (format_d0 4 (year dt) ++ "-" ++ format_d0 2 (month dt) ++ "-"
           ++ format_d0 2 (day dt) ++ String sep "" ++ t)).

(** ** The ISO-8601 parser of the spec *)

(** Consume the character [c] in front of [s]. *)
Definition expect (c : ascii) (s : string) : option string :=
  match s with
  | String c' s' => if Ascii.eqb c c' then Some s' else None
  | EmptyString => None
  end.

(** The optional fraction: nothing, or ['.'] and six digits. *)
Definition parse_fraction (s : string) : option Z :=
  match s with
  | EmptyString => Some 0
  | String c s' =>
      if Ascii.eqb c "." then
        match parse_digits 6 0 s' with
        | Some (us, EmptyString) => Some us
        | _ => None
        end
      else None
  end.

Definition option_bind {A B} (o : option A) (k : A -> option B) : option B :=
  match o with Some a => k a | None => None end.

(** [YYYY-MM-DDTHH:MM:SS[.ffffff]], checked by the constructor. *)
Definition parse_iso (s : string) : option datetime :=
  option_bind (parse_digits 4 0 s) (fun '(y, s) =>
  option_bind (expect "-" s) (fun s =>
  option_bind (parse_digits 2 0 s) (fun '(mo, s) =>
  option_bind (expect "-" s) (fun s =>
  option_bind (parse_digits 2 0 s) (fun '(d, s) =>
  option_bind (expect "T" s) (fun s =>
  option_bind (parse_digits 2 0 s) (fun '(h, s) =>
  option_bind (expect ":" s) (fun s =>
  option_bind (parse_digits 2 0 s) (fun '(mi, s) =>
  option_bind (expect ":" s) (fun s =>
  option_bind (parse_digits 2 0 s) (fun '(sec, s) =>
  option_bind (parse_fraction s) (fun us =>
  match datetime_new y mo d h mi sec us with
  | Ok dt => Some dt
  | Raise _ => None
  end)))))))))))).

(** The spec's scenario, and the examples of CPython's documentation. *)
Example isoformat_examples :
  isoformat (mk_datetime 2024 1 15 10 30 0 123456) "T" "auto"
    = Ok "2024-01-15T10:30:00.123456"
  /\ isoformat (mk_datetime 2024 1 15 10 30 0 0) "T" "auto" = Ok "2024-01-15T10:30:00"
  /\ isoformat (mk_datetime 2019 5 18 15 17 8 132263) " " "milliseconds"
    = Ok "2019-05-18 15:17:08.132"
  /\ isoformat (mk_datetime 2019 5 18 15 17 8 0) "T" "minutes" = Ok "2019-05-18T15:17"
  /\ isoformat (mk_datetime 2019 5 18 15 17 8 0) "T" "days"
    = Raise (ValueError "Unknown timespec value")
  /\ parse_iso "2024-01-15T10:30:00.123456" = Some (mk_datetime 2024 1 15 10 30 0 123456)
  /\ parse_iso "2023-02-29T10:30:00" = None.
Proof. repeat split; reflexivity. Qed.

(** ** The format the spec states *)

(** [YYYY-MM-DDTHH:MM:SS], fixed width. *)
Definition iso_date_time (dt : datetime) : string :=
  digits_fixed 4 (year dt) ++ "-" ++ digits_fixed 2 (month dt) ++ "-"
  ++ digits_fixed 2 (day dt) ++ "T" ++ digits_fixed 2 (hour dt) ++ ":"
  ++ digits_fixed 2 (minute dt) ++ ":" ++ digits_fixed 2 (second dt).

(** [[.ffffff]]: present when the microseconds are not zero. *)
Definition iso_fraction (us : Z) : string :=
  if us =? 0 then "" else "." ++ digits_fixed 6 us.

(** The spec's [YYYY-MM-DDTHH:MM:SS[.ffffff]]. *)
Definition iso_text (dt : datetime) : string := iso_date_time dt ++ iso_fraction (microsecond dt).

(** ** Lemmas *)

(** The ranges of a valid datetime's fields, as hypotheses for [lia]. *)
Ltac valid_ranges H :=
  match type of H with
  | valid_datetime ?dt = true =>
      let H' := fresh "Hr" in
      pose proof H as H'; apply valid_datetime_iff in H';
      destruct H' as (? & ? & ? & ? & ? & ? & ?);
      pose proof (days_in_month_bounds (year dt) (month dt) ltac:(lia))
  end.

Lemma expect_cons (c : ascii) (s : string) : expect c (String c "" ++ s) = Some s.
Proof. simpl. rewrite Ascii.eqb_refl. reflexivity. Qed.

Lemma expect_some (c : ascii) (s r : string) : expect c s = Some r -> s = String c "" ++ r.
Proof.
  destruct s as [|c' s']; simpl; [discriminate |].
  destruct (Ascii.eqb_spec c c'); [congruence | discriminate].
Qed.

Lemma option_bind_some {A B} (o : option A) (k : A -> option B) (b : B) :
  option_bind o k = Some b -> exists a, o = Some a /\ k a = Some b.
Proof. destruct o; simpl; [eauto | discriminate]. Qed.

Lemma iso_fraction_length (us : Z) :
  String.length (iso_fraction us) = if us =? 0 then 0%nat else 7%nat.
Proof. unfold iso_fraction. destruct (us =? 0); reflexivity. Qed.

(** The fractions compare as the microseconds they print. *)
Lemma compare_iso_fraction (ua ub : Z) :
  0 <= ua < 1000000 -> 0 <= ub < 1000000 ->
  String.compare (iso_fraction ua) (iso_fraction ub) = Z.compare ua ub.
Proof.
  intros Ha Hb. unfold iso_fraction.
  destruct (Z.eqb_spec ua 0), (Z.eqb_spec ub 0); subst.
  - reflexivity.
  - symmetry. apply Z.compare_lt_iff. lia.
  - symmetry. apply Z.compare_gt_iff. lia.
  - rewrite compare_app_common.
    pose proof (compare_digits_fixed 6 ua ub "" "") as H.
    rewrite !string_app_nil_r in H. rewrite H.
    rewrite !Z.mod_small by (simpl; lia). destruct (Z.compare ua ub); reflexivity.
Qed.

Lemma parse_fraction_iso (us : Z) :
  0 <= us < 1000000 -> parse_fraction (iso_fraction us) = Some us.
Proof.
  intros Hus. unfold iso_fraction. destruct (Z.eqb_spec us 0) as [-> | Hne]; [reflexivity |].
  cbn [String.append parse_fraction]. rewrite Ascii.eqb_refl.
  rewrite <- (string_app_nil_r (digits_fixed 6 us)), parse_digits_fixed.
  rewrite Z.mod_small by (simpl; lia). reflexivity.
Qed.

Lemma parse_fraction_sound (s : string) (us : Z) :
  parse_fraction s = Some us ->
  (s = "" /\ us = 0) \/ (0 <= us < 1000000 /\ s = "." ++ digits_fixed 6 us).
Proof.
  unfold parse_fraction. destruct s as [|c s']; [intros [=<-]; auto |].
  destruct (Ascii.eqb_spec c "."); [subst | discriminate].
  destruct (parse_digits 6 0 s') as [[v [|c' r]] |] eqn:E; try discriminate.
  intros [=<-]. apply parse_digits_sound in E as (n & Hn & -> & ->).
  right. rewrite string_app_nil_r. simpl in Hn. auto.
Qed.

(** Peel one step of [parse_iso] off a hypothesis. *)
Ltac parse_iso_step :=
  match goal with
  | H : option_bind (parse_digits _ _ _) _ = Some _ |- _ =>
      let Hd := fresh "Hd" in
      apply option_bind_some in H; destruct H as [[? ?] [Hd H]]; cbv beta iota in H;
      apply parse_digits_sound in Hd; destruct Hd as (? & ? & ? & ?); subst
  | H : option_bind (expect _ _) _ = Some _ |- _ =>
      let He := fresh "He" in
      apply option_bind_some in H; destruct H as [? [He H]];
      apply expect_some in He; subst
  | H : option_bind (parse_fraction _) _ = Some _ |- _ =>
      let Hf := fresh "Hf" in
      apply option_bind_some in H; destruct H as [? [Hf H]];
      apply parse_fraction_sound in Hf
  end.

(** ** Theorems *)

(** On a valid datetime, [isoformat()] prints the ISO text. *)
Lemma isoformat_auto_iso (dt : datetime) :
  valid_datetime dt = true -> isoformat dt "T" "auto" = Ok (iso_text dt).
Proof.
  intros Hv. valid_ranges Hv.
  unfold isoformat, format_time, iso_text, iso_date_time, iso_fraction. simpl String.eqb.
  cbv iota beta.
  destruct (microsecond dt =? 0) eqn:E;
    [change (lookup_spec "seconds") with (Some Seconds)
    | change (lookup_spec "microseconds") with (Some Microseconds)];
    cbn [render_time bind];
    rewrite !format_d0_fixed by (simpl; lia);
    rewrite ?string_app_assoc, ?string_app_nil_r; reflexivity.
Qed.

(** C5 (refinement): on a valid datetime, [isoformat()] with its defaults
    succeeds and prints the spec's [YYYY-MM-DDTHH:MM:SS[.ffffff]]. *)
Theorem isoformat_auto_text (dt : datetime) :
  valid_datetime dt = true -> isoformat dt "T" "auto" = Ok (iso_text dt).
Proof. apply isoformat_auto_iso. Qed.

(** The text is 19 characters long, or 26 with microseconds. *)
Lemma iso_text_length (dt : datetime) :
  String.length (iso_text dt) = if microsecond dt =? 0 then 19%nat else 26%nat.
Proof.
  unfold iso_text, iso_date_time.
  rewrite !string_length_app, !digits_fixed_length, iso_fraction_length.
  destruct (microsecond dt =? 0); reflexivity.
Qed.

(** Comparing the texts of two valid datetimes compares the datetimes. *)
Lemma iso_text_compare (a b : datetime) :
  valid_datetime a = true -> valid_datetime b = true ->
  String.compare (iso_text a) (iso_text b) = dt_compare a b.
Proof.
  intros Ha Hb. valid_ranges Ha. valid_ranges Hb.
  unfold iso_text, iso_date_time. rewrite !string_app_assoc.
  repeat (rewrite compare_digits_fixed || rewrite compare_app_common).
  rewrite compare_iso_fraction by lia.
  rewrite !Z.mod_small by (simpl; lia). reflexivity.
Qed.

(** [parse_iso] reads back the text of every valid datetime. *)
Lemma parse_iso_text (dt : datetime) :
  valid_datetime dt = true -> parse_iso (iso_text dt) = Some dt.
Proof.
  intros Hv. valid_ranges Hv.
  unfold parse_iso, iso_text, iso_date_time. rewrite !string_app_assoc.
  repeat (rewrite parse_digits_fixed || rewrite expect_cons; cbn [option_bind]).
  rewrite parse_fraction_iso by lia. cbn [option_bind].
  rewrite !Z.mod_small by (simpl; lia). cbn [Z.mul Z.add].
  rewrite datetime_new_valid by exact Hv. reflexivity.
Qed.

(** [parse_iso] accepts the texts of valid datetimes, and the same texts
    with a written-out zero fraction [.000000]. *)
Lemma parse_iso_sound (s : string) (dt : datetime) :
  parse_iso s = Some dt ->
  valid_datetime dt = true
  /\ (s = iso_text dt \/ (microsecond dt = 0 /\ s = iso_date_time dt ++ ".000000")).
Proof.
  unfold parse_iso. intros H. repeat parse_iso_step.
  destruct (datetime_new _ _ _ _ _ _ _) as [dt' |] eqn:E; [| discriminate].
  injection H as <-. apply datetime_new_iff in E as [Hv ->]. split; [exact Hv |].
  unfold iso_text, iso_date_time; cbn [year month day hour minute second microsecond].
  rewrite !string_app_assoc.
  destruct Hf as [[-> ->] | [Hus ->]]; [left; reflexivity |].
  match goal with |- context [iso_fraction ?u] => destruct (Z.eqb_spec u 0) as [Hz | Hne] end.
  - subst. right. split; reflexivity.
  - left. unfold iso_fraction. rewrite (proj2 (Z.eqb_neq _ _) Hne). reflexivity.
Qed.

(** With [timespec='microseconds'] the fraction is always printed. *)
Lemma isoformat_microseconds_text (dt : datetime) :
  valid_datetime dt = true ->
  isoformat dt "T" "microseconds" = Ok (iso_date_time dt ++ "." ++ digits_fixed 6 (microsecond dt)).
Proof.
  intros Hv. valid_ranges Hv.
  unfold isoformat, format_time, iso_date_time. simpl String.eqb. cbv iota beta.
  change (lookup_spec "microseconds") with (Some Microseconds). cbn [render_time bind].
  rewrite !format_d0_fixed by (simpl; lia).
  rewrite ?string_app_assoc. reflexivity.
Qed.

(** C23 (bounds): the text [isoformat()] returns for a valid datetime is 19
    characters long, or 26 when the microseconds are not zero. *)
Theorem isoformat_length (dt : datetime) (s : string) :
  valid_datetime dt = true -> isoformat dt "T" "auto" = Ok s ->
  String.length s = if microsecond dt =? 0 then 19%nat else 26%nat.
Proof.
  intros Hv Hs. rewrite isoformat_auto_iso in Hs by exact Hv.
  injection Hs as <-. apply iso_text_length.
Qed.

(** C7 (order): comparing the texts [isoformat()] returns for two valid
    datetimes as strings, as Python compares [str], compares the datetimes:
    the text order is the time order. *)
Theorem isoformat_compare (a b : datetime) (sa sb : string) :
  valid_datetime a = true -> valid_datetime b = true ->
  isoformat a "T" "auto" = Ok sa -> isoformat b "T" "auto" = Ok sb ->
  String.compare sa sb = dt_compare a b.
Proof.
  intros Ha Hb Hsa Hsb.
  rewrite isoformat_auto_iso in Hsa, Hsb by assumption.
  injection Hsa as <-. injection Hsb as <-. apply iso_text_compare; assumption.
Qed.

(** C6 (round trip): the spec's ISO-8601 parser reads back, from the text
    [isoformat()] returns, the datetime it was printed from. *)
Theorem parse_isoformat (dt : datetime) (s : string) :
  valid_datetime dt = true -> isoformat dt "T" "auto" = Ok s -> parse_iso s = Some dt.
Proof.
  intros Hv Hs. rewrite isoformat_auto_iso in Hs by exact Hv.
  injection Hs as <-. apply parse_iso_text; exact Hv.
Qed.

(** C22 (parser): what the ISO-8601 parser accepts is the text of a valid
    datetime, printed by [isoformat] with [timespec] ['auto'] or
    ['microseconds']. *)
Theorem parse_iso_accepts (s : string) (dt : datetime) :
  parse_iso s = Some dt ->
  valid_datetime dt = true
  /\ (isoformat dt "T" "auto" = Ok s \/ isoformat dt "T" "microseconds" = Ok s).
Proof.
  intros H. destruct (parse_iso_sound s dt H) as [Hv [-> | [Hz ->]]]; split; auto.
  - left. apply isoformat_auto_iso; exact Hv.
  - right. rewrite isoformat_microseconds_text by exact Hv. rewrite Hz. reflexivity.
Qed.

(** ** Witnesses *)

Definition scenario_dt : datetime := mk_datetime 2024 1 15 10 30 0 123456.
Definition leap_day_dt : datetime := mk_datetime 2024 2 29 23 59 59 0.

Lemma isoformat_auto_text_witness :
  valid_datetime scenario_dt = true
  /\ isoformat scenario_dt "T" "auto" = Ok (iso_text scenario_dt).
Proof. split; [reflexivity | apply isoformat_auto_text; reflexivity]. Defined.

Lemma isoformat_length_witness :
  valid_datetime scenario_dt = true
  /\ isoformat scenario_dt "T" "auto" = Ok "2024-01-15T10:30:00.123456"
  /\ String.length "2024-01-15T10:30:00.123456" = 26%nat.
Proof.
  split; [reflexivity | split; [reflexivity |]].
  apply (isoformat_length scenario_dt); reflexivity.
Defined.

Lemma isoformat_compare_witness :
  valid_datetime scenario_dt = true /\ valid_datetime leap_day_dt = true
  /\ isoformat scenario_dt "T" "auto" = Ok "2024-01-15T10:30:00.123456"
  /\ isoformat leap_day_dt "T" "auto" = Ok "2024-02-29T23:59:59"
  /\ String.compare "2024-01-15T10:30:00.123456" "2024-02-29T23:59:59"
     = dt_compare scenario_dt leap_day_dt.
Proof.
  do 4 (split; [reflexivity |]).
  apply isoformat_compare; reflexivity.
Defined.

Lemma parse_isoformat_witness :
  valid_datetime leap_day_dt = true
  /\ isoformat leap_day_dt "T" "auto" = Ok "2024-02-29T23:59:59"
  /\ parse_iso "2024-02-29T23:59:59" = Some leap_day_dt.
Proof.
  split; [reflexivity | split; [reflexivity |]].
  apply parse_isoformat; reflexivity.
Defined.

Lemma parse_iso_accepts_witness :
  parse_iso "2024-02-29T23:59:59.000000" = Some leap_day_dt
  /\ valid_datetime leap_day_dt = true
  /\ (isoformat leap_day_dt "T" "auto" = Ok "2024-02-29T23:59:59.000000"
      \/ isoformat leap_day_dt "T" "microseconds" = Ok "2024-02-29T23:59:59.000000").
Proof.
  assert (H : parse_iso "2024-02-29T23:59:59.000000" = Some leap_day_dt) by reflexivity.
  split; [exact H | apply parse_iso_accepts; exact H].
Defined.
