(* ===== verification/Calendar.v ===== *)
(** * Calendar: proleptic Gregorian ordinals

    [datetime.now()] (called at [src/python-API/app.py] line 8) turns the
    system clock's count of days into a calendar date.  The conversion
    between dates and day ordinals (day 1 is 0001-01-01) is CPython's
    [_ymd2ord] and [_ord2ymd] of [Lib/_pydatetime.py], modelled here as
    they are written: [_ord2ymd] splits the ordinal into 400-, 100-, 4- and
    1-year periods by [divmod], estimates the month by [(n + 50) >> 5] and
    corrects the estimate once.  Its [assert]s are not modelled; the
    theorems below prove that they hold.

    Proofs: [_ord2ymd] commutes with a shift of 400 years (146097 days),
    and a kernel-checked computation over the 146097 ordinals of one cycle
    ([check_cycle]) shows it returns a valid date whose ordinal is the
    input; the two together give the result for every ordinal [n >= 1].
    [_ymd2ord] is the position of a date in the lexicographic order of
    valid dates, which gives the converse round trip and monotonicity. *)

From Stdlib Require Import ZArith List Bool Lia.
From S2P Require Import Prelude DateTime.
Import ListNotations.

Local Open Scope Z_scope.

(** ** Definitions *)

(** [_DAYS_BEFORE_MONTH]: the cumulative sums of [_DAYS_IN_MONTH]. *)
Definition DAYS_BEFORE_MONTH : list Z := [-1; 0; 31; 59; 90; 120; 151; 181; 212; 243; 273; 304; 334].

(** [_days_before_year(year)]. *)
Definition days_before_year (year : Z) : Z :=
  let y := year - 1 in y * 365 + y / 4 - y / 100 + y / 400.

(** [_days_before_month(year, month)]; Python adds the bool as 0 or 1. *)
Definition days_before_month (year month : Z) : Z :=
  nth (Z.to_nat month) DAYS_BEFORE_MONTH 0 + Z.b2z ((month >? 2) && is_leap year).

(** [_ymd2ord(year, month, day)]. *)
Definition ymd2ord (year month day : Z) : Z :=
  days_before_year year + days_before_month year month + day.

(** [_DI400Y], [_DI100Y], [_DI4Y]. *)
Definition DI400Y : Z := days_before_year 401.
Definition DI100Y : Z := days_before_year 101.
Definition DI4Y : Z := days_before_year 5.

(** [_ord2ymd(n)]. *)
Definition ord2ymd (n : Z) : Z * Z * Z :=
  let n := n - 1 in
  let n400 := n / DI400Y in
  let n := n mod DI400Y in
  let year := n400 * 400 + 1 in
  let n100 := n / DI100Y in
  let n := n mod DI100Y in
  let n4 := n / DI4Y in
  let n := n mod DI4Y in
  let n1 := n / 365 in
  let n := n mod 365 in
  let year := year + (n100 * 100 + n4 * 4 + n1) in
  if (n1 =? 4) || (n100 =? 4) then (year - 1, 12, 31)
  else
    let leapyear := (n1 =? 3) && (negb (n4 =? 24) || (n100 =? 3)) in
    let month := Z.shiftr (n + 50) 5 in
    let preceding := nth (Z.to_nat month) DAYS_BEFORE_MONTH 0
                     + Z.b2z ((month >? 2) && leapyear) in
    let '(month, preceding) :=
      if preceding >? n
      then let month := month - 1 in
           (month, preceding - (nth (Z.to_nat month) DAYS_IN_MONTH 0
                                + Z.b2z ((month =? 2) && leapyear)))
      else (month, preceding) in
    (year, month, n - preceding + 1).

(** The date [ord2ymd] returns is a valid one and has ordinal [n]. *)
Definition ord2ymd_ok (n : Z) : bool :=
  let '(y, m, d) := ord2ymd n in
  in_range 1 m 12 && in_range 1 d (days_in_month y m) && (ymd2ord y m d =? n).

(** Check [ord2ymd_ok] on [k] consecutive ordinals from [n]. *)
Fixpoint check_cycle (k : nat) (n : Z) : bool :=
  match k with
  | O => true
  | S k' => if ord2ymd_ok n then check_cycle k' (n + 1) else false
  end.

Example ord2ymd_examples :
  ord2ymd 1 = (1, 1, 1) /\ ymd2ord 1970 1 1 = 719163 /\ ord2ymd 719163 = (1970, 1, 1)
  /\ ord2ymd (ymd2ord 2024 2 29) = (2024, 2, 29) /\ ord2ymd (ymd2ord 2000 12 31) = (2000, 12, 31)
  /\ ord2ymd (ymd2ord 9999 12 31) = (9999, 12, 31) /\ DI400Y = 146097.
Proof. repeat split; reflexivity. Qed.

(** ** One cycle, by computation *)

Lemma check_cycle_sound (k : nat) (n0 : Z) :
  check_cycle k n0 = true -> forall n, n0 <= n < n0 + Z.of_nat k -> ord2ymd_ok n = true.
Proof.
  revert n0. induction k as [|k IH]; intros n0 H n Hn; [lia |].
  simpl in H. destruct (ord2ymd_ok n0) eqn:E; [| discriminate].
  destruct (Z.eq_dec n n0) as [-> | Hne]; [exact E |].
  apply (IH (n0 + 1)); [exact H | lia].
Qed.

(** ** Shifting by whole cycles *)

Lemma DI400Y_value : DI400Y = 146097.
Proof. reflexivity. Qed.

(** Adding [d] times the divisor changes the quotient by [d] and not the
    remainder. *)
Lemma div_shift (a d c : Z) : 0 < c -> (a + d * c) / c = a / c + d.
Proof. intros Hc. apply Z.div_add. lia. Qed.

Lemma mod_shift (a d c : Z) : 0 < c -> (a + d * c) mod c = a mod c.
Proof. intros Hc. apply Z.mod_add. lia. Qed.

Lemma is_leap_shift (y k : Z) : is_leap (y + 400 * k) = is_leap y.
Proof.
  unfold is_leap.
  replace (y + 400 * k) with (y + (100 * k) * 4) by ring. rewrite mod_shift by lia.
  replace (y + 100 * k * 4) with (y + (4 * k) * 100) by ring. rewrite mod_shift by lia.
  replace (y + 4 * k * 100) with (y + k * 400) by ring. rewrite mod_shift by lia.
  reflexivity.
Qed.

Lemma days_in_month_shift (y k m : Z) : days_in_month (y + 400 * k) m = days_in_month y m.
Proof. unfold days_in_month. rewrite is_leap_shift. reflexivity. Qed.

Lemma ymd2ord_shift (y k m d : Z) : ymd2ord (y + 400 * k) m d = ymd2ord y m d + k * DI400Y.
Proof.
  unfold ymd2ord, days_before_month, days_before_year. rewrite is_leap_shift, DI400Y_value.
  replace (y + 400 * k - 1) with ((y - 1) + (100 * k) * 4) by ring.
  rewrite div_shift by lia.
  replace (y - 1 + 100 * k * 4) with ((y - 1) + (4 * k) * 100) by ring.
  rewrite div_shift by lia.
  replace (y - 1 + 4 * k * 100) with ((y - 1) + k * 400) by ring.
  rewrite div_shift by lia. ring.
Qed.

(** [_ord2ymd] commutes with a shift of [k] cycles of 400 years. *)
Lemma ord2ymd_shift (n k : Z) :
  ord2ymd (n + k * DI400Y) = let '(y, m, d) := ord2ymd n in (y + 400 * k, m, d).
Proof.
  unfold ord2ymd. rewrite DI400Y_value. cbv zeta.
  replace (n + k * 146097 - 1) with ((n - 1) + k * 146097) by ring.
  rewrite div_shift, mod_shift by lia.
  destruct (_ || _).
  - f_equal. f_equal. lia.
  - destruct (_ >? _); f_equal; f_equal; lia.
Qed.

Lemma ord2ymd_ok_shift (n k : Z) : ord2ymd_ok (n + k * DI400Y) = ord2ymd_ok n.
Proof.
  unfold ord2ymd_ok. rewrite ord2ymd_shift.
  destruct (ord2ymd n) as [[y m] d].
  rewrite days_in_month_shift, ymd2ord_shift.
  destruct (ymd2ord y m d =? n) eqn:E.
  - apply Z.eqb_eq in E. subst. rewrite Z.eqb_refl. reflexivity.
  - replace (ymd2ord y m d + k * DI400Y =? n + k * DI400Y) with false; [reflexivity |].
    symmetry. apply Z.eqb_neq. apply Z.eqb_neq in E. lia.
Qed.

(** ** The order of ordinals *)

(** A valid month and day of a year. *)
Definition valid_date (y m d : Z) : Prop := 1 <= m <= 12 /\ 1 <= d <= days_in_month y m.

Definition days_in_year (y : Z) : Z := if is_leap y then 366 else 365.

Lemma days_before_year_shift (y k : Z) :
  days_before_year (y + 400 * k) = days_before_year y + k * 146097.
Proof.
  pose proof (ymd2ord_shift y k 1 1) as H. unfold ymd2ord, days_before_month in H.
  rewrite is_leap_shift, DI400Y_value in H. lia.
Qed.

(** A year has as many days as the next January 1st is further away. *)
Lemma days_before_year_succ (y : Z) :
  days_before_year (y + 1) = days_before_year y + days_in_year y.
Proof.
  replace y with (y mod 400 + 400 * (y / 400)) at 1 2 3 by zlia.
  replace (y mod 400 + 400 * (y / 400) + 1) with ((y mod 400 + 1) + 400 * (y / 400)) by ring.
  rewrite !days_before_year_shift. unfold days_in_year. rewrite is_leap_shift.
  enough (H : forall r, 0 <= r < 400 ->
            days_before_year (r + 1) = days_before_year r + (if is_leap r then 366 else 365))
    by (rewrite H by (apply Z.mod_pos_bound; lia); ring).
  intros r Hr.
  assert (Hc : forallb (fun r => days_before_year (r + 1)
                                 =? days_before_year r + (if is_leap r then 366 else 365))
                 (map Z.of_nat (seq 0 400)) = true) by reflexivity.
  rewrite forallb_forall in Hc.
  apply Z.eqb_eq, Hc, in_map_iff. exists (Z.to_nat r). split; [lia |].
  apply in_seq. lia.
Qed.

Lemma days_before_month_succ (y m : Z) :
  1 <= m <= 11 -> days_before_month y (m + 1) = days_before_month y m + days_in_month y m.
Proof.
  intros Hm. unfold days_before_month, days_in_month.
  assert (Hk : (1 <= Z.to_nat m <= 11)%nat) by lia.
  replace (Z.to_nat (m + 1)) with (S (Z.to_nat m)) by lia.
  destruct (is_leap y);
  (destruct (Z.to_nat m) as [|k] eqn:E; [lia |];
   do 11 (destruct k as [|k]; [replace m with (Z.of_nat (Z.to_nat m)) by lia; rewrite E; reflexivity |]);
   lia).
Qed.

Lemma days_before_month_last (y : Z) :
  days_before_month y 12 + days_in_month y 12 = days_in_year y.
Proof. unfold days_before_month, days_in_month, days_in_year. destruct (is_leap y); reflexivity. Qed.

Lemma days_before_month_first (y : Z) : days_before_month y 1 = 0.
Proof. reflexivity. Qed.

Lemma days_in_year_bounds (y : Z) : 365 <= days_in_year y <= 366.
Proof. unfold days_in_year. destruct (is_leap y); lia. Qed.

Lemma days_before_month_mono (y m m' : Z) :
  1 <= m <= m' -> m' <= 12 -> days_before_month y m <= days_before_month y m'.
Proof.
  apply (monotone_steps (days_before_month y) 1 12). intros i Hi.
  rewrite days_before_month_succ by lia.
  pose proof (days_in_month_bounds y i ltac:(lia)). lia.
Qed.

Lemma days_before_year_mono (y y' : Z) : y < y' -> days_before_year (y + 1) <= days_before_year y'.
Proof.
  intros H. apply (monotone_steps days_before_year (y + 1) y'); [| lia | lia].
  intros i Hi. rewrite days_before_year_succ. pose proof (days_in_year_bounds i). lia.
Qed.

(** The day of a valid date within its month and within its year. *)
Lemma date_in_month (y m d : Z) :
  valid_date y m d -> 1 <= m <= 11 ->
  days_before_month y m < days_before_month y m + d <= days_before_month y (m + 1).
Proof. intros [Hm Hd] Hm'. rewrite days_before_month_succ by lia. lia. Qed.

Lemma date_in_year (y m d : Z) :
  valid_date y m d -> 1 <= days_before_month y m + d <= days_in_year y.
Proof.
  intros [Hm Hd]. rewrite <- days_before_month_last.
  pose proof (days_before_month_mono y 1 m ltac:(lia) ltac:(lia)) as H1.
  rewrite days_before_month_first in H1.
  destruct (Z.eq_dec m 12) as [-> | Hne]; [lia |].
  pose proof (days_before_month_mono y (m + 1) 12 ltac:(lia) ltac:(lia)).
  pose proof (days_in_month_bounds y 12 ltac:(lia)).
  rewrite days_before_month_succ in * by lia. lia.
Qed.

(** [_ymd2ord] lists the valid dates in their lexicographic order: it
    compares two valid dates as the tuples [(year, month, day)] compare. *)
Lemma ymd2ord_compare (y m d y' m' d' : Z) :
  valid_date y m d -> valid_date y' m' d' ->
  Z.compare (ymd2ord y m d) (ymd2ord y' m' d')
  = lex (Z.compare y y') (lex (Z.compare m m') (Z.compare d d')).
Proof.
  intros V V'. pose proof (date_in_year y m d V). pose proof (date_in_year y' m' d' V').
  pose proof V as [Hm Hd]. pose proof V' as [Hm' Hd']. unfold ymd2ord.
  destruct (Z.compare_spec y y') as [<- | Hy | Hy]; simpl.
  - destruct (Z.compare_spec m m') as [<- | Hmm | Hmm]; simpl.
    + rewrite <- !Z.add_assoc, !Z.add_compare_mono_l. reflexivity.
    + apply Z.compare_lt_iff. pose proof (date_in_month y m d V ltac:(lia)).
      pose proof (days_before_month_mono y (m + 1) m' ltac:(lia) ltac:(lia)). lia.
    + apply Z.compare_gt_iff. pose proof (date_in_month y m' d' V' ltac:(lia)).
      pose proof (days_before_month_mono y (m' + 1) m ltac:(lia) ltac:(lia)). lia.
  - apply Z.compare_lt_iff. pose proof (days_before_year_mono y y' Hy).
    rewrite days_before_year_succ in *. lia.
  - apply Z.compare_gt_iff. pose proof (days_before_year_mono y' y Hy).
    rewrite days_before_year_succ in *. lia.
Qed.

(** Hence [_ymd2ord] is injective on valid dates. *)
Lemma ymd2ord_inj (y m d y' m' d' : Z) :
  valid_date y m d -> valid_date y' m' d' -> ymd2ord y m d = ymd2ord y' m' d' ->
  (y, m, d) = (y', m', d').
Proof.
  intros V V' E. pose proof (ymd2ord_compare _ _ _ _ _ _ V V') as C.
  rewrite E, Z.compare_refl in C. symmetry in C.
  apply lex_compare_Eq in C as [-> C]. apply lex_compare_Eq in C as [-> C].
  apply Z.compare_eq_iff in C as ->. reflexivity.
Qed.

(** ** The round trip, checked on one 400-year cycle

    The one computation of the development: the kernel evaluates
    [check_cycle] on the 146097 ordinals of the first 400-year cycle
    (about 16 seconds under [vm_compute]); with [ord2ymd_ok_shift] this
    covers every integer. *)

(** The 146097 ordinals of the first 400 years, checked by the kernel. *)
Lemma ord2ymd_ok_first_cycle (n : Z) : 1 <= n <= 146097 -> ord2ymd_ok n = true.
Proof.
  intros Hn. apply (check_cycle_sound 146097 1).
  - vm_compute. reflexivity.
  - assert (E : Z.of_nat 146097 = 146097) by reflexivity. lia.
Qed.

(** [_ord2ymd]'s result is a valid month and day of its year, and its
    ordinal is the input: for every integer, not only Python's range. *)
Lemma ord2ymd_ok_all (n : Z) : ord2ymd_ok n = true.
Proof.
  replace n with (((n - 1) mod DI400Y + 1) + ((n - 1) / DI400Y) * DI400Y)
    by (rewrite DI400Y_value; zlia).
  rewrite ord2ymd_ok_shift. apply ord2ymd_ok_first_cycle.
  rewrite DI400Y_value. zlia.
Qed.

Lemma ord2ymd_ok_spec (n y m d : Z) :
  ord2ymd n = (y, m, d) -> valid_date y m d /\ ymd2ord y m d = n.
Proof.
  intros E. pose proof (ord2ymd_ok_all n) as H. unfold ord2ymd_ok in H. rewrite E in H.
  apply andb_prop in H as [H H3]. apply andb_prop in H as [H1 H2].
  apply in_range_iff in H1, H2. apply Z.eqb_eq in H3. unfold valid_date. auto.
Qed.

(** C18 (round trip): [_ord2ymd] returns a valid date whose ordinal by
    [_ymd2ord] is the input, for every integer. *)
Theorem ord2ymd_roundtrip (n y m d : Z) :
  ord2ymd n = (y, m, d) -> 1 <= m <= 12 /\ 1 <= d <= days_in_month y m /\ ymd2ord y m d = n.
Proof. intros E. destruct (ord2ymd_ok_spec n y m d E) as [[Hm Hd] Ho]. auto. Qed.

(** C19 (round trip): [_ymd2ord] then [_ord2ymd] gives back every valid date. *)
Theorem ymd2ord_roundtrip (y m d : Z) :
  1 <= m <= 12 -> 1 <= d <= days_in_month y m -> ord2ymd (ymd2ord y m d) = (y, m, d).
Proof.
  intros Hm Hd. destruct (ord2ymd (ymd2ord y m d)) as [[y' m'] d'] eqn:E.
  destruct (ord2ymd_ok_spec _ _ _ _ E) as [V' Ho].
  apply (ymd2ord_inj _ _ _ _ _ _ V' (conj Hm Hd) Ho).
Qed.

(** [_ord2ymd] is monotone: the order of ordinals is the order of their dates. *)
Lemma ord2ymd_order (n n' y m d y' m' d' : Z) :
  ord2ymd n = (y, m, d) -> ord2ymd n' = (y', m', d') ->
  Z.compare n n' = lex (Z.compare y y') (lex (Z.compare m m') (Z.compare d d')).
Proof.
  intros E E'. destruct (ord2ymd_ok_spec _ _ _ _ E) as [V <-].
  destruct (ord2ymd_ok_spec _ _ _ _ E') as [V' <-].
  apply ymd2ord_compare; assumption.
Qed.

(** C20 (order): [_ord2ymd] maps the order of ordinals onto the order of the
    dates [(year, month, day)]. *)
Theorem ord2ymd_compare (n n' y m d y' m' d' : Z) :
  ord2ymd n = (y, m, d) -> ord2ymd n' = (y', m', d') ->
  Z.compare n n' = lex (Z.compare y y') (lex (Z.compare m m') (Z.compare d d')).
Proof. apply ord2ymd_order. Qed.

(** C21 (bounds): Python's ordinals [1 .. 3652059] are the dates of years 1 to 9999. *)
Theorem ord2ymd_year_range (n y m d : Z) :
  1 <= n <= 3652059 -> ord2ymd n = (y, m, d) -> 1 <= y <= 9999.
Proof.
  intros Hn E.
  pose proof (ord2ymd_order 1 n 1 1 1 y m d eq_refl E) as Hlo.
  pose proof (ord2ymd_order n 3652059 y m d 9999 12 31 E eq_refl) as Hhi.
  split.
  - destruct (Z.lt_ge_cases y 1) as [Hy | Hy]; [| exact Hy].
    rewrite (proj2 (Z.compare_gt_iff 1 y) Hy) in Hlo.
    rewrite Z.compare_gt_iff in Hlo. lia.
  - destruct (Z.lt_ge_cases 9999 y) as [Hy | Hy]; [| exact Hy].
    rewrite (proj2 (Z.compare_gt_iff y 9999) Hy) in Hhi.
    rewrite Z.compare_gt_iff in Hhi. lia.
Qed.

(** ** Witnesses *)

Lemma ord2ymd_roundtrip_witness :
  ord2ymd 738900 = (2024, 1, 15)
  /\ (1 <= 1 <= 12 /\ 1 <= 15 <= days_in_month 2024 1 /\ ymd2ord 2024 1 15 = 738900).
Proof.
  assert (E : ord2ymd 738900 = (2024, 1, 15)) by reflexivity.
  split; [exact E | exact (ord2ymd_roundtrip _ _ _ _ E)].
Defined.

Lemma ymd2ord_roundtrip_witness :
  1 <= 2 <= 12 /\ 1 <= 29 <= days_in_month 2000 2 /\ ord2ymd (ymd2ord 2000 2 29) = (2000, 2, 29).
Proof.
  assert (Hm : 1 <= 2 <= 12) by lia.
  assert (Hd : 1 <= 29 <= days_in_month 2000 2) by (vm_compute; split; discriminate).
  split; [exact Hm | split; [exact Hd | exact (ymd2ord_roundtrip _ _ _ Hm Hd)]].
Defined.

Lemma ord2ymd_compare_witness :
  ord2ymd 738900 = (2024, 1, 15) /\ ord2ymd 730179 = (2000, 2, 29)
  /\ Z.compare 738900 730179
     = lex (Z.compare 2024 2000) (lex (Z.compare 1 2) (Z.compare 15 29)).
Proof.
  assert (E1 : ord2ymd 738900 = (2024, 1, 15)) by reflexivity.
  assert (E2 : ord2ymd 730179 = (2000, 2, 29)) by reflexivity.
  split; [exact E1 | split; [exact E2 | exact (ord2ymd_compare _ _ _ _ _ _ _ _ E1 E2)]].
Defined.

Lemma ord2ymd_year_range_witness :
  1 <= 3652059 <= 3652059 /\ ord2ymd 3652059 = (9999, 12, 31) /\ 1 <= 9999 <= 9999.
Proof.
  assert (Hn : 1 <= 3652059 <= 3652059) by lia.
  assert (E : ord2ymd 3652059 = (9999, 12, 31)) by reflexivity.
  split; [exact Hn | split; [exact E | exact (ord2ymd_year_range _ _ _ _ Hn E)]].
Defined.
