(* ===== verification/Clock.v ===== *)
(** * Clock: [datetime.now()]

    The handler ([src/python-API/app.py] line 8) reads the clock with
    [datetime.now()], which CPython implements in C
    ([Modules/_datetimemodule.c], [Python/pytime.c], 3.13):
    - [datetime_best_possible] reads [CLOCK_REALTIME] with [PyTime_Time]:
      the [timespec] is converted to an int64 count of nanoseconds
      ([pytime_fromtimespec] with [pytime_mul] and [pytime_add]), and a
      reading outside it raises [OverflowError];
    - [_PyTime_AsTimevalTime_t] rounds it down to seconds and microseconds
      ([pytime_as_timeval], with C's truncating division corrected by
      [pytime_divide] and [pytime_divmod]);
    - [datetime_from_timet_and_us] converts the seconds with [localtime_r]
      under the local zone, caps a leap second at 59, computes [fold] by
      probing the local time one day earlier ([utc_to_seconds], [local],
      [detect_fold]), and builds the value with [new_datetime_ex2].
    The state is [SystemClock]: the [CLOCK_REALTIME] reading and the zone,
    a function from the UTC second to the offset in force ([tm_gmtoff]),
    so that daylight-saving transitions are modelled; [fixed_zone] and
    [fall_back] build zones, [paris_2024] is a real one.
    [datetime_best_possible] returns the value and its [fold];
    [datetime_now] the value the handler formats.

    Interface: [TimeSource] is what the handler needs of a clock (a read
    that returns a [datetime] or raises) and [TimeSourceLaws] what it
    promises: every value read is valid, and reads do not go back while
    the clock does not and the zone's offset does not fall.  The [App] and
    [Server] theorems are proved against these laws; [system_clock_laws]
    discharges them for [SystemClock].

    Theorems: the value read is the local time of the reading (C8); reads
    are monotone in zones without a fall-back (C9) and go back across one
    (C34); [datetime.now()] succeeds on every [PyTime_t] reading (C10) and
    raises [OverflowError] past 2262 (C11); [PyTime_Time]'s exact range
    (C29); the floor rounding (C30); the [fold] the probes compute (C31 to
    C33). *)

From Stdlib Require Import ZArith String List Bool Lia.
From S2P Require Import Prelude PyInt DateTime Calendar.

Local Open Scope string_scope.
Local Open Scope Z_scope.

(** ** The interface *)

Class TimeSource (S : Type) := {
  clock_read : S -> result datetime;
  clock_le : S -> S -> Prop
}.

Class TimeSourceLaws (S : Type) `{TimeSource S} := {
  read_valid : forall s dt, clock_read s = Ok dt -> valid_datetime dt = true;
  read_monotone : forall s s' dt dt',
    clock_le s s' -> clock_read s = Ok dt -> clock_read s' = Ok dt' -> dt_le dt dt'
}.

(** ** The system clock *)

(** A time zone: the UTC offset, in seconds, that [localtime_r] applies at
    a given UTC second ([tm_gmtoff]); a tz database rule. *)
Definition zone : Type := Z -> Z.

(** A zone without transitions. *)
Definition fixed_zone (off : Z) : zone := fun _ => off.

(** A zone with one transition at the UTC second [T], from offset [o1] to
    offset [o2]: with [o2 < o1] the clocks fall back at [T]. *)
Definition fall_back (T o1 o2 : Z) : zone := fun u => if u <? T then o1 else o2.

(** Europe/Paris in 2024: CEST (+2h) until 2024-10-27T01:00:00Z, CET (+1h)
    after; local time goes from 02:59:59 back to 02:00:00. *)
Definition paris_2024 : zone := fall_back 1729990800 7200 3600.

(** The clock's state: the [CLOCK_REALTIME] reading in nanoseconds since
    the Unix epoch, and the local time zone. *)
Record SystemClock : Type := mk_clock {
  clock_ns : Z;
  tz : zone
}.

(** *** [Python/pytime.c] *)

Definition PyTime_MIN : Z := - 2 ^ 63.
Definition PyTime_MAX : Z := 2 ^ 63 - 1.
Definition SEC_TO_NS : Z := 1000000000.
Definition SEC_TO_US : Z := 1000000.
Definition US_TO_NS : Z := 1000.

(** The lowest reading [pytime_fromtimespec] accepts: [pytime_mul] checks
    the seconds against [PyTime_MIN / SEC_TO_NS], rounded towards zero. *)
Definition PyTime_lowest : Z := -9223372036 * SEC_TO_NS.

(** [pytime_mul(&t, k)]: the product, or the bound it is clamped to and
    the overflow flag; [pytime_mul_check_overflow] divides as C does,
    rounding towards zero. *)
Definition pytime_mul (t k : Z) : Z * bool :=
  if (t <? Z.quot PyTime_MIN k) || (Z.quot PyTime_MAX k <? t)
  then ((if 0 <=? t then PyTime_MAX else PyTime_MIN), true)
  else (t * k, false).

(** [pytime_add(&t1, t2)]. *)
Definition pytime_add (t1 t2 : Z) : Z * bool :=
  if (0 <? t2) && (PyTime_MAX - t2 <? t1) then (PyTime_MAX, true)
  else if (t2 <? 0) && (t1 <? PyTime_MIN - t2) then (PyTime_MIN, true)
  else (t1 + t2, false).

(** [pytime_overflow()]'s exception. *)
Definition pytime_overflow : exc :=
  OverflowError "timestamp too large to convert to C PyTime_t".

(** [pytime_fromtimespec(&t, &ts, raise_exc=1)]. *)
Definition pytime_fromtimespec (tv_sec tv_nsec : Z) : result Z :=
  let '(t, o1) := pytime_mul tv_sec SEC_TO_NS in
  let '(t, o2) := pytime_add t tv_nsec in
  if o1 || o2 then Raise pytime_overflow else Ok t.

(** [PyTime_Time(&ts)]: [clock_gettime(CLOCK_REALTIME)] gives the reading
    as a normalised [timespec], converted to a [PyTime_t]. *)
Definition PyTime_Time (c : SystemClock) : result Z :=
  pytime_fromtimespec (clock_ns c / SEC_TO_NS) (clock_ns c mod SEC_TO_NS).

(** [pytime_divide(t, k, _PyTime_ROUND_FLOOR)], with C's truncating
    division. *)
Definition pytime_divide_floor (t k : Z) : Z :=
  if 0 <=? t then Z.quot t k else Z.quot (t - (k - 1)) k.

(** [pytime_divmod(t, k, &q, &r)]. *)
Definition pytime_divmod (t k : Z) : Z * Z :=
  let q := Z.quot t k in
  let r := Z.rem t k in
  if r <? 0 then (q - 1, r + k) else (q, r).

(** [pytime_as_timeval(t, &sec, &usec, _PyTime_ROUND_FLOOR)], which
    [_PyTime_AsTimevalTime_t] calls ([time_t] is 64-bit: its range check
    never fails on a [PyTime_t]). *)
Definition pytime_as_timeval (t : Z) : Z * Z :=
  pytime_divmod (pytime_divide_floor t US_TO_NS) SEC_TO_US.

(** *** [localtime_r] and [Modules/_datetimemodule.c] *)

(** [struct tm], as [localtime_r] fills it. *)
Record tm : Type := mk_tm {
  tm_year : Z; tm_mon : Z; tm_mday : Z; tm_hour : Z; tm_min : Z; tm_sec : Z
}.

Definition INT_MIN : Z := - 2 ^ 31.
Definition INT_MAX : Z := 2 ^ 31 - 1.

(** [_ymd2ord(1970, 1, 1)]: the ordinal of the Unix epoch. *)
Definition EPOCH_ORDINAL : Z := 719163.

(** [localtime_r(&t, &tm)]: the UTC second shifted by the zone's offset,
    split into days and seconds of the day, the days converted to a date;
    [None] ([EOVERFLOW]) when the year does not fit [tm_year]. *)
Definition localtime_r (z : zone) (t : Z) : option tm :=
  let lt := t + z t in
  let sod := lt mod 86400 in
  let '(y, m, d) := ord2ymd (lt / 86400 + EPOCH_ORDINAL) in
  if in_range INT_MIN (y - 1900) INT_MAX
  then Some (mk_tm (y - 1900) (m - 1) d (sod / 3600) ((sod mod 3600) / 60) (sod mod 60))
  else None.

(** [_PyTime_localtime(t, &tm)]: [OSError] from [errno]. *)
Definition PyTime_localtime (z : zone) (t : Z) : result tm :=
  match localtime_r z t with
  | Some x => Ok x
  | None => Raise (OSError 75 "Value too large for defined data type")
  end.

(** [utc_to_seconds(year, month, day, hour, minute, second)]. *)
Definition utc_to_seconds (year month day hour minute second : Z) : result Z :=
  if negb (in_range MINYEAR year MAXYEAR)
  then Raise (ValueError ("year " ++ format_d0 0 year ++ " is out of range"))
  else Ok (((ymd2ord year month day * 24 + hour) * 60 + minute) * 60 + second).

Definition epoch : Z := 719163 * 24 * 60 * 60.
Definition max_fold_seconds : Z := 24 * 3600.

(** [local(u)]: the local time of [u] seconds since 0001-01-01, in the
    same count. *)
Definition local (z : zone) (u : Z) : result Z :=
  (x <- PyTime_localtime z (u - epoch) ;;
   utc_to_seconds (tm_year x + 1900) (tm_mon x + 1) (tm_mday x) (tm_hour x) (tm_min x)
     (tm_sec x))%py.

(** The fold detection of [datetime_from_timet_and_us], the block run
    when [tzinfo == Py_None] and [f == _PyTime_localtime]: probe the local
    time one day earlier; if the offset fell since, probe the local time
    before the transition, and set [fold] when it gives the same local
    time. *)
Definition detect_fold (z : zone) (timet result_seconds : Z) : result Z :=
  (probe_seconds <- local z (epoch + timet - max_fold_seconds) ;;
   let transition := result_seconds - probe_seconds - max_fold_seconds in
   if transition <? 0
   then (probe <- local z (epoch + timet + transition) ;;
         Ok (if probe =? result_seconds then 1 else 0))
   else Ok 0)%py.

(** [datetime_from_timet_and_us(cls, _PyTime_localtime, timet, us, Py_None)]:
    the local fields ([second] capped at 59 for a leap second), the fold,
    the constructor. *)
Definition datetime_from_timet_and_us (z : zone) (timet us : Z) : result (datetime * Z) :=
  (x <- PyTime_localtime z timet ;;
   let year := tm_year x + 1900 in
   let month := tm_mon x + 1 in
   let day := tm_mday x in
   let hour := tm_hour x in
   let minute := tm_min x in
   let second := Z.min 59 (tm_sec x) in
   result_seconds <- utc_to_seconds year month day hour minute second ;;
   fold <- detect_fold z timet result_seconds ;;
   new_datetime_ex2 year month day hour minute second us fold)%py.

(** [datetime_best_possible(cls, _PyTime_localtime, Py_None)]: the value
    and its [fold]. *)
Definition datetime_best_possible (c : SystemClock) : result (datetime * Z) :=
  (ts <- PyTime_Time c ;;
   let '(secs, us) := pytime_as_timeval ts in
   datetime_from_timet_and_us (tz c) secs us)%py.

(** [datetime.now()]: the value the handler formats ([isoformat] and the
    comparison of naive values ignore [fold]). *)
Definition datetime_now (c : SystemClock) : result datetime :=
  bind (datetime_best_possible c) (fun p => Ok (fst p)).

(** The [fold] the probes compute, in closed form: set when the offset
    fell during the last day and the local time was already reached under
    the earlier offset. *)
Definition fold_spec (z : zone) (t : Z) : Z :=
  let transition := z t - z (t - max_fold_seconds) in
  if transition <? 0
  then if z (t + transition) =? z (t - max_fold_seconds) then 1 else 0
  else 0.

(** Local seconds within Python's years 1 to 9999. *)
Definition in_years (lt : Z) : Prop := -62135596800 <= lt < 253402300800.

(** The zones whose offset never decreases. *)
Definition no_fall_back (z : zone) : Prop := forall u u', u <= u' -> z u <= z u'.

(** The offsets of real zones stay within a day. *)
Definition zone_bounded (z : zone) : Prop := forall u, -86400 < z u < 86400.

#[export] Instance system_clock : TimeSource SystemClock := {
  clock_read := datetime_now;
  clock_le c c' := tz c = tz c' /\ no_fall_back (tz c) /\ clock_ns c <= clock_ns c'
}.

(** ** The microsecond timeline *)

(** The position of a datetime on a timeline of microseconds from
    0001-01-01T00:00:00. *)
Definition dt_key (dt : datetime) : Z :=
  (ymd2ord (year dt) (month dt) (day dt) - 1) * 86400000000
  + ((hour dt * 60 + minute dt) * 60 + second dt) * 1000000 + microsecond dt.

(** ** Examples *)

(** The spec's scenario: 2024-01-15 10:30:00.123456 UTC, read at UTC. *)
Example datetime_now_scenario :
  datetime_now (mk_clock 1705314600123456789 (fixed_zone 0))
  = Ok (mk_datetime 2024 1 15 10 30 0 123456).
Proof. reflexivity. Qed.

(** ** Lemmas *)

Lemma valid_datetime_date (dt : datetime) :
  valid_datetime dt = true -> valid_date (year dt) (month dt) (day dt).
Proof. intros Hv. apply valid_datetime_iff in Hv. unfold valid_date. tauto. Qed.

(** On valid datetimes the order of [datetime._cmp] is the order of the
    timeline. *)
Lemma dt_compare_key (a b : datetime) :
  valid_datetime a = true -> valid_datetime b = true ->
  dt_compare a b = Z.compare (dt_key a) (dt_key b).
Proof.
  intros Ha Hb. pose proof (valid_datetime_date a Ha) as Da.
  pose proof (valid_datetime_date b Hb) as Db.
  apply valid_datetime_iff in Ha, Hb.
  unfold dt_key. rewrite <- !Z.add_assoc.
  rewrite compare_positional by lia.
  rewrite compare_sub_r, ymd2ord_compare by assumption.
  rewrite compare_positional by lia.
  rewrite compare_positional by lia.
  rewrite compare_positional by lia.
  unfold dt_compare. rewrite !lex_assoc. reflexivity.
Qed.

(** The year of the date [datetime.now()] computes, against the local time:
    the local seconds [t] are in Python's years exactly between
    0001-01-01 and 10000-01-01. *)
Lemma local_year_range (t y m d : Z) :
  ord2ymd (t / 86400 + EPOCH_ORDINAL) = (y, m, d) ->
  (1 <= y <= 9999 <-> -62135596800 <= t < 253402300800).
Proof.
  intros E. unfold EPOCH_ORDINAL in E.
  pose proof (ord2ymd_order _ 1 _ _ _ 1 1 1 E eq_refl) as Hlo.
  pose proof (ord2ymd_order _ 3652059 _ _ _ 9999 12 31 E eq_refl) as Hhi.
  pose proof (ord2ymd_ok_spec _ _ _ _ E) as ([Hm Hd] & _).
  pose proof (days_in_month_bounds y m Hm).
  split; intros Hr.
  - split.
    + destruct (Z.lt_ge_cases (t / 86400 + 719163) 1) as [Hn | Hn]; [| zlia].
      rewrite (proj2 (Z.compare_lt_iff _ _) Hn) in Hlo.
      destruct (Z.compare_spec y 1); try lia; destruct (Z.compare_spec m 1); try lia;
        destruct (Z.compare_spec d 1); simpl in Hlo; try discriminate; lia.
    + destruct (Z.lt_ge_cases 3652059 (t / 86400 + 719163)) as [Hn | Hn]; [| zlia].
      rewrite (proj2 (Z.compare_gt_iff _ _) Hn) in Hhi.
      destruct (Z.compare_spec y 9999); try lia; destruct (Z.compare_spec m 12); try lia;
        destruct (Z.compare_spec d 31); simpl in Hhi; try discriminate; lia.
  - split.
    + destruct (Z.lt_ge_cases y 1) as [Hy | Hy]; [| exact Hy].
      rewrite (proj2 (Z.compare_lt_iff y 1) Hy) in Hlo. simpl in Hlo.
      rewrite Z.compare_lt_iff in Hlo. zlia.
    + destruct (Z.lt_ge_cases 9999 y) as [Hy | Hy]; [| exact Hy].
      rewrite (proj2 (Z.compare_gt_iff y 9999) Hy) in Hhi. simpl in Hhi.
      rewrite Z.compare_gt_iff in Hhi. zlia.
Qed.

Example fold_examples :
  let paris := paris_2024 in
  datetime_best_possible (mk_clock 1729990799000000000 paris)
    = Ok (mk_datetime 2024 10 27 2 59 59 0, 0)
  /\ datetime_best_possible (mk_clock 1729990800500000000 paris)
    = Ok (mk_datetime 2024 10 27 2 0 0 500000, 1)
  /\ datetime_best_possible (mk_clock 1729994400000000000 paris)
    = Ok (mk_datetime 2024 10 27 3 0 0 0, 0)
  /\ datetime_now (mk_clock (2 ^ 63) (fixed_zone 0)) = Raise pytime_overflow
  /\ datetime_now (mk_clock (2 ^ 63 - 1) (fixed_zone 0))
    = Ok (mk_datetime 2262 4 11 23 47 16 854775)
  /\ datetime_now (mk_clock (-1) (fixed_zone 0)) = Ok (mk_datetime 1969 12 31 23 59 59 999999).
Proof. repeat split; vm_compute; reflexivity. Qed.

(** ** Lemmas: [pytime.c] *)

(** C's truncating division, corrected for negative numerators, is the
    floor division. *)
Lemma pytime_divide_floor_div (t k : Z) : 0 < k -> pytime_divide_floor t k = t / k.
Proof.
  intros Hk. unfold pytime_divide_floor. destruct (Z.leb_spec 0 t).
  - apply Z.quot_div_nonneg; lia.
  - replace (t - (k - 1)) with (- (k - 1 - t)) by ring.
    rewrite Z.quot_opp_l, Z.quot_div_nonneg by lia.
    pose proof (Z.div_mod (k - 1 - t) k ltac:(lia)).
    pose proof (Z.mod_pos_bound (k - 1 - t) k Hk).
    apply (Z.div_unique _ _ _ (k - 1 - (k - 1 - t) mod k)); [lia | nia].
Qed.

Lemma pytime_divmod_floor (t k : Z) : 0 < k -> pytime_divmod t k = (t / k, t mod k).
Proof.
  intros Hk. unfold pytime_divmod.
  pose proof (Z.quot_rem' t k). pose proof (Z.rem_bound_abs t k ltac:(lia)).
  rewrite (Z.abs_eq k) in * by lia.
  destruct (Z.ltb_spec (Z.rem t k) 0); f_equal.
  - apply (Z.div_unique _ _ _ (Z.rem t k + k)); [lia | nia].
  - apply (Z.mod_unique _ _ (Z.quot t k - 1)); [lia | nia].
  - apply (Z.div_unique _ _ _ (Z.rem t k)); [lia | nia].
  - apply (Z.mod_unique _ _ (Z.quot t k)); [lia | nia].
Qed.

(** [pytime_as_timeval] splits the microseconds rounded down. *)
Lemma pytime_as_timeval_floor_div (t : Z) :
  pytime_as_timeval t = (t / SEC_TO_NS, (t / US_TO_NS) mod SEC_TO_US).
Proof.
  unfold pytime_as_timeval. rewrite pytime_divide_floor_div, pytime_divmod_floor by reflexivity.
  f_equal. rewrite Z.div_div by (unfold US_TO_NS, SEC_TO_US; lia). reflexivity.
Qed.

Lemma PyTime_MAX_value : PyTime_MAX = 9223372036854775807.
Proof. reflexivity. Qed.
Lemma pytime_fromtimespec_spec (s r : Z) :
  0 <= r < SEC_TO_NS ->
  pytime_fromtimespec s r
  = if (-9223372036 <=? s) && (s * SEC_TO_NS + r <=? PyTime_MAX)
    then Ok (s * SEC_TO_NS + r) else Raise pytime_overflow.
Proof.
  intros Hr. unfold pytime_fromtimespec, pytime_mul.
  replace (Z.quot PyTime_MIN SEC_TO_NS) with (-9223372036) by reflexivity.
  replace (Z.quot PyTime_MAX SEC_TO_NS) with 9223372036 by reflexivity.
  unfold SEC_TO_NS in *.
  rewrite PyTime_MAX_value.
  destruct (Z.ltb_spec s (-9223372036)) as [H1 | H1]; cbn [orb].
  { rewrite (proj2 (Z.leb_gt _ _) H1). cbn [andb].
    (destruct (0 <=? s), (pytime_add _ _); reflexivity). }
  rewrite (proj2 (Z.leb_le _ _) H1). cbn [andb].
  destruct (Z.ltb_spec 9223372036 s) as [H2 | H2]; cbn [orb].
  { replace (s * 1000000000 + r <=? 9223372036854775807) with false
      by (symmetry; apply Z.leb_gt; lia).
    (destruct (0 <=? s), (pytime_add _ _); reflexivity). }
  unfold pytime_add. rewrite PyTime_MAX_value.
  destruct (Z.ltb_spec 0 r) as [H3 | H3];
    destruct (Z.ltb_spec (9223372036854775807 - r) (s * 1000000000)) as [H4 | H4];
    destruct (Z.ltb_spec r 0) as [H5 | H5]; try (exfalso; lia); cbn [andb orb];
    cbv beta iota zeta.
  - replace (s * 1000000000 + r <=? 9223372036854775807) with false
      by (symmetry; apply Z.leb_gt; lia). reflexivity.
  - replace (s * 1000000000 + r <=? 9223372036854775807) with true
      by (symmetry; apply Z.leb_le; lia). reflexivity.
  - replace (s * 1000000000 + r <=? 9223372036854775807) with true
      by (symmetry; apply Z.leb_le; lia). reflexivity.
Qed.

Lemma PyTime_Time_spec (c : SystemClock) :
  PyTime_Time c
  = if (PyTime_lowest <=? clock_ns c) && (clock_ns c <=? PyTime_MAX)
    then Ok (clock_ns c) else Raise pytime_overflow.
Proof.
  unfold PyTime_Time. rewrite pytime_fromtimespec_spec by (apply Z.mod_pos_bound; reflexivity).
  unfold PyTime_lowest, SEC_TO_NS.
  rewrite (Z.mul_comm (clock_ns c / 1000000000)), <- Z.div_mod by lia.
  replace (-9223372036 <=? clock_ns c / 1000000000) with (-9223372036 * 1000000000 <=? clock_ns c);
    [reflexivity |].
  apply Bool.eq_iff_eq_true. rewrite !Z.leb_le. zlia.
Qed.

(** ** Lemmas: local time *)

(** What [localtime_r] fills in: a valid date and time of day whose count
    of seconds since 0001-01-01 is the local time of [t]. *)
Lemma localtime_r_fields (z : zone) (t : Z) (x : tm) :
  localtime_r z t = Some x ->
  valid_date (tm_year x + 1900) (tm_mon x + 1) (tm_mday x)
  /\ 0 <= tm_hour x <= 23 /\ 0 <= tm_min x <= 59 /\ 0 <= tm_sec x <= 59
  /\ ((ymd2ord (tm_year x + 1900) (tm_mon x + 1) (tm_mday x) * 24 + tm_hour x) * 60
      + tm_min x) * 60 + tm_sec x = t + z t + epoch.
Proof.
  unfold localtime_r. destruct (ord2ymd _) as [[y m] d] eqn:E.
  destruct (in_range INT_MIN (y - 1900) INT_MAX); [| discriminate].
  intros H. injection H as <-. cbn [tm_year tm_mon tm_mday tm_hour tm_min tm_sec].
  apply ord2ymd_ok_spec in E as (V & Ho).
  replace (y - 1900 + 1900) with y by ring. replace (m - 1 + 1) with m by ring.
  rewrite Ho. unfold epoch, EPOCH_ORDINAL.
  pose proof (Z.mod_pos_bound (t + z t) 86400 ltac:(lia)).
  split; [exact V |]. zlia.
Qed.

(** [localtime_r] succeeds on local times in Python's years. *)
Lemma localtime_r_some (z : zone) (t : Z) :
  in_years (t + z t) ->
  exists x, localtime_r z t = Some x /\ 1 <= tm_year x + 1900 <= 9999.
Proof.
  intros Hr. unfold localtime_r. destruct (ord2ymd _) as [[y m] d] eqn:E.
  pose proof (proj2 (local_year_range _ _ _ _ E) Hr) as Hy.
  replace (in_range INT_MIN (y - 1900) INT_MAX) with true
    by (symmetry; apply in_range_iff; unfold INT_MIN, INT_MAX; lia).
  eexists. split; [reflexivity |]. cbn [tm_year]. lia.
Qed.

Lemma utc_to_seconds_ok (y m d h mi s : Z) :
  1 <= y <= 9999 ->
  utc_to_seconds y m d h mi s = Ok (((ymd2ord y m d * 24 + h) * 60 + mi) * 60 + s).
Proof.
  intros Hy. unfold utc_to_seconds.
  replace (in_range MINYEAR y MAXYEAR) with true; [reflexivity |].
  symmetry. apply in_range_iff. unfold MINYEAR, MAXYEAR. lia.
Qed.

(** What [local] returns is the local time of its argument. *)
Lemma local_value (z : zone) (u v : Z) :
  local z u = Ok v -> v = u + z (u - epoch).
Proof.
  unfold local, PyTime_localtime. destruct (localtime_r z (u - epoch)) as [x |] eqn:E;
    [| discriminate]. cbn [bind].
  apply localtime_r_fields in E as (_ & _ & _ & _ & Hs).
  unfold utc_to_seconds. destruct (negb _); [discriminate |].
  intros H. injection H as <-. lia.
Qed.

Lemma local_ok (z : zone) (u : Z) :
  in_years ((u - epoch) + z (u - epoch)) -> local z u = Ok (u + z (u - epoch)).
Proof.
  intros Hr. unfold local, PyTime_localtime.
  destruct (localtime_r_some z (u - epoch) Hr) as (x & E & Hy). rewrite E. cbn [bind].
  apply localtime_r_fields in E as (_ & _ & _ & _ & Hs).
  rewrite utc_to_seconds_ok by exact Hy. f_equal. lia.
Qed.

(** ** Lemmas: the fold *)

Lemma fold_probe_eqb (z : zone) (t tr : Z) :
  tr = z t - z (t - max_fold_seconds) ->
  (epoch + t + tr + z (t + tr) =? t + z t + epoch) = (z (t + tr) =? z (t - max_fold_seconds)).
Proof. intros ->. apply Bool.eq_iff_eq_true. rewrite !Z.eqb_eq. lia. Qed.

Lemma fold_spec_01 (z : zone) (t : Z) : fold_spec z t = 0 \/ fold_spec z t = 1.
Proof. unfold fold_spec. repeat match goal with |- context [if ?b then _ else _] => destruct b end; auto. Qed.

(** The probes compute [fold_spec]. *)
Lemma detect_fold_sound (z : zone) (t f : Z) :
  detect_fold z t (t + z t + epoch) = Ok f -> f = fold_spec z t.
Proof.
  unfold detect_fold. destruct (local z (epoch + t - max_fold_seconds)) as [p |] eqn:P;
    [| discriminate]. cbn [bind].
  apply local_value in P.
  replace (epoch + t - max_fold_seconds - epoch) with (t - max_fold_seconds) in P by ring.
  replace (t + z t + epoch - p - max_fold_seconds) with (z t - z (t - max_fold_seconds))
    by (subst p; lia).
  unfold fold_spec. set (tr := z t - z (t - max_fold_seconds)).
  destruct (Z.ltb_spec tr 0) as [Htr | Htr].
  - destruct (local z _) as [q |] eqn:Q; [| discriminate]. cbn [bind].
    apply local_value in Q. intros H. injection H as <-. subst q.
    replace (epoch + t + tr - epoch) with (t + tr) by ring.
    rewrite fold_probe_eqb by reflexivity. reflexivity.
  - intros H. injection H as <-. reflexivity.
Qed.

(** With offsets within a day and local times in Python's years over the
    two days before [t], the probes succeed. *)
Lemma detect_fold_ok (z : zone) (t : Z) :
  zone_bounded z ->
  (forall u, t - 2 * max_fold_seconds < u <= t -> in_years (u + z u)) ->
  detect_fold z t (t + z t + epoch) = Ok (fold_spec z t).
Proof.
  intros Hz Hr. unfold detect_fold.
  rewrite (local_ok z (epoch + t - max_fold_seconds))
    by (replace (epoch + t - max_fold_seconds - epoch) with (t - max_fold_seconds) by ring;
        apply Hr; unfold max_fold_seconds; lia).
  cbn [bind].
  replace (epoch + t - max_fold_seconds - epoch) with (t - max_fold_seconds) by ring.
  replace (t + z t + epoch - (epoch + t - max_fold_seconds + z (t - max_fold_seconds))
           - max_fold_seconds) with (z t - z (t - max_fold_seconds)) by ring.
  unfold fold_spec. set (tr := z t - z (t - max_fold_seconds)).
  destruct (Z.ltb_spec tr 0) as [Htr | Htr]; [| reflexivity].
  pose proof (Hz t). pose proof (Hz (t - max_fold_seconds)).
  rewrite (local_ok z (epoch + t + tr))
    by (replace (epoch + t + tr - epoch) with (t + tr) by ring;
        apply Hr; unfold tr, max_fold_seconds in *; lia).
  cbn [bind]. replace (epoch + t + tr - epoch) with (t + tr) by ring.
  rewrite fold_probe_eqb by reflexivity. reflexivity.
Qed.

(** ** Lemmas: [datetime_from_timet_and_us] and [datetime_best_possible] *)

(** A value [datetime_from_timet_and_us] returns is valid, carries
    [fold_spec], and sits on the timeline at the local time of [t]. *)
Lemma datetime_from_timet_and_us_sound (z : zone) (t us : Z) (p : datetime * Z) :
  datetime_from_timet_and_us z t us = Ok p ->
  valid_datetime (fst p) = true /\ snd p = fold_spec z t
  /\ dt_key (fst p) = (t + z t + (EPOCH_ORDINAL - 1) * 86400) * 1000000 + us.
Proof.
  unfold datetime_from_timet_and_us, PyTime_localtime.
  destruct (localtime_r z t) as [x |] eqn:E; [| discriminate]. cbn [bind]. cbv zeta.
  apply localtime_r_fields in E as (V & Hh & Hm & Hs & Ho).
  rewrite Z.min_r by lia.
  unfold utc_to_seconds. destruct (negb _); [discriminate |]. cbn [bind].
  rewrite Ho. destruct (detect_fold z t _) as [f |] eqn:F; [| discriminate]. cbn [bind].
  apply detect_fold_sound in F.
  intros H. apply new_datetime_ex2_iff in H as (Hv & _ & ->). cbn [fst snd].
  split; [exact Hv | split; [exact F |]].
  unfold dt_key. cbn [year month day hour minute second microsecond].
  unfold epoch, EPOCH_ORDINAL in *. lia.
Qed.

Lemma datetime_from_timet_and_us_ok (z : zone) (t us : Z) :
  0 <= us <= 999999 -> zone_bounded z ->
  (forall u, t - 2 * max_fold_seconds < u <= t -> in_years (u + z u)) ->
  exists dt, datetime_from_timet_and_us z t us = Ok (dt, fold_spec z t).
Proof.
  intros Hus Hz Hr. unfold datetime_from_timet_and_us, PyTime_localtime.
  destruct (localtime_r_some z t) as (x & E & Hy); [apply Hr; unfold max_fold_seconds; lia |].
  rewrite E. cbn [bind]. cbv zeta.
  apply localtime_r_fields in E as ([Vm Vd] & Hh & Hm & Hs & Ho).
  rewrite Z.min_r by lia. rewrite utc_to_seconds_ok by exact Hy. cbn [bind].
  rewrite Ho, detect_fold_ok by assumption. cbn [bind].
  eexists. apply new_datetime_ex2_iff. split; [| split; [apply fold_spec_01 | reflexivity]].
  apply valid_datetime_iff. cbn [year month day hour minute second microsecond].
  unfold MINYEAR, MAXYEAR. lia.
Qed.

(** The seconds of a [PyTime_t], shifted by offsets within a day, stay in
    Python's years (1677 to 2262). *)
Lemma pytime_window_in_years (z : zone) (t : Z) :
  zone_bounded z -> -9223372036 <= t <= 9223372036 ->
  forall u, t - 2 * max_fold_seconds < u <= t -> in_years (u + z u).
Proof.
  intros Hz Ht u Hu. pose proof (Hz u). unfold in_years, max_fold_seconds in *. lia.
Qed.

Lemma datetime_best_possible_sound (c : SystemClock) (p : datetime * Z) :
  datetime_best_possible c = Ok p ->
  valid_datetime (fst p) = true /\ snd p = fold_spec (tz c) (clock_ns c / SEC_TO_NS)
  /\ dt_key (fst p)
     = clock_ns c / US_TO_NS + tz c (clock_ns c / SEC_TO_NS) * SEC_TO_US + 62135596800000000.
Proof.
  unfold datetime_best_possible. rewrite PyTime_Time_spec.
  destruct (_ && _); [| discriminate]. cbn [bind].
  rewrite pytime_as_timeval_floor_div.
  intros H. apply datetime_from_timet_and_us_sound in H as (Hv & Hf & Hk).
  split; [exact Hv | split; [exact Hf |]]. rewrite Hk.
  unfold SEC_TO_NS, US_TO_NS, SEC_TO_US, EPOCH_ORDINAL. zlia.
Qed.

Lemma datetime_best_possible_ok (c : SystemClock) :
  zone_bounded (tz c) -> PyTime_lowest <= clock_ns c <= PyTime_MAX ->
  exists dt, datetime_best_possible c = Ok (dt, fold_spec (tz c) (clock_ns c / SEC_TO_NS)).
Proof.
  intros Hz Hn. unfold datetime_best_possible. rewrite PyTime_Time_spec.
  replace ((PyTime_lowest <=? clock_ns c) && (clock_ns c <=? PyTime_MAX)) with true
    by (symmetry; apply andb_true_iff; rewrite !Z.leb_le; lia).
  cbn [bind]. rewrite pytime_as_timeval_floor_div.
  apply datetime_from_timet_and_us_ok; [| exact Hz |].
  { pose proof (Z.mod_pos_bound (clock_ns c / US_TO_NS) SEC_TO_US ltac:(reflexivity)).
    unfold SEC_TO_US in *. lia. }
  apply pytime_window_in_years; [exact Hz |].
  rewrite PyTime_MAX_value in Hn. unfold PyTime_lowest, SEC_TO_NS in *. zlia.
Qed.

Lemma datetime_best_possible_overflow (c : SystemClock) :
  clock_ns c < PyTime_lowest \/ PyTime_MAX < clock_ns c ->
  datetime_best_possible c = Raise pytime_overflow.
Proof.
  intros Hn. unfold datetime_best_possible. rewrite PyTime_Time_spec.
  replace ((PyTime_lowest <=? clock_ns c) && (clock_ns c <=? PyTime_MAX)) with false
    by (symmetry; apply andb_false_iff; rewrite !Z.leb_gt; lia).
  reflexivity.
Qed.

(** The fold the probes compute under one fall-back transition: 1 exactly
    during the [o1 - o2] seconds after it, when the local times of the
    hour before are repeated. *)
Lemma fold_spec_fall_back (T o1 o2 t : Z) :
  0 < o1 - o2 <= max_fold_seconds ->
  fold_spec (fall_back T o1 o2) t = if (T <=? t) && (t <? T + (o1 - o2)) then 1 else 0.
Proof.
  intros Ho. unfold fold_spec, fall_back, max_fold_seconds in *.
  destruct (Z.ltb_spec t T), (Z.ltb_spec (t - 24 * 3600) T), (Z.leb_spec T t),
    (Z.ltb_spec t (T + (o1 - o2))); cbn [andb]; try lia;
    repeat match goal with
           | |- context [?a <? ?b] => destruct (Z.ltb_spec a b)
           | |- context [?a =? ?b] => destruct (Z.eqb_spec a b)
           end; lia.
Qed.

(** Readings of a clock that has not gone back, in a zone whose offset
    does not fall, are in order. *)
Lemma datetime_now_le (c c' : SystemClock) (dt dt' : datetime) :
  tz c = tz c' -> no_fall_back (tz c) -> clock_ns c <= clock_ns c' ->
  datetime_now c = Ok dt -> datetime_now c' = Ok dt' -> dt_le dt dt'.
Proof.
  intros Hz Hm Hns H H'. unfold datetime_now in H, H'.
  destruct (datetime_best_possible c) as [[d f] |] eqn:B; [| discriminate].
  destruct (datetime_best_possible c') as [[d' f'] |] eqn:B'; [| discriminate].
  injection H as <-. injection H' as <-.
  apply datetime_best_possible_sound in B as (Hv & _ & Hk).
  apply datetime_best_possible_sound in B' as (Hv' & _ & Hk').
  cbn [fst] in *. unfold dt_le. rewrite dt_compare_key by assumption.
  rewrite Hk, Hk', <- Hz. apply Z.compare_le_iff.
  unfold SEC_TO_NS, US_TO_NS, SEC_TO_US in *.
  pose proof (Z.div_le_mono _ _ 1000 ltac:(lia) Hns).
  pose proof (Hm _ _ (Z.div_le_mono _ _ 1000000000 ltac:(lia) Hns)). lia.
Qed.

(** The value [datetime.now()] returns is valid, at the local time of
    the reading on the microsecond timeline. *)
Lemma datetime_now_key (c : SystemClock) (dt : datetime) :
  datetime_now c = Ok dt ->
  valid_datetime dt = true
  /\ dt_key dt = clock_ns c / 1000 + tz c (clock_ns c / 1000000000) * 1000000
                 + 62135596800000000.
Proof.
  unfold datetime_now. destruct (datetime_best_possible c) as [p |] eqn:B; [| discriminate].
  intros H. injection H as <-.
  apply datetime_best_possible_sound in B as (Hv & _ & Hk). split; [exact Hv | exact Hk].
Qed.

(** [datetime.now()] returns on every [PyTime_t] reading, in a zone whose
    offsets stay within a day. *)
Lemma datetime_now_ok (c : SystemClock) :
  zone_bounded (tz c) -> PyTime_lowest <= clock_ns c <= PyTime_MAX ->
  exists dt, datetime_now c = Ok dt.
Proof.
  intros Hz Hn. destruct (datetime_best_possible_ok c Hz Hn) as [dt E].
  exists dt. unfold datetime_now. rewrite E. reflexivity.
Qed.

(** Across a fall-back of [o1 - o2] seconds at [T], a reading after [T]
    gives an earlier datetime than a reading before it exactly when it is
    less than [o1 - o2] seconds later, counted in whole microseconds. *)
Lemma datetime_now_fall_back_lt (c c' : SystemClock) (T o1 o2 : Z) (dt dt' : datetime) :
  tz c = fall_back T o1 o2 -> tz c' = tz c ->
  clock_ns c < T * 1000000000 <= clock_ns c' ->
  datetime_now c = Ok dt -> datetime_now c' = Ok dt' ->
  (dt_lt dt' dt <-> clock_ns c' / 1000 < clock_ns c / 1000 + (o1 - o2) * 1000000).
Proof.
  intros Hz Hz' Hns H H'.
  apply datetime_now_key in H as [Hv Hk]. apply datetime_now_key in H' as [Hv' Hk'].
  unfold dt_lt. rewrite dt_compare_key, Z.compare_lt_iff, Hk, Hk', Hz', Hz by assumption.
  unfold fall_back.
  rewrite (proj2 (Z.ltb_lt (clock_ns c / 1000000000) T)) by (apply Z.div_lt_upper_bound; lia).
  rewrite (proj2 (Z.ltb_ge (clock_ns c' / 1000000000) T)) by (apply Z.div_le_lower_bound; lia).
  lia.
Qed.

(** ** Theorems *)

(** C8 (functional): [datetime.now()] returns the datetime whose position
    on the microsecond timeline is the clock reading rounded down to
    microseconds, shifted by the offset the zone has at that second: the
    local time of the reading. *)
Theorem datetime_now_reading (c : SystemClock) (dt : datetime) :
  datetime_now c = Ok dt ->
  valid_datetime dt = true
  /\ dt_key dt = clock_ns c / 1000 + tz c (clock_ns c / 1000000000) * 1000000
                 + 62135596800000000.
Proof.
  apply datetime_now_key.
Qed.

(** C9 (invariant): two readings of a clock that has not gone back give
    datetimes in order, in a zone whose offset never falls. *)
Theorem datetime_now_monotone (c c' : SystemClock) (dt dt' : datetime) :
  tz c = tz c' -> no_fall_back (tz c) -> clock_ns c <= clock_ns c' ->
  datetime_now c = Ok dt -> datetime_now c' = Ok dt' -> dt_le dt dt'.
Proof. apply datetime_now_le. Qed.

(** C10 (liveness): in a zone whose offsets stay within a day,
    [datetime.now()] returns a value on every reading a [PyTime_t] holds
    (from 1677-09-21 to 2262-04-11). *)
Theorem datetime_now_total (c : SystemClock) :
  zone_bounded (tz c) -> PyTime_lowest <= clock_ns c <= PyTime_MAX ->
  exists dt, datetime_now c = Ok dt.
Proof. apply datetime_now_ok. Qed.

(** C11 (error): past 2262-04-11T23:47:16.854775807Z, or before
    1677-09-21T00:12:44Z, the reading does not fit a [PyTime_t] and
    [datetime.now()] raises [OverflowError]. *)
Theorem datetime_now_overflow (c : SystemClock) :
  clock_ns c < PyTime_lowest \/ PyTime_MAX < clock_ns c ->
  datetime_now c = Raise (OverflowError "timestamp too large to convert to C PyTime_t").
Proof. intros Hn. unfold datetime_now. rewrite datetime_best_possible_overflow by exact Hn. reflexivity. Qed.

(** C29 (bounds): [PyTime_Time] accepts exactly the readings from
    [-9223372036 * 10^9] to [2^63 - 1] nanoseconds, and returns them
    unchanged: [pytime_mul]'s truncated bound refuses the first
    854775808 nanoseconds of the [PyTime_t] range. *)
Theorem PyTime_Time_range (c : SystemClock) (t : Z) :
  PyTime_Time c = Ok t <->
  -9223372036000000000 <= clock_ns c <= 9223372036854775807 /\ t = clock_ns c.
Proof.
  rewrite PyTime_Time_spec, PyTime_MAX_value. unfold PyTime_lowest, SEC_TO_NS.
  destruct (Z.leb_spec (-9223372036 * 1000000000) (clock_ns c)) as [H1 | H1],
    (Z.leb_spec (clock_ns c) 9223372036854775807) as [H2 | H2]; cbn [andb];
    split; intros E; try discriminate; try lia.
  - injection E as <-. lia.
  - destruct E as [_ ->]. reflexivity.
Qed.

(** C30 (equivalence): [pytime_as_timeval] with [_PyTime_ROUND_FLOOR],
    written with C's truncating division and remainder, splits the
    reading rounded down to microseconds into seconds and microseconds. *)
Theorem pytime_as_timeval_floor (t secs us : Z) :
  pytime_as_timeval t = (secs, us) ->
  secs * 1000000 + us = t / 1000 /\ 0 <= us < 1000000 /\ secs = t / 1000000000.
Proof.
  rewrite pytime_as_timeval_floor_div. intros H. injection H as <- <-.
  unfold SEC_TO_NS, US_TO_NS, SEC_TO_US. zlia.
Qed.

(** C31 (equivalence): the [fold] the probes of
    [datetime_from_timet_and_us] compute is the closed form [fold_spec]
    of the zone at the reading's second. *)
Theorem datetime_now_fold (c : SystemClock) (dt : datetime) (f : Z) :
  datetime_best_possible c = Ok (dt, f) -> f = fold_spec (tz c) (clock_ns c / 1000000000).
Proof. intros H. apply datetime_best_possible_sound in H as (_ & Hf & _). exact Hf. Qed.

(** C32 (functional): in a zone whose offset never falls, no local time
    repeats, and [fold] is always 0. *)
Theorem fold_no_fall_back (c : SystemClock) (dt : datetime) (f : Z) :
  no_fall_back (tz c) -> datetime_best_possible c = Ok (dt, f) -> f = 0.
Proof.
  intros Hm H. apply datetime_best_possible_sound in H as (_ & Hf & _). cbn [snd] in Hf.
  rewrite Hf. unfold fold_spec.
  pose proof (Hm (clock_ns c / SEC_TO_NS - max_fold_seconds) (clock_ns c / SEC_TO_NS)
                ltac:(unfold max_fold_seconds; lia)).
  destruct (Z.ltb_spec (tz c (clock_ns c / SEC_TO_NS)
                        - tz c (clock_ns c / SEC_TO_NS - max_fold_seconds)) 0); [lia | reflexivity].
Qed.

(** C33 (functional): when the zone falls back at [T] by [o1 - o2]
    seconds, [fold] is 1 exactly on the readings of the [o1 - o2] seconds
    after [T]: the second occurrence of the repeated local times. *)
Theorem fold_fall_back_window (c : SystemClock) (T o1 o2 : Z) (dt : datetime) (f : Z) :
  tz c = fall_back T o1 o2 -> 0 < o1 - o2 <= 86400 ->
  datetime_best_possible c = Ok (dt, f) ->
  (f = 1 <-> T <= clock_ns c / 1000000000 < T + (o1 - o2)).
Proof.
  intros Hz Ho H. apply datetime_best_possible_sound in H as (_ & Hf & _). cbn [snd] in Hf.
  rewrite Hf, Hz, fold_spec_fall_back by (unfold max_fold_seconds; lia).
  destruct (Z.leb_spec T (clock_ns c / SEC_TO_NS)),
    (Z.ltb_spec (clock_ns c / SEC_TO_NS) (T + (o1 - o2))); cbn [andb]; unfold SEC_TO_NS in *; lia.
Qed.

(** C34 (safety): the spec's monotonicity fails at every fall-back
    transition, with no change of the clock: when the zone's offset falls
    from [o1] to [o2] at [T], a reading after [T] gives an earlier
    datetime than a reading before [T] exactly when it comes less than
    [o1 - o2] seconds after it (in whole microseconds). *)
Theorem datetime_now_fall_back (c c' : SystemClock) (T o1 o2 : Z) (dt dt' : datetime) :
  tz c = fall_back T o1 o2 -> tz c' = tz c ->
  clock_ns c < T * 1000000000 <= clock_ns c' ->
  datetime_now c = Ok dt -> datetime_now c' = Ok dt' ->
  (dt_lt dt' dt <-> clock_ns c' / 1000 < clock_ns c / 1000 + (o1 - o2) * 1000000).
Proof. apply datetime_now_fall_back_lt. Qed.

(** The system clock meets the laws of a time source. *)
#[export] Instance system_clock_laws : TimeSourceLaws SystemClock.
Proof.
  split.
  - intros c dt H. unfold clock_read in H. cbn in H. unfold datetime_now in H.
    destruct (datetime_best_possible c) as [p |] eqn:B; [| discriminate].
    injection H as <-. exact (proj1 (datetime_best_possible_sound c p B)).
  - intros c c' dt dt' (Hz & Hm & Hns) H H'. exact (datetime_now_le c c' dt dt' Hz Hm Hns H H').
Qed.

(** ** Witnesses *)

(** 2024-01-15T10:30:00.123456789Z read at UTC, and the Paris transition. *)
Definition scenario_reading : SystemClock := mk_clock 1705314600123456789 (fixed_zone 0).
Definition later_reading : SystemClock := mk_clock 1705314601623456000 (fixed_zone 0).
Definition repeated_reading : SystemClock := mk_clock 1729990800500000000 paris_2024.

Lemma datetime_now_reading_witness :
  datetime_now scenario_reading = Ok (mk_datetime 2024 1 15 10 30 0 123456)
  /\ valid_datetime (mk_datetime 2024 1 15 10 30 0 123456) = true
  /\ dt_key (mk_datetime 2024 1 15 10 30 0 123456)
     = clock_ns scenario_reading / 1000
       + tz scenario_reading (clock_ns scenario_reading / 1000000000) * 1000000
       + 62135596800000000.
Proof.
  assert (E : datetime_now scenario_reading = Ok (mk_datetime 2024 1 15 10 30 0 123456))
    by (vm_compute; reflexivity).
  split; [exact E | exact (datetime_now_reading _ _ E)].
Defined.

Lemma datetime_now_monotone_witness :
  tz scenario_reading = tz later_reading /\ no_fall_back (tz scenario_reading)
  /\ clock_ns scenario_reading <= clock_ns later_reading
  /\ datetime_now scenario_reading = Ok (mk_datetime 2024 1 15 10 30 0 123456)
  /\ datetime_now later_reading = Ok (mk_datetime 2024 1 15 10 30 1 623456)
  /\ dt_le (mk_datetime 2024 1 15 10 30 0 123456) (mk_datetime 2024 1 15 10 30 1 623456).
Proof.
  assert (Hz : tz scenario_reading = tz later_reading) by reflexivity.
  assert (Hm : no_fall_back (tz scenario_reading))
    by (unfold no_fall_back; intros; cbv; discriminate).
  assert (Hn : clock_ns scenario_reading <= clock_ns later_reading) by (vm_compute; discriminate).
  assert (E1 : datetime_now scenario_reading = Ok (mk_datetime 2024 1 15 10 30 0 123456))
    by (vm_compute; reflexivity).
  assert (E2 : datetime_now later_reading = Ok (mk_datetime 2024 1 15 10 30 1 623456))
    by (vm_compute; reflexivity).
  do 5 (split; [assumption |]).
  exact (datetime_now_monotone _ _ _ _ Hz Hm Hn E1 E2).
Defined.

Lemma datetime_now_total_witness :
  zone_bounded (fixed_zone 3600)
  /\ PyTime_lowest <= clock_ns (mk_clock 1705314600123456789 (fixed_zone 3600)) <= PyTime_MAX
  /\ exists dt, datetime_now (mk_clock 1705314600123456789 (fixed_zone 3600)) = Ok dt.
Proof.
  assert (Hz : zone_bounded (fixed_zone 3600)) by (unfold zone_bounded; intros; cbv; split; reflexivity).
  assert (Hn : PyTime_lowest <= clock_ns (mk_clock 1705314600123456789 (fixed_zone 3600)) <= PyTime_MAX)
    by (split; vm_compute; discriminate).
  split; [exact Hz | split; [exact Hn |]].
  exact (datetime_now_total (mk_clock 1705314600123456789 (fixed_zone 3600)) Hz Hn).
Defined.

Lemma datetime_now_overflow_witness :
  (clock_ns (mk_clock (2 ^ 63) (fixed_zone 0)) < PyTime_lowest
   \/ PyTime_MAX < clock_ns (mk_clock (2 ^ 63) (fixed_zone 0)))
  /\ datetime_now (mk_clock (2 ^ 63) (fixed_zone 0))
     = Raise (OverflowError "timestamp too large to convert to C PyTime_t").
Proof.
  assert (H : clock_ns (mk_clock (2 ^ 63) (fixed_zone 0)) < PyTime_lowest
              \/ PyTime_MAX < clock_ns (mk_clock (2 ^ 63) (fixed_zone 0)))
    by (right; vm_compute; reflexivity).
  split; [exact H | exact (datetime_now_overflow _ H)].
Defined.

Lemma pytime_as_timeval_floor_witness :
  pytime_as_timeval (-1) = (-1, 999999)
  /\ -1 * 1000000 + 999999 = -1 / 1000 /\ 0 <= 999999 < 1000000 /\ -1 = -1 / 1000000000.
Proof.
  assert (E : pytime_as_timeval (-1) = (-1, 999999)) by (vm_compute; reflexivity).
  split; [exact E | exact (pytime_as_timeval_floor _ _ _ E)].
Defined.

Lemma datetime_now_fold_witness :
  datetime_best_possible repeated_reading = Ok (mk_datetime 2024 10 27 2 0 0 500000, 1)
  /\ 1 = fold_spec (tz repeated_reading) (clock_ns repeated_reading / 1000000000).
Proof.
  assert (E : datetime_best_possible repeated_reading = Ok (mk_datetime 2024 10 27 2 0 0 500000, 1))
    by (vm_compute; reflexivity).
  split; [exact E | exact (datetime_now_fold _ _ _ E)].
Defined.

Lemma fold_no_fall_back_witness :
  no_fall_back (tz scenario_reading)
  /\ datetime_best_possible scenario_reading = Ok (mk_datetime 2024 1 15 10 30 0 123456, 0)
  /\ 0 = 0.
Proof.
  assert (Hm : no_fall_back (tz scenario_reading))
    by (unfold no_fall_back; intros; cbv; discriminate).
  assert (E : datetime_best_possible scenario_reading
              = Ok (mk_datetime 2024 1 15 10 30 0 123456, 0)) by (vm_compute; reflexivity).
  split; [exact Hm | split; [exact E | exact (fold_no_fall_back _ _ _ Hm E)]].
Defined.

Lemma fold_fall_back_window_witness :
  tz repeated_reading = fall_back 1729990800 7200 3600 /\ 0 < 7200 - 3600 <= 86400
  /\ datetime_best_possible repeated_reading = Ok (mk_datetime 2024 10 27 2 0 0 500000, 1)
  /\ (1 = 1 <-> 1729990800 <= clock_ns repeated_reading / 1000000000 < 1729990800 + (7200 - 3600)).
Proof.
  assert (Hz : tz repeated_reading = fall_back 1729990800 7200 3600) by reflexivity.
  assert (Ho : 0 < 7200 - 3600 <= 86400) by lia.
  assert (E : datetime_best_possible repeated_reading = Ok (mk_datetime 2024 10 27 2 0 0 500000, 1))
    by (vm_compute; reflexivity).
  split; [exact Hz | split; [exact Ho | split; [exact E |]]].
  exact (fold_fall_back_window _ _ _ _ _ _ Hz Ho E).
Defined.

(** In Paris, the reading one second before 2024-10-27T01:00:00Z gives
    02:59:59 and the reading half a second after it gives the earlier
    02:00:00.5. *)
Lemma datetime_now_fall_back_witness :
  datetime_now (mk_clock 1729990799000000000 paris_2024) = Ok (mk_datetime 2024 10 27 2 59 59 0)
  /\ datetime_now repeated_reading = Ok (mk_datetime 2024 10 27 2 0 0 500000)
  /\ dt_lt (mk_datetime 2024 10 27 2 0 0 500000) (mk_datetime 2024 10 27 2 59 59 0).
Proof.
  assert (E : datetime_now (mk_clock 1729990799000000000 paris_2024)
              = Ok (mk_datetime 2024 10 27 2 59 59 0)) by (vm_compute; reflexivity).
  assert (E' : datetime_now repeated_reading = Ok (mk_datetime 2024 10 27 2 0 0 500000))
    by (vm_compute; reflexivity).
  split; [exact E | split; [exact E' |]].
  apply (datetime_now_fall_back (mk_clock 1729990799000000000 paris_2024) repeated_reading
           1729990800 7200 3600 _ _ eq_refl eq_refl); [cbn [clock_ns repeated_reading]; lia
                                                      | exact E | exact E' |].
  cbn [clock_ns repeated_reading]. reflexivity.
Defined.
