(* ===== verification/Json.v ===== *)
(** * Json: the handler's value and the response body

    The handler ([src/python-API/app.py] lines 7-8) returns a Python dict.
    FastAPI's [serialize_response] passes it through [jsonable_encoder]
    ([fastapi/encoders.py]) and Starlette's [JSONResponse.render] writes
    [json.dumps(content, ensure_ascii=False, allow_nan=False, indent=None,
    separators=(",", ":")).encode("utf-8")].

    [pyval] is the Python data the encoder sees (the [datetime] case is the
    encoder's [ENCODERS_BY_TYPE] entry, [isoformat()]), [json] the JSON
    data, [jsonable_encoder] the encoder, [dumps] the compact serializer
    with [encode_basestring]'s escapes.  Strings are byte strings: the
    texts of this program are ASCII, whose UTF-8 encoding is themselves. *)

From Stdlib Require Import ZArith String Ascii List Bool Lia.
From S2P Require Import Prelude PyInt DateTime IsoFormat.
Import ListNotations.

Local Open Scope string_scope.
Local Open Scope Z_scope.
Local Set Warnings "-register-all".

(** ** Data *)

Inductive pyval : Type :=
| PyNone
| PyBool (b : bool)
| PyInt (n : Z)
| PyStr (s : string)
| PyList (l : list pyval)
| PyDict (items : list (string * pyval))
| PyDatetime (dt : datetime).

Inductive json : Type :=
| JNull
| JBool (b : bool)
| JInt (n : Z)
| JStr (s : string)
| JArr (l : list json)
| JObj (members : list (string * json)).

(** ** [jsonable_encoder] *)

(** [d[k] = v] on a dict kept as its list of items in insertion order: an
    existing key keeps its place and takes the new value. *)
Fixpoint dict_set {V} (k : string) (v : V) (items : list (string * V)) : list (string * V) :=
  match items with
  | [] => [(k, v)]
  | (k', v') :: rest => if String.eqb k k' then (k, v) :: rest else (k', v') :: dict_set k v rest
  end.

(** [jsonable_encoder(obj)] with its defaults: scalars are returned as
    they are, lists item by item, dicts key by key into a new dict, except
    the keys that start with ["_sa"] ([sqlalchemy_safe=True]), and a
    datetime by its [isoformat()]. *)
Fixpoint jsonable_encoder (v : pyval) : result json :=
  match v with
  | PyNone => Ok JNull
  | PyBool b => Ok (JBool b)
  | PyInt n => Ok (JInt n)
  | PyStr s => Ok (JStr s)
  | PyList l =>
      let fix encode_list (l : list pyval) : result (list json) :=
        match l with
        | [] => Ok []
        | x :: xs => bind (jsonable_encoder x) (fun j =>
                     bind (encode_list xs) (fun js => Ok (j :: js)))
        end in
      bind (encode_list l) (fun js => Ok (JArr js))
  | PyDict items =>
      let fix encode_items (acc : list (string * json)) (items : list (string * pyval))
          : result (list (string * json)) :=
        match items with
        | [] => Ok acc
        | (k, x) :: rest =>
            if String.prefix "_sa" k then encode_items acc rest
            else bind (jsonable_encoder x) (fun j => encode_items (dict_set k j acc) rest)
        end in
      bind (encode_items [] items) (fun m => Ok (JObj m))
  | PyDatetime dt => bind (isoformat dt "T" "auto") (fun s => Ok (JStr s))
  end.

(** ** [json.dumps] with [separators=(",", ":")] and [ensure_ascii=False] *)

Definition hex_digit (n : Z) : ascii :=
  if n <? 10 then ascii_of_N (48 + Z.to_N n) else ascii_of_N (87 + Z.to_N n).

(** The double quote, as a one-character string. *)
Definition dq : string := String (ascii_of_nat 34) EmptyString.

(** [encode_basestring]'s replacement of one character. *)
Definition escape_char (c : ascii) : string :=
  if Ascii.eqb c "\" then "\\"
  else if Ascii.eqb c (ascii_of_nat 34) then "\" ++ dq
  else if Ascii.eqb c (ascii_of_nat 8) then "\b"
  else if Ascii.eqb c (ascii_of_nat 12) then "\f"
  else if Ascii.eqb c (ascii_of_nat 10) then "\n"
  else if Ascii.eqb c (ascii_of_nat 13) then "\r"
  else if Ascii.eqb c (ascii_of_nat 9) then "\t"
  else if (N_of_ascii c <? 32)%N
  then "\u00" ++ String (hex_digit (Z.of_N (N_of_ascii c) / 16))
                       (String (hex_digit (Z.of_N (N_of_ascii c) mod 16)) "")
  else String c "".

Fixpoint escape_string (s : string) : string :=
  match s with
  | EmptyString => ""
  | String c s' => escape_char c ++ escape_string s'
  end.

(** [encode_basestring(s)]: the quoted, escaped string. *)
Definition encode_basestring (s : string) : string := dq ++ escape_string s ++ dq.

(** [json.dumps]: [int.__repr__] for ints, [", "] and [": "] replaced by
    the compact separators. *)
Fixpoint dumps (j : json) : string :=
  match j with
  | JNull => "null"
  | JBool true => "true"
  | JBool false => "false"
  | JInt n => format_d0 0 n
  | JStr s => encode_basestring s
  | JArr l =>
      "[" ++ (fix items (l : list json) : string :=
                match l with
                | [] => ""
                | [x] => dumps x
                | x :: xs => dumps x ++ "," ++ items xs
                end) l ++ "]"
  | JObj m =>
      "{" ++ (fix members (m : list (string * json)) : string :=
                match m with
                | [] => ""
                | [(k, x)] => encode_basestring k ++ ":" ++ dumps x
                | (k, x) :: ms => encode_basestring k ++ ":" ++ dumps x ++ "," ++ members ms
                end) m ++ "}"
  end.

Example dumps_examples :
  dumps (JObj [("current_datetime", JStr "2024-01-15T10:30:00.123456")])
    = "{" ++ dq ++ "current_datetime" ++ dq ++ ":" ++ dq ++ "2024-01-15T10:30:00.123456" ++ dq ++ "}"
  /\ dumps (JArr [JInt 1; JInt (-20); JNull; JBool true]) = "[1,-20,null,true]"
  /\ dumps (JStr (String (ascii_of_nat 10) (String (ascii_of_nat 1) dq)))
    = dq ++ "\n\u0001\" ++ dq ++ dq
  /\ jsonable_encoder (PyDict [("a", PyInt 1); ("b", PyNone); ("a", PyInt 2)])
    = Ok (JObj [("a", JInt 2); ("b", JNull)])
  /\ jsonable_encoder (PyDict [("_sa_state", PyInt 1); ("x", PyStr "y")])
    = Ok (JObj [("x", JStr "y")]).
Proof. repeat split; reflexivity. Qed.

(** ** Lemmas *)

(** Every character of a string satisfies [p]. *)
Fixpoint all_chars (p : ascii -> bool) (s : string) : bool :=
  match s with
  | EmptyString => true
  | String c s' => p c && all_chars p s'
  end.

Lemma all_chars_app (p : ascii -> bool) (s1 s2 : string) :
  all_chars p (s1 ++ s2) = all_chars p s1 && all_chars p s2.
Proof. induction s1; simpl; [reflexivity |]. rewrite IHs1, andb_assoc. reflexivity. Qed.

(** The characters [encode_basestring] leaves as they are. *)
Definition plain_char (c : ascii) : bool :=
  (32 <=? N_of_ascii c)%N && negb (Ascii.eqb c (ascii_of_nat 34)) && negb (Ascii.eqb c "\").

Lemma escape_char_plain (c : ascii) : plain_char c = true -> escape_char c = String c "".
Proof.
  unfold plain_char, escape_char. intros H.
  apply andb_prop in H as [H H3]. apply andb_prop in H as [H1 H2].
  apply negb_true_iff in H2, H3. rewrite H2, H3. apply N.leb_le in H1.
  destruct (Ascii.eqb_spec c (ascii_of_nat 8)) as [-> | _]; [simpl in H1; lia |].
  destruct (Ascii.eqb_spec c (ascii_of_nat 12)) as [-> | _]; [simpl in H1; lia |].
  destruct (Ascii.eqb_spec c (ascii_of_nat 10)) as [-> | _]; [simpl in H1; lia |].
  destruct (Ascii.eqb_spec c (ascii_of_nat 13)) as [-> | _]; [simpl in H1; lia |].
  destruct (Ascii.eqb_spec c (ascii_of_nat 9)) as [-> | _]; [simpl in H1; lia |].
  replace (N_of_ascii c <? 32)%N with false by (symmetry; apply N.ltb_ge; lia).
  reflexivity.
Qed.

(** A string of plain characters is written as it is. *)
Lemma escape_string_plain (s : string) : all_chars plain_char s = true -> escape_string s = s.
Proof.
  induction s as [|c s IH]; simpl; [reflexivity |].
  intros H. apply andb_prop in H as [Hc Hs].
  rewrite escape_char_plain, IH by assumption. reflexivity.
Qed.

Lemma digit_char_plain (d : Z) : 0 <= d < 10 -> plain_char (digit_char d) = true.
Proof.
  intros Hd. unfold plain_char, digit_char.
  pose proof (N_ascii_embedding (48 + Z.to_N d) ltac:(lia)) as E.
  destruct (Ascii.eqb_spec (ascii_of_N (48 + Z.to_N d)) (ascii_of_nat 34)) as [F | _].
  { apply (f_equal N_of_ascii) in F. rewrite E in F.
    change (N_of_ascii (ascii_of_nat 34)) with 34%N in F. lia. }
  destruct (Ascii.eqb_spec (ascii_of_N (48 + Z.to_N d)) "\") as [F | _].
  { apply (f_equal N_of_ascii) in F. rewrite E in F.
    change (N_of_ascii "\") with 92%N in F. lia. }
  rewrite E. cbn [negb]. rewrite !andb_true_r. apply N.leb_le. lia.
Qed.

Lemma digits_fixed_plain (w : nat) (n : Z) : all_chars plain_char (digits_fixed w n) = true.
Proof.
  induction w as [|w IH]; simpl; [reflexivity |].
  rewrite IH, digit_char_plain; [reflexivity |].
  apply Z.mod_pos_bound. lia.
Qed.

(** The ISO text of a datetime needs no escape. *)
Lemma iso_text_plain (dt : datetime) : all_chars plain_char (iso_text dt) = true.
Proof.
  unfold iso_text, iso_date_time, iso_fraction.
  rewrite !all_chars_app, !digits_fixed_plain.
  destruct (microsecond dt =? 0); rewrite ?all_chars_app, ?digits_fixed_plain; reflexivity.
Qed.

(** The body of the one-member objects the handler's dict becomes. *)
Lemma dumps_single_member (k v : string) :
  all_chars plain_char k = true -> all_chars plain_char v = true ->
  dumps (JObj [(k, JStr v)]) = "{" ++ dq ++ k ++ dq ++ ":" ++ dq ++ v ++ dq ++ "}".
Proof.
  intros Hk Hv. simpl. unfold encode_basestring.
  rewrite !escape_string_plain by assumption.
  unfold dq. simpl. rewrite ?string_app_assoc. simpl. rewrite ?string_app_assoc. reflexivity.
Qed.
