(* ===== verification/App.v ===== *)
(** * App: the FastAPI application and its one handler

    [src/python-API/app.py]:
    - line 4, [app = FastAPI()]: the constructor's [setup()] registers
      FastAPI's own routes, [/openapi.json], [/docs],
      [/docs/oauth2-redirect] and [/redoc], each a Starlette [Route] whose
      methods default to [GET] (and [HEAD], which Starlette adds to [GET]);
    - line 6, [@app.get("/datetime")]: an [APIRoute] with methods [GET],
      appended after them;
    - lines 7-8, [get_current_datetime]: reads the clock and returns
      [{"current_datetime": datetime.now().isoformat()}].

    A request goes through Starlette's [Router.app]: the first route whose
    path matches and whose methods contain the method handles it ([FULL]);
    otherwise the first route whose path matches answers 405 with an
    [Allow] header ([PARTIAL]); otherwise, if the path with its trailing
    slash toggled matches a route, a 307 redirect to the URL that
    Starlette's [URL(scope=...)] rebuilds ([redirect_url]: the scheme and
    the [Host] header, or uvicorn's [server] address of the socket when
    there is no [Host], then the query string) and
    [urllib.parse.quote] escapes ([quote]); otherwise 404.
    FastAPI turns the [HTTPException]s of 404 and 405 into
    [{"detail": ...}] JSON responses; an exception of the handler becomes
    Starlette's 500 [Internal Server Error], and [ServerErrorMiddleware]
    raises it again to the server ([app_raises]).  The handler's value goes
    through [jsonable_encoder] and [JSONResponse].

    The clock is the [TimeSource] interface of [Clock]: every theorem here
    holds of any clock that meets [TimeSourceLaws].  Besides the answers
    to each kind of request, every response sent as bytes states its
    length in its [content-length] header ([content_length_ok]). *)

From Stdlib Require Import ZArith String Ascii List Bool Lia.
From S2P Require Import Prelude PyInt DateTime IsoFormat Clock Json.
Import ListNotations.

Local Open Scope string_scope.
Local Open Scope Z_scope.

(** ** Requests, responses, routes *)

(** The [scheme] uvicorn's HTTP protocols put in the [scope]: [https]
    on a TLS transport, [http] otherwise. *)
Inductive url_scheme : Type := SchemeHttp | SchemeHttps.

(** The parts of an ASGI [scope] the router reads: the method, the path,
    the query string, the scheme, the first [Host] header, and the
    [server] address uvicorn takes from the socket ([get_local_addr]:
    [None] when the transport has no such address). *)
Record request : Type := mk_request {
  req_method : string;
  req_path : string;
  req_query : string;
  req_scheme : url_scheme;
  req_host : option string;
  req_server : option (string * Z)
}.

(** A response body: bytes, or a documentation page FastAPI renders (its
    HTML and the OpenAPI schema are not modelled). *)
Inductive body : Type :=
| Bytes (s : string)
| DocsPage (name : string).

Record response : Type := mk_response {
  status : Z;
  headers : list (string * string);
  resp_body : body
}.

Inductive endpoint : Type :=
| Openapi
| SwaggerUiHtml
| SwaggerUiRedirect
| RedocHtml
| GetCurrentDatetime.

Record route : Type := mk_route {
  route_path : string;
  route_methods : list string;
  route_endpoint : endpoint
}.

(** Starlette's [Route(path, endpoint)] for a function endpoint without
    [methods]: [GET], with the [HEAD] Starlette adds to [GET]. *)
Definition starlette_route (path : string) (e : endpoint) : route :=
  mk_route path ["GET"; "HEAD"] e.

(** [FastAPI()] (line 4): [setup()] with the default [openapi_url],
    [docs_url], [swagger_ui_oauth2_redirect_url] and [redoc_url]. *)
Definition fastapi_setup_routes : list route :=
  [starlette_route "/openapi.json" Openapi;
   starlette_route "/docs" SwaggerUiHtml;
   starlette_route "/docs/oauth2-redirect" SwaggerUiRedirect;
   starlette_route "/redoc" RedocHtml].

(** [@app.get("/datetime")] (line 6): [add_api_route] appends an
    [APIRoute] with methods [GET]. *)
Definition app_get (path : string) (e : endpoint) (routes : list route) : list route :=
  routes ++ [mk_route path ["GET"] e].

Definition app_routes : list route := app_get "/datetime" GetCurrentDatetime fastapi_setup_routes.

(** ** The handler (lines 7-8) *)

Section Handler.
Context {S : Type} `{TimeSource S}.

(** [get_current_datetime()]: [datetime.now().isoformat()] put in a dict. *)
Definition get_current_datetime (s : S) : result pyval :=
  (dt <- clock_read s ;;
   iso <- isoformat dt "T" "auto" ;;
   Ok (PyDict [("current_datetime", PyStr iso)]))%py.
End Handler.

(** ** Responses *)

(** [str(n)] of a non-negative int. *)
Definition str_int (n : Z) : string := format_d0 0 n.

(** [JSONResponse(content, status_code)]: the rendered body, then
    [content-length] and [content-type] headers, in Starlette's order. *)
Definition json_response (j : json) (code : Z) (extra : list (string * string)) : response :=
  let b := dumps j in
  mk_response code
    (extra ++ [("content-length", str_int (Z.of_nat (String.length b)));
               ("content-type", "application/json")])
    (Bytes b).

(** FastAPI's [http_exception_handler]: [{"detail": phrase}]. *)
Definition http_exception (code : Z) (phrase : string) (extra : list (string * string)) : response :=
  json_response (JObj [("detail", JStr phrase)]) code extra.

(** Starlette's [ServerErrorMiddleware] answer to an unhandled exception. *)
Definition internal_server_error : response :=
  mk_response 500 [("content-length", "21"); ("content-type", "text/plain; charset=utf-8")]
    (Bytes "Internal Server Error").

(** [", ".join(methods)]. *)
Fixpoint join_methods (ms : list string) : string :=
  match ms with
  | [] => ""
  | [m] => m
  | m :: ms' => m ++ ", " ++ join_methods ms'
  end.

(** ** Routing *)

Inductive match_kind : Type := NoMatch | Partial | Full.

(** [Route.matches(scope)] for a path without parameters: the compiled
    [^path$] matches exactly the path; the method decides [FULL] or
    [PARTIAL]. *)
Definition route_matches (r : route) (method path : string) : match_kind :=
  if String.eqb (route_path r) path then
    if existsb (String.eqb method) (route_methods r) then Full else Partial
  else NoMatch.

(** The loop of [Router.app]: the first [FULL] route handles the request;
    the first [PARTIAL] one is remembered. *)
Inductive dispatch : Type :=
| DFull (r : route)
| DPartial (r : route)
| DNone.

Fixpoint route_loop (routes : list route) (method path : string) (partial : option route)
    : dispatch :=
  match routes with
  | [] => match partial with Some r => DPartial r | None => DNone end
  | r :: rs =>
      match route_matches r method path with
      | Full => DFull r
      | Partial =>
          route_loop rs method path (match partial with None => Some r | Some p => Some p end)
      | NoMatch => route_loop rs method path partial
      end
  end.

(** [path.rstrip("/")]. *)
Fixpoint rstrip_slash (s : string) : string :=
  match s with
  | EmptyString => EmptyString
  | String c s' =>
      let r := rstrip_slash s' in
      if String.eqb r "" && Ascii.eqb c "/" then "" else String c r
  end.

(** [path.endswith("/")]. *)
Fixpoint ends_with_slash (s : string) : bool :=
  match s with
  | EmptyString => false
  | String c EmptyString => Ascii.eqb c "/"
  | String _ s' => ends_with_slash s'
  end.

(** The path the redirect tries: the trailing slash removed or added. *)
Definition toggle_slash (path : string) : string :=
  if ends_with_slash path then rstrip_slash path else path ++ "/".

Definition scheme_name (sc : url_scheme) : string :=
  match sc with SchemeHttp => "http" | SchemeHttps => "https" end.

(** [{"http": 80, "https": 443, "ws": 80, "wss": 443}[scheme]]. *)
Definition default_port (sc : url_scheme) : Z :=
  match sc with SchemeHttp => 80 | SchemeHttps => 443 end.

(** [str(URL(scope=redirect_scope))]: the [Host] header when there is
    one, else the [server] address (its port left out when it is the
    scheme's default), else the path alone; then the query string. *)
Definition redirect_url (req : request) (path : string) : string :=
  let scheme := scheme_name (req_scheme req) in
  match req_host req, req_server req with
  | Some h, _ => scheme ++ "://" ++ h ++ path
  | None, None => path
  | None, Some (host, port) =>
      if port =? default_port (req_scheme req) then scheme ++ "://" ++ host ++ path
      else scheme ++ "://" ++ host ++ ":" ++ str_int port ++ path
  end ++ (if String.eqb (req_query req) "" then "" else "?" ++ req_query req).

(** An upper-case hexadecimal digit, as [quote] writes it ([%02X]). *)
Definition hex_upper (n : Z) : ascii :=
  if n <? 10 then ascii_of_N (48 + Z.to_N n) else ascii_of_N (55 + Z.to_N n).

(** [urllib.parse._ALWAYS_SAFE]: ASCII letters, digits and [_.-~]. *)
Definition always_safe (c : ascii) : bool :=
  let n := N_of_ascii c in
  ((65 <=? n) && (n <=? 90))%N || ((97 <=? n) && (n <=? 122))%N || ((48 <=? n) && (n <=? 57))%N
  || existsb (Ascii.eqb c) (list_ascii_of_string "_.-~").

(** The [safe] argument [RedirectResponse] passes to [quote]. *)
Definition redirect_safe : string := ":/%#?=@[]!$&'()*+,;".

(** [quote_from_bytes]'s quoter on one byte: kept when safe, else [%XX]. *)
Definition quote_byte (safe : string) (c : ascii) : string :=
  if always_safe c || existsb (Ascii.eqb c) (list_ascii_of_string safe) then String c ""
  else String "%" (String (hex_upper (Z.of_N (N_of_ascii c) / 16))
                          (String (hex_upper (Z.of_N (N_of_ascii c) mod 16)) "")).

(** [quote(url, safe)]: the URL's UTF-8 bytes (a string here is the byte
    sequence of its UTF-8 encoding), each byte quoted. *)
Fixpoint quote (safe : string) (s : string) : string :=
  match s with
  | EmptyString => EmptyString
  | String c s' => quote_byte safe c ++ quote safe s'
  end.

(** [RedirectResponse(url)]: 307, the empty body's [content-length: 0],
    then [location] set to the quoted URL. *)
Definition redirect_response (url : string) : response :=
  mk_response 307 [("content-length", "0"); ("location", quote redirect_safe url)] (Bytes "").

Section Router.
Context {S : Type} `{TimeSource S}.

(** [route.handle] of a route whose methods contain the request's. *)
Definition run_endpoint (e : endpoint) (s : S) : response :=
  match e with
  | GetCurrentDatetime =>
      match bind (get_current_datetime s) jsonable_encoder with
      | Ok j => json_response j 200 []
      | Raise _ => internal_server_error
      end
  | Openapi => mk_response 200 [("content-type", "application/json")] (DocsPage "openapi")
  | SwaggerUiHtml =>
      mk_response 200 [("content-type", "text/html; charset=utf-8")] (DocsPage "swagger-ui")
  | SwaggerUiRedirect =>
      mk_response 200 [("content-type", "text/html; charset=utf-8")] (DocsPage "oauth2-redirect")
  | RedocHtml =>
      mk_response 200 [("content-type", "text/html; charset=utf-8")] (DocsPage "redoc")
  end.

(** [Router.app(scope)] on an HTTP request, in the clock state [s]. *)
Definition handle_request (routes : list route) (req : request) (s : S) : response :=
  match route_loop routes (req_method req) (req_path req) None with
  | DFull r => run_endpoint (route_endpoint r) s
  | DPartial r =>
      http_exception 405 "Method Not Allowed" [("allow", join_methods (route_methods r))]
  | DNone =>
      let path := toggle_slash (req_path req) in
      if negb (String.eqb (req_path req) "/")
         && existsb (fun r => match route_matches r (req_method req) path with
                              | NoMatch => false | _ => true end) routes
      then redirect_response (redirect_url req path)
      else http_exception 404 "Not Found" []
  end.
End Router.

(** The application of [src/python-API/app.py]. *)
Definition app {S : Type} `{TimeSource S} (req : request) (s : S) : response :=
  handle_request app_routes req s.

(** [ServerErrorMiddleware] re-raises the handler's exception after
    sending its 500 answer: whether the application call ends with an
    exception. *)
Definition app_raises {S : Type} `{TimeSource S} (req : request) (s : S) : bool :=
  match route_loop app_routes (req_method req) (req_path req) None with
  | DFull r =>
      match route_endpoint r with
      | GetCurrentDatetime => negb (is_ok (bind (get_current_datetime s) jsonable_encoder))
      | _ => false
      end
  | _ => false
  end.

Definition get (path : string) : request := mk_request "GET" path "" SchemeHttp (Some "localhost:8000")
                                                (Some ("127.0.0.1", 8000)).

(** ** The response the spec states *)

(** [{"current_datetime":"<iso>"}] as the compact separators write it. *)
Definition datetime_body (iso : string) : string :=
  "{" ++ dq ++ "current_datetime" ++ dq ++ ":" ++ dq ++ iso ++ dq ++ "}".

(** [response.headers[key]]: the first header of that name. *)
Fixpoint lookup_header (k : string) (hs : list (string * string)) : option string :=
  match hs with
  | [] => None
  | (k', v) :: hs' => if String.eqb k k' then Some v else lookup_header k hs'
  end.

(** A response whose bytes are sent with a [content-length] header that
    gives their number (the documentation pages are not modelled). *)
Definition content_length_ok (r : response) : Prop :=
  match resp_body r with
  | Bytes b => lookup_header "content-length" (headers r) = Some (str_int (Z.of_nat (String.length b)))
  | DocsPage _ => True
  end.

(** ** Examples *)

Example app_examples :
  let c := mk_clock 1705314600123456789 (fixed_zone 0) in
  app (get "/datetime") c
    = mk_response 200 [("content-length", "49"); ("content-type", "application/json")]
        (Bytes ("{" ++ dq ++ "current_datetime" ++ dq ++ ":" ++ dq
                ++ "2024-01-15T10:30:00.123456" ++ dq ++ "}"))
  /\ status (app (get "/unknown") c) = 404
  /\ status (app (mk_request "POST" "/datetime" "" SchemeHttp None (Some ("127.0.0.1", 8000))) c) = 405
  /\ headers (app (get "/datetime/") c)
     = [("content-length", "0"); ("location", "http://localhost:8000/datetime")]
  /\ headers (app (mk_request "GET" "/datetime/" "q=a b" SchemeHttp (Some "h") (Some ("127.0.0.1", 8000))) c)
     = [("content-length", "0"); ("location", "http://h/datetime?q=a%20b")]
  /\ status (app (get "/docs") c) = 200
  /\ status (app (mk_request "HEAD" "/docs" "" SchemeHttp None (Some ("127.0.0.1", 8000))) c) = 200
  /\ status (app (mk_request "HEAD" "/datetime" "" SchemeHttp None (Some ("127.0.0.1", 8000))) c) = 405.
Proof. repeat split; reflexivity. Qed.

(** ** Lemmas *)

Lemma datetime_body_length (iso : string) :
  String.length (datetime_body iso) = (23 + String.length iso)%nat.
Proof.
  unfold datetime_body. rewrite !string_length_app. simpl. lia.
Qed.

Lemma encode_datetime_dict (iso : string) :
  jsonable_encoder (PyDict [("current_datetime", PyStr iso)])
  = Ok (JObj [("current_datetime", JStr iso)]).
Proof. reflexivity. Qed.

Lemma route_loop_no_path (routes : list route) (m path : string) (p : option route) :
  (forall r, In r routes -> route_path r <> path) ->
  route_loop routes m path p = match p with Some r => DPartial r | None => DNone end.
Proof.
  induction routes as [|r rs IH]; intros Hr; [reflexivity |].
  simpl. unfold route_matches.
  destruct (String.eqb_spec (route_path r) path) as [E | _].
  - exfalso. apply (Hr r); [left |]; auto.
  - apply IH. intros r' Hin. apply Hr. right. exact Hin.
Qed.

Lemma existsb_no_path (routes : list route) (m path : string) :
  (forall r, In r routes -> route_path r <> path) ->
  existsb (fun r => match route_matches r m path with NoMatch => false | _ => true end) routes
  = false.
Proof.
  intros Hr. apply not_true_iff_false. intros E. apply existsb_exists in E as [r [Hin E]].
  unfold route_matches in E. destruct (String.eqb_spec (route_path r) path); [| discriminate].
  exact (Hr r Hin ltac:(assumption)).
Qed.

(** The paths of the application's routes. *)
Definition app_paths : list string := map route_path app_routes.

Lemma not_app_path (path : string) :
  ~ In path app_paths -> forall r, In r app_routes -> route_path r <> path.
Proof.
  intros H r Hin E. apply H. unfold app_paths. rewrite <- E. apply in_map. exact Hin.
Qed.

(** Whatever the method, the path [/datetime] matches a route. *)
Lemma datetime_path_matches (m : string) :
  existsb (fun r => match route_matches r m "/datetime" with NoMatch => false | _ => true end)
    app_routes = true.
Proof. simpl. unfold route_matches. simpl. destruct (String.eqb m "GET"); reflexivity. Qed.

(** A JSON response states the length of its body, unless an extra
    header of that name comes first. *)
Lemma json_response_content_length (j : json) (code : Z) (extra : list (string * string)) :
  lookup_header "content-length" extra = None -> content_length_ok (json_response j code extra).
Proof.
  intros H. unfold content_length_ok, json_response. cbv zeta. cbn [resp_body headers].
  induction extra as [| [k v] extra IH]; [reflexivity |].
  cbn [lookup_header Datatypes.app] in *.
  destruct (String.eqb "content-length" k); [discriminate H | exact (IH H)].
Qed.

(** The URL of a redirect to [path] without a query string: the [Host]
    header when the client sent one, else the socket's address with its
    port unless it is the scheme's default. *)
Lemma redirect_url_no_query (req : request) (path : string) :
  req_query req = "" ->
  (forall h, req_host req = Some h ->
     redirect_url req path = scheme_name (req_scheme req) ++ "://" ++ h ++ path)
  /\ (forall host port, req_host req = None -> req_server req = Some (host, port) ->
       redirect_url req path
       = scheme_name (req_scheme req) ++ "://" ++ host
         ++ (if port =? default_port (req_scheme req) then "" else ":" ++ str_int port) ++ path).
Proof.
  intros Hq. unfold redirect_url. rewrite Hq. cbn [String.eqb]. split.
  - intros h ->. apply string_app_nil_r.
  - intros host port -> ->. rewrite string_app_nil_r.
    destruct (port =? default_port (req_scheme req)); [reflexivity |].
    rewrite !string_app_assoc. reflexivity.
Qed.

Section AppTheorems.
Context {S : Type} `{TimeSourceLaws S}.

Lemma get_current_datetime_ok (s : S) (dt : datetime) :
  clock_read s = Ok dt ->
  get_current_datetime s = Ok (PyDict [("current_datetime", PyStr (iso_text dt))]).
Proof.
  intros E. unfold get_current_datetime. rewrite E. cbn [bind].
  rewrite isoformat_auto_iso by (eapply read_valid; exact E). reflexivity.
Qed.

(** The response to [GET /datetime] when the clock reads [dt]. *)
Lemma datetime_endpoint (req : request) (s : S) (dt : datetime) :
  req_method req = "GET" -> req_path req = "/datetime" -> clock_read s = Ok dt ->
  app req s
  = mk_response 200
      [("content-length", if microsecond dt =? 0 then "42" else "49");
       ("content-type", "application/json")]
      (Bytes (datetime_body (iso_text dt))).
Proof.
  intros Hm Hp E. unfold app, handle_request. rewrite Hm, Hp. cbn -[run_endpoint].
  unfold run_endpoint. rewrite (get_current_datetime_ok s dt E). cbn [bind].
  rewrite encode_datetime_dict. unfold json_response.
  rewrite dumps_single_member by (reflexivity || apply iso_text_plain).
  fold (datetime_body (iso_text dt)).
  rewrite datetime_body_length, iso_text_length.
  destruct (microsecond dt =? 0); reflexivity.
Qed.

(** C1 (functional): [GET /datetime] answers 200 with the JSON object of
    one key, [current_datetime], whose value is the ISO text of the
    clock's datetime; [content-length] is 42, or 49 with microseconds. *)
Theorem get_datetime_response (req : request) (s : S) (dt : datetime) :
  req_method req = "GET" -> req_path req = "/datetime" -> clock_read s = Ok dt ->
  app req s
  = mk_response 200
      [("content-length", if microsecond dt =? 0 then "42" else "49");
       ("content-type", "application/json")]
      (Bytes (datetime_body (iso_text dt))).
Proof. apply datetime_endpoint. Qed.

(** C12 (error): when reading the clock raises, [GET /datetime] answers
    Starlette's 500 [Internal Server Error]. *)
Theorem get_datetime_clock_error (req : request) (s : S) (e : exc) :
  req_method req = "GET" -> req_path req = "/datetime" -> clock_read s = Raise e ->
  app req s = internal_server_error.
Proof.
  intros Hm Hp E. unfold app, handle_request. rewrite Hm, Hp. cbn -[run_endpoint].
  unfold run_endpoint, get_current_datetime. rewrite E. reflexivity.
Qed.

(** C13 (functional): a path no route has, whose slash-toggled form no
    route has either, answers 404 [{"detail":"Not Found"}]. *)
Theorem unknown_path_not_found (req : request) (s : S) :
  ~ In (req_path req) app_paths ->
  (req_path req = "/" \/ ~ In (toggle_slash (req_path req)) app_paths) ->
  app req s = http_exception 404 "Not Found" [].
Proof.
  intros Hp Ht. unfold app, handle_request.
  rewrite route_loop_no_path by (apply not_app_path; exact Hp).
  destruct Ht as [-> | Ht]; [reflexivity |].
  rewrite existsb_no_path by (apply not_app_path; exact Ht).
  rewrite andb_false_r. reflexivity.
Qed.

(** C14 (functional): on [/datetime] any method but [GET] answers 405
    [{"detail":"Method Not Allowed"}] with [allow: GET]. *)
Theorem datetime_method_not_allowed (req : request) (s : S) :
  req_path req = "/datetime" -> req_method req <> "GET" ->
  app req s = http_exception 405 "Method Not Allowed" [("allow", "GET")].
Proof.
  intros Hp Hm. unfold app, handle_request. rewrite Hp.
  cbn -[String.eqb http_exception]. unfold route_matches. cbn [route_path route_methods existsb].
  rewrite (proj2 (String.eqb_neq _ _) Hm). reflexivity.
Qed.

(** [/datetime/] is redirected. *)
Lemma datetime_redirect_app (req : request) (s : S) :
  req_path req = "/datetime/" -> app req s = redirect_response (redirect_url req "/datetime").
Proof.
  intros Hp. unfold app, handle_request. rewrite Hp.
  rewrite route_loop_no_path by (apply not_app_path; simpl; intuition discriminate).
  change (toggle_slash "/datetime/") with "/datetime".
  rewrite datetime_path_matches. reflexivity.
Qed.

(** C15 (functional): [/datetime/], whatever the method, answers a 307
    redirect to [/datetime], located at the URL Starlette rebuilds from
    the scope: the scheme with the [Host] header, or with uvicorn's
    [server] address when there is no [Host], and the query string. *)
Theorem datetime_slash_redirect (req : request) (s : S) :
  req_path req = "/datetime/" ->
  app req s = redirect_response (redirect_url req "/datetime")
  /\ (req_query req = "" ->
      (forall h, req_host req = Some h ->
         redirect_url req "/datetime" = scheme_name (req_scheme req) ++ "://" ++ h ++ "/datetime")
      /\ (forall host port, req_host req = None -> req_server req = Some (host, port) ->
           redirect_url req "/datetime"
           = scheme_name (req_scheme req) ++ "://" ++ host
             ++ (if port =? default_port (req_scheme req) then "" else ":" ++ str_int port)
             ++ "/datetime")).
Proof. intros Hp. split; [apply datetime_redirect_app, Hp | apply redirect_url_no_query]. Qed.


(** Statelessness: the response depends on the request and on what the
    clock reads, and on nothing else: no state is shared between
    requests. *)
Theorem app_depends_on_clock_read (req : request) (s s' : S) :
  clock_read s = clock_read s' -> app req s = app req s'.
Proof.
  intros E. unfold app, handle_request, run_endpoint, get_current_datetime. rewrite E.
  reflexivity.
Qed.
(** FastAPI's own [/docs] page answers 200 to [GET] and
    [HEAD]: not every path but [/datetime] is a 404. *)
Theorem docs_page_served (req : request) (s : S) :
  req_path req = "/docs" -> req_method req = "GET" \/ req_method req = "HEAD" ->
  app req s = mk_response 200 [("content-type", "text/html; charset=utf-8")] (DocsPage "swagger-ui").
Proof.
  intros Hp Hm. unfold app, handle_request. rewrite Hp.
  destruct Hm as [-> | ->]; reflexivity.
Qed.

(** C36 (type): every response the application sends as bytes carries a
    [content-length] header that is the number of those bytes: the JSON
    answers (200, 404, 405), the 307 redirect and the 500 error alike. *)
Theorem app_content_length (req : request) (s : S) : content_length_ok (app req s).
Proof.
  unfold app, handle_request. destruct (route_loop _ _ _ _) as [r | r |].
  - unfold run_endpoint. destruct (route_endpoint r); try exact I.
    destruct (bind _ _); [apply json_response_content_length; reflexivity | reflexivity].
  - apply json_response_content_length. reflexivity.
  - destruct (_ && _); [reflexivity | apply json_response_content_length; reflexivity].
Qed.
End AppTheorems.

(** ** Witnesses *)

(** 2024-01-15T10:30:00.123456789 UTC, and a reading past the [PyTime_t] range. *)
Definition scenario_clock : SystemClock := mk_clock 1705314600123456789 (fixed_zone 0).
Definition far_clock : SystemClock := mk_clock (2 ^ 63) (fixed_zone 0).

Lemma get_datetime_response_witness :
  req_method (get "/datetime") = "GET" /\ req_path (get "/datetime") = "/datetime"
  /\ clock_read scenario_clock = Ok scenario_dt
  /\ app (get "/datetime") scenario_clock
     = mk_response 200
         [("content-length", if microsecond scenario_dt =? 0 then "42" else "49");
          ("content-type", "application/json")]
         (Bytes (datetime_body (iso_text scenario_dt))).
Proof.
  do 3 (split; [reflexivity |]).
  apply get_datetime_response; reflexivity.
Defined.

Lemma get_datetime_clock_error_witness :
  req_method (get "/datetime") = "GET" /\ req_path (get "/datetime") = "/datetime"
  /\ clock_read far_clock = Raise pytime_overflow
  /\ app (get "/datetime") far_clock = internal_server_error.
Proof.
  do 3 (split; [reflexivity |]).
  apply (get_datetime_clock_error _ _ pytime_overflow); reflexivity.
Defined.

Lemma unknown_path_not_found_witness :
  ~ In "/unknown" app_paths /\ ~ In (toggle_slash "/unknown") app_paths
  /\ app (get "/unknown") scenario_clock = http_exception 404 "Not Found" [].
Proof.
  assert (H1 : ~ In "/unknown" app_paths) by (simpl; intuition discriminate).
  assert (H2 : ~ In (toggle_slash "/unknown") app_paths) by (simpl; intuition discriminate).
  split; [exact H1 | split; [exact H2 |]].
  apply unknown_path_not_found; [exact H1 | right; exact H2].
Defined.

Lemma datetime_method_not_allowed_witness :
  let req := mk_request "POST" "/datetime" "" SchemeHttp None (Some ("127.0.0.1", 8000)) in
  req_path req = "/datetime" /\ req_method req <> "GET"
  /\ app req scenario_clock = http_exception 405 "Method Not Allowed" [("allow", "GET")].
Proof.
  split; [reflexivity |]. split; [discriminate |].
  apply datetime_method_not_allowed; [reflexivity | discriminate].
Defined.

(** With a [Host] header the location names it; without one, uvicorn's
    [server] address and its port 8000, which is not the default one. *)
Lemma datetime_slash_redirect_witness :
  req_path (get "/datetime/") = "/datetime/"
  /\ app (get "/datetime/") scenario_clock
     = redirect_response "http://localhost:8000/datetime"
  /\ app (mk_request "POST" "/datetime/" "" SchemeHttp None (Some ("10.0.0.7", 8000))) scenario_clock
     = redirect_response "http://10.0.0.7:8000/datetime".
Proof.
  split; [reflexivity |]. split.
  - apply (datetime_slash_redirect (get "/datetime/")); reflexivity.
  - apply (datetime_slash_redirect
             (mk_request "POST" "/datetime/" "" SchemeHttp None (Some ("10.0.0.7", 8000))));
      reflexivity.
Defined.

Lemma app_depends_on_clock_read_witness :
  clock_read scenario_clock = clock_read (mk_clock 1705314600123456000 (fixed_zone 0))
  /\ app (get "/datetime") scenario_clock = app (get "/datetime") (mk_clock 1705314600123456000 (fixed_zone 0)).
Proof.
  assert (H : clock_read scenario_clock = clock_read (mk_clock 1705314600123456000 (fixed_zone 0)))
    by reflexivity.
  split; [exact H | apply app_depends_on_clock_read; exact H].
Defined.

Lemma docs_page_served_witness :
  req_path (get "/docs") = "/docs"
  /\ app (get "/docs") scenario_clock
     = mk_response 200 [("content-type", "text/html; charset=utf-8")] (DocsPage "swagger-ui").
Proof.
  split; [reflexivity |].
  apply docs_page_served; [reflexivity | left; reflexivity].
Defined.
