(* ===== verification/Http.v ===== *)
(** * Http: uvicorn's HTTP/1.1 response writer

    [uvicorn.run(app, ...)] (line 13) serves [app] with the HTTP protocol
    that [http="auto"] selects, [httptools] when it is installed
    ([uvicorn[standard]]).  For each request the protocol creates a
    [RequestResponseCycle]; the application answers through its [send]
    callable, and [send] writes the response to the transport.  This file
    models:
    - Starlette's [Response.__call__]: the two ASGI messages an
      application response becomes ([response_messages]);
    - [RequestResponseCycle.send] ([send]) with the fields it reads and
      writes ([cycle]): the status line from [STATUS_LINE], the default
      headers first, the checks [HEADER_RE] and [HEADER_VALUE_RE], the
      framing decided by [content-length] or [transfer-encoding], the body
      written with its length checks, chunked or stripped for [HEAD], the
      close of the connection after the response when it is not kept
      alive, and every [RuntimeError] it raises;
    - [int(value.decode())] on the [content-length] value ([py_int]) with
      its [ValueError]s;
    - the [date] header that [Server.on_tick] computes with
      [email.utils.formatdate(time.time(), usegmt=True)] ([formatdate]),
      where [time.time()] reads the clock through [PyTime_Time] of
      [Clock] and raises its [OverflowError] past the int64 range, and
      the [server: uvicorn] header of [Config.encoded_headers]
      ([default_headers]).

    The flow control ([flow.drain]) and the access log do not change what
    is written and are left out. *)

From Stdlib Require Import ZArith String Ascii List Bool Lia.
From S2P Require Import Prelude PyInt DateTime IsoFormat Calendar Clock Json App.
Import ListNotations.

Local Open Scope string_scope.
Local Open Scope Z_scope.

(** ** Bytes *)

Definition crlf : string := String (ascii_of_nat 13) (String (ascii_of_nat 10) "").

Definition tab_char : ascii := ascii_of_nat 9.

(** [bytes.lower()]: ASCII upper-case letters to lower case. *)
Definition lower_char (c : ascii) : ascii :=
  let n := N_of_ascii c in
  if ((65 <=? n) && (n <=? 90))%N then ascii_of_N (n + 32) else c.

Fixpoint lower (s : string) : string :=
  match s with
  | EmptyString => EmptyString
  | String c s' => String (lower_char c) (lower s')
  end.

(** ** [repr(s)] and [int(s)] *)

(** [repr]'s escape of one character inside quotes [q], for ASCII text
    (a byte of code 128 or more is a byte of a printable UTF-8 character
    here and is kept). *)
Definition repr_char (q c : ascii) : string :=
  let n := N_of_ascii c in
  if Ascii.eqb c q || Ascii.eqb c "\" then String "\" (String c "")
  else if Ascii.eqb c tab_char then "\t"
  else if (n =? 10)%N then "\n"
  else if (n =? 13)%N then "\r"
  else if (n <? 32)%N || (n =? 127)%N
  then String "\" (String "x" (String (hex_digit (Z.of_N n / 16))
                                        (String (hex_digit (Z.of_N n mod 16)) "")))
  else String c "".

Fixpoint repr_chars (q : ascii) (s : string) : string :=
  match s with
  | EmptyString => EmptyString
  | String c s' => repr_char q c ++ repr_chars q s'
  end.

(** [repr(s)]: single quotes, unless the text has a single quote and no
    double quote. *)
Definition py_repr (s : string) : string :=
  let has c := existsb (Ascii.eqb c) (list_ascii_of_string s) in
  let q := if has "'"%char && negb (has (ascii_of_nat 34)) then ascii_of_nat 34 else "'"%char in
  String q (repr_chars q s ++ String q "").

(** The ASCII characters [int()] skips around a number: [str.isspace]'s
    [\t \n \v \f \r], [\x1c] to [\x1f] and the space. *)
Definition py_space (c : ascii) : bool :=
  let n := N_of_ascii c in ((9 <=? n) && (n <=? 13))%N || ((28 <=? n) && (n <=? 32))%N.

Fixpoint lstrip_space (s : string) : string :=
  match s with
  | String c s' => if py_space c then lstrip_space s' else s
  | EmptyString => EmptyString
  end.

Definition all_space (s : string) : bool := forallb py_space (list_ascii_of_string s).

(** The digit scan of [long_from_string_base] in base 10, after a first
    digit: digits, each underscore between two digits; the value, the
    number of digits and the rest, or [None] for a misplaced underscore. *)
Fixpoint scan_digits (s : string) (acc : Z) (nd : nat) : option (Z * nat * string) :=
  match s with
  | String c r =>
      if is_digit c then scan_digits r (acc * 10 + digit_value c) (S nd)
      else if Ascii.eqb c "_" then
        match r with
        | String d r' =>
            if is_digit d then scan_digits r' (acc * 10 + digit_value d) (S nd) else None
        | EmptyString => None
        end
      else Some (acc, nd, s)
  | EmptyString => Some (acc, nd, EmptyString)
  end.

(** [int()]'s error on text that is not a number, with [%.200R]. *)
Definition int_invalid (s : string) : exc :=
  ValueError ("invalid literal for int() with base 10: " ++ substring 0 200 (py_repr s)).

(** The limit [sys.get_int_max_str_digits()] of 4300 digits. *)
Definition int_max_str_digits : nat := 4300.

(** [int(s)] on ASCII text: spaces, a sign, digits with single
    underscores between them, spaces. *)
Definition py_int (s : string) : result Z :=
  let t := lstrip_space s in
  let '(neg, u) :=
    match t with
    | String c r =>
        if Ascii.eqb c "-" then (true, r) else if Ascii.eqb c "+" then (false, r) else (false, t)
    | EmptyString => (false, t)
    end in
  match u with
  | String c r =>
      if is_digit c then
        match scan_digits r (digit_value c) 1 with
        | None => Raise (int_invalid s)
        | Some (v, nd, rest) =>
            if (int_max_str_digits <? nd)%nat
            then Raise (ValueError ("Exceeds the limit (4300 digits) for integer string conversion: value has "
                                    ++ format_d0 0 (Z.of_nat nd)
                                    ++ " digits; use sys.set_int_max_str_digits() to increase the limit"))
            else if all_space rest then Ok (if neg then - v else v) else Raise (int_invalid s)
        end
      else Raise (int_invalid s)
  | EmptyString => Raise (int_invalid s)
  end.

(** [%x] of a non-negative int: hexadecimal digits, [fuel] of them at
    most, in front of [acc]. *)
Fixpoint hex_aux (fuel : nat) (n : Z) (acc : string) : string :=
  match fuel with
  | O => acc
  | S f =>
      let acc' := String (hex_digit (n mod 16)) acc in
      if n <? 16 then acc' else hex_aux f (n / 16) acc'
  end.

Definition format_hex (n : Z) : string := hex_aux (S (Z.to_nat (Z.log2 n))) n "".

(** ** Status lines *)

(** [http.HTTPStatus]: the codes and phrases of Python 3.13. *)
Definition http_status_phrases : list (Z * string) :=
  [(100, "Continue"); (101, "Switching Protocols"); (102, "Processing"); (103, "Early Hints");
   (200, "OK"); (201, "Created"); (202, "Accepted"); (203, "Non-Authoritative Information");
   (204, "No Content"); (205, "Reset Content"); (206, "Partial Content");
   (207, "Multi-Status"); (208, "Already Reported"); (226, "IM Used");
   (300, "Multiple Choices"); (301, "Moved Permanently"); (302, "Found"); (303, "See Other");
   (304, "Not Modified"); (305, "Use Proxy"); (307, "Temporary Redirect");
   (308, "Permanent Redirect");
   (400, "Bad Request"); (401, "Unauthorized"); (402, "Payment Required"); (403, "Forbidden");
   (404, "Not Found"); (405, "Method Not Allowed"); (406, "Not Acceptable");
   (407, "Proxy Authentication Required"); (408, "Request Timeout"); (409, "Conflict");
   (410, "Gone"); (411, "Length Required"); (412, "Precondition Failed");
   (413, "Content Too Large"); (414, "URI Too Long"); (415, "Unsupported Media Type");
   (416, "Range Not Satisfiable"); (417, "Expectation Failed"); (418, "I'm a Teapot");
   (421, "Misdirected Request"); (422, "Unprocessable Content"); (423, "Locked");
   (424, "Failed Dependency"); (425, "Too Early"); (426, "Upgrade Required");
   (428, "Precondition Required"); (429, "Too Many Requests");
   (431, "Request Header Fields Too Large"); (451, "Unavailable For Legal Reasons");
   (500, "Internal Server Error"); (501, "Not Implemented"); (502, "Bad Gateway");
   (503, "Service Unavailable"); (504, "Gateway Timeout"); (505, "HTTP Version Not Supported");
   (506, "Variant Also Negotiates"); (507, "Insufficient Storage"); (508, "Loop Detected");
   (510, "Not Extended"); (511, "Network Authentication Required")].

Fixpoint assoc_phrase (code : Z) (l : list (Z * string)) : option string :=
  match l with
  | [] => None
  | (k, p) :: l' => if k =? code then Some p else assoc_phrase code l'
  end.

(** [_get_status_line(status_code)]: the phrase of [HTTPStatus], or
    nothing for a code it does not know. *)
Definition get_status_line (code : Z) : string :=
  let phrase := match assoc_phrase code http_status_phrases with Some p => p | None => "" end in
  "HTTP/1.1 " ++ str_int code ++ " " ++ phrase ++ crlf.

(** [STATUS_LINE[status_code]]: the table covers [range(100, 600)]; any
    other code raises [KeyError]. *)
Definition STATUS_LINE (code : Z) : result string :=
  if (100 <=? code) && (code <? 600) then Ok (get_status_line code) else Raise (KeyError code).

(** ** Header checks *)

(** The character class of [HEADER_RE]: the pattern opens a class with
    [\x00-\x1F], [\x7F] and the characters [()<>@,;:] and an opening
    bracket; the closing bracket that follows ends the class, and the rest
    of the pattern (equals sign, braces, space, tab, double quote, closing
    bracket) is matched literally after one character of the class. *)
Definition header_re_class (c : ascii) : bool :=
  let n := N_of_ascii c in
  (n <=? 31)%N || (n =? 127)%N || existsb (Ascii.eqb c) (list_ascii_of_string "()<>@,;:[").

(** The literal text that follows the class in [HEADER_RE]. *)
Definition header_re_tail : string :=
  "={} " ++ String tab_char (String (ascii_of_nat 34) "]").

Fixpoint starts_with (p s : string) : bool :=
  match p, s with
  | EmptyString, _ => true
  | String c p', String d s' => Ascii.eqb c d && starts_with p' s'
  | String _ _, EmptyString => false
  end.

(** [HEADER_RE.search(name)]. *)
Fixpoint header_re_search (s : string) : bool :=
  match s with
  | EmptyString => false
  | String c s' => (header_re_class c && starts_with header_re_tail s') || header_re_search s'
  end.

(** [HEADER_VALUE_RE.search(value)]: a control character other than tab. *)
Definition header_value_bad (c : ascii) : bool :=
  let n := N_of_ascii c in (n <=? 8)%N || ((10 <=? n) && (n <=? 31))%N || (n =? 127)%N.

Definition header_value_re_search (s : string) : bool :=
  existsb header_value_bad (list_ascii_of_string s).

(** ** The [date] and [server] headers *)

Definition WEEKDAYS : list string := ["Mon"; "Tue"; "Wed"; "Thu"; "Fri"; "Sat"; "Sun"].
Definition MONTHS : list string :=
  ["Jan"; "Feb"; "Mar"; "Apr"; "May"; "Jun"; "Jul"; "Aug"; "Sep"; "Oct"; "Nov"; "Dec"].

(** [email.utils.formatdate(t, usegmt=True)] of a whole second [t] since
    the epoch: [datetime.fromtimestamp(t, timezone.utc)], whose year must
    be in [1..9999], printed by [_format_timetuple_and_zone] with the
    weekday [(toordinal() + 6) % 7]. *)
Definition formatdate (t : Z) : result string :=
  let days := t / 86400 in
  let secs := t mod 86400 in
  let ord := days + EPOCH_ORDINAL in
  let '(y, m, d) := ord2ymd ord in
  (_ <- check_date_args y m d ;;
   Ok (nth (Z.to_nat ((ord + 6) mod 7)) WEEKDAYS "" ++ ", " ++ format_d0 2 d ++ " "
       ++ nth (Z.to_nat (m - 1)) MONTHS "" ++ " " ++ format_d0 4 y ++ " "
       ++ format_d0 2 (secs / 3600) ++ ":" ++ format_d0 2 (secs mod 3600 / 60) ++ ":"
       ++ format_d0 2 (secs mod 60) ++ " GMT"))%py.

(** [Server.on_tick]: every second, [server_state.default_headers]
    becomes the [date] of [time.time()] followed by
    [Config.encoded_headers], which starts with [server: uvicorn].
    [time.time()] reads the same [CLOCK_REALTIME] through [PyTime_Time],
    whose conversion to [PyTime_t] raises [OverflowError] outside the
    int64 range of nanoseconds; the float it returns is taken here as the
    whole second of the reading. *)
Definition default_headers (c : SystemClock) : result (list (string * string)) :=
  (t <- PyTime_Time c ;;
   d <- formatdate (t / SEC_TO_NS) ;;
   Ok [("date", d); ("server", "uvicorn")])%py.

(** ** ASGI messages *)

(** The two messages of an HTTP response: [http.response.start] with the
    status and the raw headers, [http.response.body] with the body and
    [more_body]. *)
Inductive asgi_message : Type :=
| ResponseStart (status_code : Z) (hs : list (string * string))
| ResponseBody (chunk : string) (more_body : bool).

Definition message_type (m : asgi_message) : string :=
  match m with
  | ResponseStart _ _ => "http.response.start"
  | ResponseBody _ _ => "http.response.body"
  end.

(** Starlette's [Response.__call__]: the start message, then the whole
    body in one message ([more_body] absent, so false).  The bodies of
    the documentation pages are not modelled. *)
Definition response_messages (r : response) : option (list asgi_message) :=
  match resp_body r with
  | Bytes b => Some [ResponseStart (status r) (headers r); ResponseBody b false]
  | DocsPage _ => None
  end.

(** ** [RequestResponseCycle] *)

(** The fields of a [RequestResponseCycle] that [send] reads or writes,
    and what it does to the transport: [cy_written] is everything passed
    to [transport.write], in order; [cy_closed] records
    [transport.close()]. *)
Record cycle : Type := mk_cycle {
  cy_method : string;                   (* [scope["method"]] *)
  cy_close_requested : bool;            (* [CLOSE_HEADER in scope["headers"]] *)
  cy_default_headers : list (string * string);
  cy_disconnected : bool;
  cy_waiting_for_100_continue : bool;
  cy_response_started : bool;
  cy_response_complete : bool;
  cy_chunked_encoding : option bool;
  cy_expected_content_length : Z;
  cy_keep_alive : bool;
  cy_written : string;
  cy_closed : bool
}.

(** [RequestResponseCycle.__init__], as [on_headers_complete] creates it:
    [keep_alive] is false for an HTTP/1.0 request. *)
Definition new_cycle (method : string) (close_requested : bool) (dh : list (string * string))
    (keep_alive expect_100_continue : bool) : cycle :=
  mk_cycle method close_requested dh false expect_100_continue false false None 0 keep_alive ""
    false.

Definition CLOSE_HEADER : string * string := ("connection", "close").

Definition header_eqb (h h' : string * string) : bool :=
  String.eqb (fst h) (fst h') && String.eqb (snd h) (snd h').

(** The framing fields the header loop sets: [chunked_encoding],
    [expected_content_length], [keep_alive]. *)
Definition framing : Type := (option bool * Z * bool)%type.

(** The loop over the headers in [send]: check name and value, lower the
    name, note the framing, append [name: value\r\n].  Fields set before
    an exception stay set. *)
Fixpoint write_headers (hs : list (string * string)) (fr : framing) (content : string)
    : framing * result string :=
  match hs with
  | [] => (fr, Ok content)
  | (name, value) :: hs' =>
      if header_re_search name then (fr, Raise (RuntimeError "Invalid HTTP header name."))
      else if header_value_re_search value
      then (fr, Raise (RuntimeError "Invalid HTTP header value."))
      else
        let '(chunked, expected, keep) := fr in
        let n := lower name in
        let line := n ++ ": " ++ value ++ crlf in
        if String.eqb n "content-length" && match chunked with None => true | _ => false end then
          match py_int value with
          | Ok v => write_headers hs' (Some false, v, keep) (content ++ line)
          | Raise e => (fr, Raise e)
          end
        else if String.eqb n "transfer-encoding" && String.eqb (lower value) "chunked" then
          write_headers hs' (Some true, 0, keep) (content ++ line)
        else if String.eqb n "connection" && String.eqb (lower value) "close" then
          write_headers hs' (chunked, expected, false) (content ++ line)
        else write_headers hs' fr (content ++ line)
  end.

(** Writing to the transport. *)
Definition write (cy : cycle) (data : string) : cycle :=
  mk_cycle (cy_method cy) (cy_close_requested cy) (cy_default_headers cy) (cy_disconnected cy)
    (cy_waiting_for_100_continue cy) (cy_response_started cy) (cy_response_complete cy)
    (cy_chunked_encoding cy) (cy_expected_content_length cy) (cy_keep_alive cy)
    (cy_written cy ++ data) (cy_closed cy).

(** [transport.close()]. *)
Definition close (cy : cycle) : cycle :=
  mk_cycle (cy_method cy) (cy_close_requested cy) (cy_default_headers cy) (cy_disconnected cy)
    (cy_waiting_for_100_continue cy) (cy_response_started cy) (cy_response_complete cy)
    (cy_chunked_encoding cy) (cy_expected_content_length cy) (cy_keep_alive cy)
    (cy_written cy) true.

(** [response_started = True; waiting_for_100_continue = False]. *)
Definition start (cy : cycle) : cycle :=
  mk_cycle (cy_method cy) (cy_close_requested cy) (cy_default_headers cy) (cy_disconnected cy)
    false true (cy_response_complete cy)
    (cy_chunked_encoding cy) (cy_expected_content_length cy) (cy_keep_alive cy)
    (cy_written cy) (cy_closed cy).

(** The framing fields set by the header loop. *)
Definition set_framing (cy : cycle) (fr : framing) : cycle :=
  let '(chunked, expected, keep) := fr in
  mk_cycle (cy_method cy) (cy_close_requested cy) (cy_default_headers cy) (cy_disconnected cy)
    (cy_waiting_for_100_continue cy) (cy_response_started cy) (cy_response_complete cy)
    chunked expected keep (cy_written cy) (cy_closed cy).

Definition set_expected (cy : cycle) (n : Z) : cycle :=
  set_framing cy (cy_chunked_encoding cy, n, cy_keep_alive cy).

(** [response_complete = True]. *)
Definition complete (cy : cycle) : cycle :=
  mk_cycle (cy_method cy) (cy_close_requested cy) (cy_default_headers cy) (cy_disconnected cy)
    (cy_waiting_for_100_continue cy) (cy_response_started cy) true
    (cy_chunked_encoding cy) (cy_expected_content_length cy) (cy_keep_alive cy)
    (cy_written cy) (cy_closed cy).

(** The outcome of a call of [send]: the cycle's fields afterwards, and
    whether it returned or raised. *)
Definition outcome : Type := (cycle * result unit)%type.

(** The start of the response: the status line, the headers, the framing
    header [send] adds when the application gave none, the blank line. *)
Definition send_start (cy : cycle) (code : Z) (hs : list (string * string)) : outcome :=
  let cy := start cy in
  let hs := (cy_default_headers cy ++ hs)%list in
  let hs := if cy_close_requested cy && negb (existsb (header_eqb CLOSE_HEADER) hs)
            then (hs ++ [CLOSE_HEADER])%list else hs in
  match STATUS_LINE code with
  | Raise e => (cy, Raise e)
  | Ok line =>
      let fr0 := (cy_chunked_encoding cy, cy_expected_content_length cy, cy_keep_alive cy) in
      match write_headers hs fr0 line with
      | (fr, Raise e) => (set_framing cy fr, Raise e)
      | (fr, Ok content) =>
          let cy := set_framing cy fr in
          if match cy_chunked_encoding cy with None => true | _ => false end
             && negb (String.eqb (cy_method cy) "HEAD") && negb ((code =? 204) || (code =? 304))
          then (write (set_framing cy (Some true, cy_expected_content_length cy, cy_keep_alive cy))
                  (content ++ "transfer-encoding: chunked" ++ crlf ++ crlf), Ok tt)
          else (write cy (content ++ crlf), Ok tt)
      end
  end.

(** The end of the response, when [more_body] is false: the length
    check, then completion and the close of a connection not kept alive. *)
Definition finish (cy : cycle) : outcome :=
  if negb (cy_expected_content_length cy =? 0)
  then (cy, Raise (RuntimeError "Response content shorter than Content-Length"))
  else
    let cy := complete cy in
    ((if cy_keep_alive cy then cy else close cy), Ok tt).

(** A piece of the body: dropped for [HEAD], chunked, or checked against
    the declared length. *)
Definition send_body (cy : cycle) (b : string) (more : bool) : outcome :=
  let n := Z.of_nat (String.length b) in
  if String.eqb (cy_method cy) "HEAD" then
    let cy := set_expected cy 0 in
    if more then (cy, Ok tt) else finish cy
  else if match cy_chunked_encoding cy with Some true => true | _ => false end then
    let data := (if String.eqb b "" then "" else format_hex n ++ crlf ++ b ++ crlf)
                ++ (if more then "" else "0" ++ crlf ++ crlf) in
    let cy := write cy data in
    if more then (cy, Ok tt) else finish cy
  else if cy_expected_content_length cy <? n
  then (cy, Raise (RuntimeError "Response content longer than Content-Length"))
  else
    let cy := write (set_expected cy (cy_expected_content_length cy - n)) b in
    if more then (cy, Ok tt) else finish cy.

(** [RequestResponseCycle.send(message)]. *)
Definition send (cy : cycle) (m : asgi_message) : outcome :=
  if cy_disconnected cy then (cy, Ok tt)
  else if negb (cy_response_started cy) then
    match m with
    | ResponseStart code hs => send_start cy code hs
    | _ => (cy, Raise (RuntimeError ("Expected ASGI message 'http.response.start', but got '"
                                      ++ message_type m ++ "'.")))
    end
  else if negb (cy_response_complete cy) then
    match m with
    | ResponseBody b more => send_body cy b more
    | _ => (cy, Raise (RuntimeError ("Expected ASGI message 'http.response.body', but got '"
                                      ++ message_type m ++ "'.")))
    end
  else (cy, Raise (RuntimeError ("Unexpected ASGI message '" ++ message_type m
                                 ++ "' sent, after response already completed."))).

(** The application awaiting [send] on each message in turn: the first
    exception stops it and propagates. *)
Fixpoint send_all (cy : cycle) (ms : list asgi_message) : outcome :=
  match ms with
  | [] => (cy, Ok tt)
  | m :: ms' =>
      match send cy m with
      | (cy', Ok _) => send_all cy' ms'
      | (cy', Raise e) => (cy', Raise e)
      end
  end.

(** [send_500_response()]. *)
Definition response_500_messages : list asgi_message :=
  [ResponseStart 500 [("content-type", "text/plain; charset=utf-8"); ("connection", "close")];
   ResponseBody "Internal Server Error" false].

(** [run_asgi(app)]: the application sends [ms], then raises when
    [raised] is set.  An exception before the response started is
    answered by [send_500_response()]; after it started, the connection
    is closed; an application that returns without starting or
    completing its response gets the same treatment. *)
Definition run_asgi (cy : cycle) (ms : list asgi_message) (raised : bool) : cycle :=
  let '(cy', r) := send_all cy ms in
  if raised || negb (is_ok r) then
    if negb (cy_response_started cy') then fst (send_all cy' response_500_messages)
    else close cy'
  else if negb (cy_response_started cy') && negb (cy_disconnected cy')
  then fst (send_all cy' response_500_messages)
  else if negb (cy_response_complete cy') && negb (cy_disconnected cy') then close cy'
  else cy'.

(** ** The application served *)

Section Serve.
Context {S : Type} `{TimeSource S}.

(** A request served on a connection: the application's response written
    through a fresh cycle.  [close_requested] says whether the request
    carried [connection: close], [keep_alive] whether it was HTTP/1.1;
    [dh] are the server's default headers at that moment. *)
Definition serve (req : request) (s : S) (close_requested keep_alive : bool)
    (dh : list (string * string)) : option cycle :=
  match response_messages (app req s) with
  | Some ms =>
      Some (run_asgi (new_cycle (req_method req) close_requested dh keep_alive false) ms
              (app_raises req s))
  | None => None
  end.
End Serve.

(** [name: value\r\n] for each header. *)
Fixpoint render_headers (hs : list (string * string)) : string :=
  match hs with
  | [] => ""
  | (n, v) :: hs' => n ++ ": " ++ v ++ crlf ++ render_headers hs'
  end.

(** A header the loop of [send] writes as it is and that does not set
    the framing: a name [HEADER_RE] accepts, already in lower case, other
    than [content-length], [transfer-encoding] and [connection]; a value
    without control characters. *)
Definition plain_header (h : string * string) : bool :=
  negb (header_re_search (fst h)) && negb (header_value_re_search (snd h))
  && String.eqb (lower (fst h)) (fst h)
  && negb (existsb (String.eqb (fst h)) ["content-length"; "transfer-encoding"; "connection"]).

(** A response [send] can write: a status in [STATUS_LINE], plain headers
    around one [content-length] giving the length of the body, a length
    [int()] reads back. *)
Definition wire_ok (r : response) : Prop :=
  match resp_body r with
  | Bytes b =>
      100 <= status r < 600
      /\ Z.of_nat (String.length b) < 10 ^ 4300
      /\ exists pre post,
           headers r = (pre ++ ("content-length", str_int (Z.of_nat (String.length b))) :: post)%list
           /\ forallb plain_header pre = true /\ forallb plain_header post = true
  | DocsPage _ => True
  end.

(** The HTTP/1.1 message a response value stands for: the status line,
    the default headers, the response's headers and [connection: close]
    when the client asked for it, a blank line, and the body unless the
    request was [HEAD]. *)
Definition wire_bytes (method : string) (dh : list (string * string)) (close_requested : bool)
    (r : response) (b : string) : string :=
  get_status_line (status r)
  ++ render_headers (dh ++ headers r ++ (if close_requested then [CLOSE_HEADER] else []))
  ++ crlf ++ (if String.eqb method "HEAD" then "" else b).

(** What holds of a cycle between two calls of [send]: nothing is
    written before the response starts; a complete response started and
    sent exactly its declared length; the connection is closed only after
    a complete response. *)
Definition cycle_inv (cy : cycle) : Prop :=
  (cy_response_started cy = false -> cy_written cy = "" /\ cy_response_complete cy = false)
  /\ (cy_response_complete cy = true ->
      cy_response_started cy = true /\ cy_expected_content_length cy = 0)
  /\ (cy_closed cy = true -> cy_response_complete cy = true).

(** ** Examples *)

Example http_examples :
  py_int " -1_000 " = Ok (-1000) /\ is_ok (py_int "1__0") = false
  /\ py_int "it's" = Raise (ValueError ("invalid literal for int() with base 10: " ++ String (ascii_of_nat 34) "it's" ++ String (ascii_of_nat 34) ""))
  /\ format_hex 255 = "ff" /\ formatdate 0 = Ok "Thu, 01 Jan 1970 00:00:00 GMT"
  /\ formatdate 253402300800 = Raise (ValueError "year 10000 is out of range")
  /\ STATUS_LINE 418 = Ok ("HTTP/1.1 418 I'm a Teapot" ++ crlf) /\ STATUS_LINE 99 = Raise (KeyError 99)
  /\ header_re_search ("x:={} " ++ String tab_char (String (ascii_of_nat 34) "]")) = true
  /\ header_re_search "bad name" = false.
Proof. vm_compute. repeat split; reflexivity. Qed.

(** ** Lemmas *)

(** [int()] reads back fixed-width digits. *)
Lemma scan_digits_fixed (w : nat) (acc n : Z) (nd : nat) :
  scan_digits (digits_fixed w n) acc nd
  = Some (acc * 10 ^ Z.of_nat w + n mod 10 ^ Z.of_nat w, (nd + w)%nat, "").
Proof.
  revert acc nd. induction w as [|w IH]; intros acc nd.
  - simpl. rewrite Z.mod_1_r, Nat.add_0_r. do 3 f_equal. lia.
  - rewrite pow10_succ. cbn [scan_digits digits_fixed].
    pose proof (pow10_pos w).
    assert (Hd : 0 <= (n / 10 ^ Z.of_nat w) mod 10 < 10) by (apply Z.mod_pos_bound; lia).
    rewrite digit_char_is_digit, digit_char_value, IH by exact Hd.
    rewrite mod_mul_split by lia. do 3 f_equal; lia.
Qed.

(** A digit is neither a space nor a sign. *)
Lemma digit_not_space (c : ascii) :
  is_digit c = true -> py_space c = false /\ Ascii.eqb c "-" = false /\ Ascii.eqb c "+" = false.
Proof.
  intros H. apply is_digit_iff in H. split; [| split].
  - unfold py_space. cbv zeta.
    destruct (N.leb_spec 9 (N_of_ascii c)), (N.leb_spec (N_of_ascii c) 13),
      (N.leb_spec 28 (N_of_ascii c)), (N.leb_spec (N_of_ascii c) 32); simpl; try reflexivity; lia.
  - destruct (Ascii.eqb_spec c "-") as [-> | _]; [cbn in H; lia | reflexivity].
  - destruct (Ascii.eqb_spec c "+") as [-> | _]; [cbn in H; lia | reflexivity].
Qed.

(** [int(str(n))] is [n], for fewer than 4300 digits. *)
Lemma py_int_str_int (n : Z) : 0 <= n < 10 ^ 4300 -> py_int (str_int n) = Ok n.
Proof.
  intros [Hn Hmax].
  assert (Hw : forall k : nat, 10 ^ Z.of_nat k <= n -> Z.of_nat k < 4300).
  { intros k Hk. apply (Z.pow_lt_mono_r_iff 10); [reflexivity | discriminate |].
    eapply Z.le_lt_trans; [exact Hk | exact Hmax]. }
  clear Hmax.
  destruct (Z.eq_dec n 0) as [-> | Hn0]; [reflexivity |].
  destruct (ndigits_spec n ltac:(lia)) as (Hk & Hlo & Hhi).
  unfold str_int, format_d0. rewrite (proj2 (Z.ltb_ge n 0)) by lia. rewrite Nat.max_0_l.
  destruct (ndigits n) as [|k]; [lia |]. cbn [digits_fixed].
  rewrite pow10_succ in Hhi. rewrite Nat2Z.inj_succ, Z.sub_1_r, Z.pred_succ in Hlo.
  pose proof (pow10_pos k).
  assert (Hq : n / 10 ^ Z.of_nat k < 10) by (apply Z.div_lt_upper_bound; lia).
  assert (Hd : 0 <= (n / 10 ^ Z.of_nat k) mod 10 < 10) by (apply Z.mod_pos_bound; lia).
  pose proof (Hw k Hlo) as Hk4.
  destruct (digit_not_space _ (digit_char_is_digit _ Hd)) as (Hs & Hm & Hp).
  unfold py_int. cbn [lstrip_space]. rewrite Hs. cbv beta iota. rewrite Hm, Hp. cbv beta iota.
  rewrite (digit_char_is_digit _ Hd), scan_digits_fixed, digit_char_value by exact Hd.
  destruct (Nat.ltb_spec int_max_str_digits (1 + k)); [unfold int_max_str_digits in *; lia |].
  cbn [all_space list_ascii_of_string forallb]. f_equal.
  assert (0 <= n / 10 ^ Z.of_nat k) by (apply Z.div_pos; lia).
  rewrite Z.mod_small by lia. pose proof (Z.div_mod n (10 ^ Z.of_nat k)). lia.
Qed.

Lemma header_value_re_search_app (s1 s2 : string) :
  header_value_re_search (s1 ++ s2) = header_value_re_search s1 || header_value_re_search s2.
Proof.
  induction s1 as [| c s1 IH]; [reflexivity |].
  unfold header_value_re_search in *. cbn [String.append list_ascii_of_string existsb].
  rewrite IH. apply orb_assoc.
Qed.

Lemma header_value_re_search_cons (c : ascii) (s : string) :
  header_value_re_search (String c s) = header_value_bad c || header_value_re_search s.
Proof. reflexivity. Qed.

(** A printable ASCII character is no control character. *)
Lemma printable_not_bad (c : ascii) :
  (32 <= N_of_ascii c <= 126)%N -> header_value_bad c = false.
Proof.
  intros H. unfold header_value_bad. cbv zeta.
  destruct (N.leb_spec (N_of_ascii c) 8), (N.leb_spec 10 (N_of_ascii c)),
    (N.leb_spec (N_of_ascii c) 31), (N.eqb_spec (N_of_ascii c) 127); simpl; try reflexivity; lia.
Qed.

Lemma digit_char_clean (d : Z) : 0 <= d < 10 -> header_value_bad (digit_char d) = false.
Proof.
  intros Hd. apply printable_not_bad. unfold digit_char. rewrite N_ascii_embedding by lia. lia.
Qed.

Lemma digits_fixed_clean (w : nat) (n : Z) : header_value_re_search (digits_fixed w n) = false.
Proof.
  induction w as [| w IH]; [reflexivity |]. unfold header_value_re_search in *.
  cbn [digits_fixed list_ascii_of_string existsb]. rewrite IH, digit_char_clean; [reflexivity |].
  apply Z.mod_pos_bound. lia.
Qed.

Lemma format_d0_clean (w : nat) (n : Z) : header_value_re_search (format_d0 w n) = false.
Proof.
  unfold format_d0. destruct (n <? 0); [| apply digits_fixed_clean].
  rewrite header_value_re_search_app, digits_fixed_clean. reflexivity.
Qed.

#[export] Hint Rewrite header_value_re_search_app format_d0_clean digits_fixed_clean : pyapi_rw.

(** The loop of [send] over two lists of headers is the loop over the
    first, then over the second from where it stopped. *)
Lemma write_headers_app (hs1 hs2 : list (string * string)) (fr : framing) (c : string) :
  write_headers (hs1 ++ hs2) fr c
  = match write_headers hs1 fr c with
    | (fr', Ok c') => write_headers hs2 fr' c'
    | (fr', Raise e) => (fr', Raise e)
    end.
Proof.
  revert fr c. induction hs1 as [| [n v] hs IH]; intros fr c; [reflexivity |].
  cbn [Datatypes.app write_headers].
  destruct (header_re_search n); [reflexivity |]. destruct (header_value_re_search v); [reflexivity |].
  destruct fr as [[ch ex] kp].
  destruct (String.eqb (lower n) "content-length" && _); [destruct (py_int v); [apply IH | reflexivity] |].
  destruct (String.eqb (lower n) "transfer-encoding" && _); [apply IH |].
  destruct (String.eqb (lower n) "connection" && _); apply IH.
Qed.

(** Plain headers are written as they are and leave the framing alone. *)
Lemma write_headers_plain (hs : list (string * string)) (fr : framing) (c : string) :
  forallb plain_header hs = true -> write_headers hs fr c = (fr, Ok (c ++ render_headers hs)).
Proof.
  revert fr c. induction hs as [| [n v] hs IH]; intros fr c Hp.
  - cbn. rewrite string_app_nil_r. reflexivity.
  - cbn [forallb] in Hp. apply andb_prop in Hp as [Hh Hp]. unfold plain_header in Hh. cbn [fst snd] in Hh.
    apply andb_prop in Hh as [Hh Hx]. apply andb_prop in Hh as [Hh Hl].
    apply andb_prop in Hh as [Hn Hv]. apply negb_true_iff in Hn, Hv, Hx.
    apply String.eqb_eq in Hl. cbn [existsb] in Hx. rewrite !orb_false_r in Hx.
    apply orb_false_elim in Hx as [H1 Hx]. apply orb_false_elim in Hx as [H2 H3].
    cbn [write_headers render_headers]. rewrite Hn, Hv. destruct fr as [[ch ex] kp].
    rewrite Hl, H1, H2, H3. cbn [andb].
    rewrite IH by exact Hp. rewrite !string_app_assoc. reflexivity.
Qed.

(** A [content-length] of [str(n)] sets the framing to [n] bytes. *)
Lemma write_headers_content_length (n : Z) (ex : Z) (kp : bool) (c : string) :
  0 <= n < 10 ^ 4300 ->
  write_headers [("content-length", str_int n)] (None, ex, kp) c
  = ((Some false, n, kp), Ok (c ++ "content-length: " ++ str_int n ++ crlf)).
Proof.
  intros Hn. cbn [write_headers]. change (header_re_search "content-length") with false.
  unfold str_int. rewrite format_d0_clean. cbv beta iota.
  change (lower "content-length") with "content-length". cbn [String.eqb andb Ascii.eqb Bool.eqb].
  fold (str_int n). rewrite py_int_str_int by exact Hn.
  cbn [render_headers write_headers]. reflexivity.
Qed.

(** Every length a Python [bytes] object can have ([sys.maxsize] at
    most) is below the 4300-digit limit of [int()]. *)
Lemma ssize_below_int_limit (n : Z) : 0 <= n <= 9223372036854775807 -> 0 <= n < 10 ^ 4300.
Proof.
  intros Hn. split; [lia |]. apply Z.le_lt_trans with (10 ^ 19).
  - change (10 ^ 19) with 10000000000000000000. lia.
  - apply Z.pow_lt_mono_r; lia.
Qed.

Lemma write_headers_content_length_ssize (n : Z) (ex : Z) (kp : bool) (c : string) :
  0 <= n <= 9223372036854775807 ->
  write_headers [("content-length", str_int n)] (None, ex, kp) c
  = ((Some false, n, kp), Ok (c ++ "content-length: " ++ str_int n ++ crlf)).
Proof. intros Hn. apply write_headers_content_length, ssize_below_int_limit, Hn. Qed.

Lemma render_headers_app (hs1 hs2 : list (string * string)) :
  render_headers (hs1 ++ hs2) = render_headers hs1 ++ render_headers hs2.
Proof.
  induction hs1 as [| [n v] hs IH]; [reflexivity |].
  cbn [Datatypes.app render_headers]. rewrite IH, !string_app_assoc. reflexivity.
Qed.

Lemma plain_no_close (hs : list (string * string)) :
  forallb plain_header hs = true -> existsb (header_eqb CLOSE_HEADER) hs = false.
Proof.
  induction hs as [| [n v] hs IH]; intros Hp; [reflexivity |].
  cbn [forallb] in Hp. apply andb_prop in Hp as [Hh Hp]. cbn [existsb]. rewrite IH by exact Hp.
  unfold plain_header in Hh. cbn [fst] in Hh. unfold header_eqb. cbn [fst snd CLOSE_HEADER].
  destruct (String.eqb_spec "connection" n) as [<- | _]; [| reflexivity].
  rewrite !andb_false_r in Hh. discriminate Hh.
Qed.

(** [connection: close] is written and ends the keep-alive. *)
Lemma write_headers_close (ch : option bool) (ex : Z) (kp : bool) (c : string) :
  write_headers [CLOSE_HEADER] (ch, ex, kp) c
  = ((ch, ex, false), Ok (c ++ render_headers [CLOSE_HEADER])).
Proof. reflexivity. Qed.

(** The start of a response with one [content-length] among plain
    headers: the framing is that length, and the status line, the headers
    and the blank line are written. *)
Lemma send_start_wire (m : string) (ck ka : bool) (dh pre post : list (string * string))
    (code : Z) (b : string) :
  forallb plain_header dh = true -> forallb plain_header pre = true ->
  forallb plain_header post = true ->
  100 <= code < 600 -> Z.of_nat (String.length b) < 10 ^ 4300 ->
  send_start (new_cycle m ck dh ka false) code
    (pre ++ ("content-length", str_int (Z.of_nat (String.length b))) :: post)
  = (mk_cycle m ck dh false false true false (Some false) (Z.of_nat (String.length b))
       (ka && negb ck)
       (get_status_line code
        ++ render_headers (dh ++ (pre ++ ("content-length", str_int (Z.of_nat (String.length b))) :: post)
                           ++ (if ck then [CLOSE_HEADER] else []))
        ++ crlf) false, Ok tt).
Proof.
  intros Hdh Hpre Hpost Hc Hb. unfold send_start. cbn [start new_cycle cy_default_headers
    cy_close_requested cy_chunked_encoding cy_expected_content_length cy_keep_alive cy_method].
  set (cl := ("content-length", str_int (Z.of_nat (String.length b)))).
  assert (Hx : existsb (header_eqb CLOSE_HEADER) (dh ++ pre ++ cl :: post) = false).
  { rewrite !existsb_app, !plain_no_close by assumption. cbn [existsb].
    rewrite plain_no_close by assumption. reflexivity. }
  unfold STATUS_LINE. rewrite (proj2 (Z.leb_le 100 code) (proj1 Hc)), (proj2 (Z.ltb_lt code 600) (proj2 Hc)).
  cbv beta iota zeta.
  assert (Hw : write_headers ((dh ++ pre ++ cl :: post) ++ (if ck then [CLOSE_HEADER] else []))
                 (None, 0, ka) (get_status_line code)
               = ((Some false, Z.of_nat (String.length b), ka && negb ck),
                  Ok (get_status_line code
                      ++ render_headers ((dh ++ pre ++ cl :: post)
                                         ++ (if ck then [CLOSE_HEADER] else []))))).
  { change (cl :: post) with (([cl] ++ post)%list).
    rewrite write_headers_app, write_headers_app, (write_headers_plain dh) by assumption.
    cbv beta iota. rewrite write_headers_app, (write_headers_plain pre) by assumption.
    cbv beta iota. rewrite write_headers_app. unfold cl.
    rewrite write_headers_content_length by (split; [apply Nat2Z.is_nonneg | exact Hb]).
    cbv beta iota. rewrite (write_headers_plain post) by assumption. cbv beta iota.
    destruct ck; [rewrite write_headers_close | cbn [write_headers]];
      rewrite !render_headers_app; cbn [render_headers];
      rewrite ?andb_true_r, ?andb_false_r, ?string_app_nil_r, !string_app_assoc; reflexivity. }
  rewrite Hx. cbn [negb]. rewrite andb_true_r.
  destruct ck; cbn [andb negb] in *; rewrite ?app_nil_r in *; rewrite Hw.
  all: unfold write; cbn [set_framing start new_cycle cy_method cy_close_requested cy_default_headers
              cy_disconnected cy_waiting_for_100_continue cy_response_started
              cy_response_complete cy_chunked_encoding cy_expected_content_length cy_keep_alive
              cy_written cy_closed andb negb].
  all: rewrite <- ?app_assoc, ?string_app_assoc; reflexivity.
Qed.

(** A response [send] can write goes out as its HTTP/1.1 message: the
    cycle completes, and the connection is closed when the client asked
    for it, when it is not kept alive, or when the application raised. *)
Lemma run_asgi_wire (m : string) (ck ka raised : bool) (dh : list (string * string))
    (r : response) (b : string) :
  forallb plain_header dh = true -> wire_ok r -> resp_body r = Bytes b ->
  let cy := run_asgi (new_cycle m ck dh ka false)
              [ResponseStart (status r) (headers r); ResponseBody b false] raised in
  cy_written cy = wire_bytes m dh ck r b /\ cy_response_complete cy = true
  /\ cy_closed cy = (ck || negb ka || raised).
Proof.
  intros Hdh Hw Hb. unfold wire_ok in Hw. rewrite Hb in Hw.
  destruct Hw as (Hc & Hlen & pre & post & Hh & Hpre & Hpost).
  unfold run_asgi, wire_bytes. rewrite Hh. cbn [send_all]. unfold send.
  cbn [new_cycle cy_disconnected cy_response_started negb].
  rewrite send_start_wire by assumption.
  cbn [cy_disconnected cy_response_started cy_response_complete negb].
  unfold send_body. cbn [cy_method cy_chunked_encoding cy_expected_content_length].
  rewrite Z.ltb_irrefl, Z.sub_diag.
  destruct (String.eqb m "HEAD"), ck, ka, raised;
    cbn -[get_status_line render_headers String.append];
    rewrite ?string_app_nil_r, ?string_app_assoc; repeat split.
Qed.

(** ** What the application and the server give [send] *)

Lemma nth_prop {A} (P : A -> Prop) (l : list A) (d : A) (i : nat) :
  Forall P l -> P d -> P (nth i l d).
Proof.
  revert i. induction l as [| x l IH]; intros i Hl Hd; destruct i; cbn; auto.
  - inversion Hl; assumption.
  - inversion Hl; auto.
Qed.

(** The [date] header has no control character. *)
Lemma formatdate_clean (t : Z) (d : string) :
  formatdate t = Ok d -> header_value_re_search d = false.
Proof.
  unfold formatdate. destruct (ord2ymd _) as [[y m] dd]. cbv beta iota.
  set (wd := nth (Z.to_nat ((t / 86400 + EPOCH_ORDINAL + 6) mod 7)) WEEKDAYS "").
  set (mo := nth (Z.to_nat (m - 1)) MONTHS "").
  assert (HW : header_value_re_search wd = false)
    by (unfold wd; apply (nth_prop (fun s => header_value_re_search s = false)); [repeat constructor | reflexivity]).
  assert (HM : header_value_re_search mo = false)
    by (unfold mo; apply (nth_prop (fun s => header_value_re_search s = false)); [repeat constructor | reflexivity]).
  clearbody wd mo.
  destruct (check_date_args y m dd); intros E; [| discriminate]. rewrite bind_ok in E.
  injection E as <-.
  repeat rewrite ?header_value_re_search_app, ?header_value_re_search_cons.
  rewrite HW, HM, !format_d0_clean. reflexivity.
Qed.

(** The default headers are plain. *)
Lemma default_headers_plain (c : SystemClock) (dh : list (string * string)) :
  default_headers c = Ok dh -> forallb plain_header dh = true.
Proof.
  unfold default_headers. destruct (PyTime_Time c) as [t |]; cbn [bind]; [| discriminate].
  destruct (formatdate _) as [d |] eqn:E; cbn [bind]; intros H; [| discriminate]. injection H as <-. apply formatdate_clean in E.
  unfold plain_header. cbn [forallb fst snd]. rewrite E. reflexivity.
Qed.

Lemma hex_upper_clean (n : Z) : 0 <= n < 16 -> header_value_bad (hex_upper n) = false.
Proof.
  intros Hn. unfold hex_upper. apply printable_not_bad.
  destruct (Z.ltb_spec n 10); rewrite N_ascii_embedding by lia; lia.
Qed.

Lemma always_safe_clean (c : ascii) : always_safe c = true -> header_value_bad c = false.
Proof.
  unfold always_safe. cbv zeta. rewrite !orb_true_iff, !andb_true_iff, !N.leb_le.
  intros [[[H | H] | H] | H]; try (apply printable_not_bad; lia).
  apply existsb_exists in H as (c' & Hin & E). apply Ascii.eqb_eq in E as ->.
  cbn in Hin. destruct Hin as [<- | [<- | [<- | [<- | []]]]]; reflexivity.
Qed.

(** [quote] leaves no control character, when its [safe] characters
    have none. *)
Lemma quote_clean (safe s : string) :
  forallb (fun c => negb (header_value_bad c)) (list_ascii_of_string safe) = true ->
  header_value_re_search (quote safe s) = false.
Proof.
  intros Hs. induction s as [| c s IH]; [reflexivity |].
  cbn [quote]. rewrite header_value_re_search_app, IH, orb_false_r. unfold quote_byte.
  destruct (always_safe c) eqn:A; cbn [orb].
  - unfold header_value_re_search. cbn. rewrite always_safe_clean by exact A. reflexivity.
  - destruct (existsb (Ascii.eqb c) (list_ascii_of_string safe)) eqn:X.
    + apply existsb_exists in X as (c' & Hin & E). apply Ascii.eqb_eq in E as ->.
      rewrite forallb_forall in Hs. specialize (Hs c' Hin). apply negb_true_iff in Hs.
      unfold header_value_re_search. cbn. rewrite Hs. reflexivity.
    + pose proof (N_ascii_bounded c).
      unfold header_value_re_search. cbn [list_ascii_of_string existsb].
      rewrite !hex_upper_clean by (split; [apply Z.div_pos || apply Z.mod_pos_bound | ];
                                   try apply Z.div_lt_upper_bound; try apply Z.mod_pos_bound; lia).
      reflexivity.
Qed.

Lemma wire_ok_intro (r : response) (b : string) (pre post : list (string * string)) :
  resp_body r = Bytes b -> 100 <= status r < 600 -> Z.of_nat (String.length b) < 10 ^ 4300 ->
  headers r = (pre ++ ("content-length", str_int (Z.of_nat (String.length b))) :: post)%list ->
  forallb plain_header pre = true -> forallb plain_header post = true -> wire_ok r.
Proof.
  intros Hb Hs Hl Hh Hp Hq. unfold wire_ok. rewrite Hb.
  split; [exact Hs | split; [exact Hl | exists pre, post; auto]].
Qed.

Lemma small_lt_limit (n : nat) : (n < 1000)%nat -> Z.of_nat n < 10 ^ 4300.
Proof.
  intros Hn. apply (Z.lt_le_trans _ (10 ^ 3)); [change (10 ^ 3) with 1000; lia |].
  apply Z.pow_le_mono_r; [reflexivity | discriminate].
Qed.

(** A JSON response with plain extra headers can be written. *)
Lemma json_response_wire_ok (j : json) (code : Z) (extra : list (string * string)) :
  100 <= code < 600 -> forallb plain_header extra = true ->
  (String.length (dumps j) < 1000)%nat -> wire_ok (json_response j code extra).
Proof.
  intros Hc He Hl.
  apply (wire_ok_intro _ (dumps j) extra [("content-type", "application/json")]);
    try reflexivity; auto using small_lt_limit.
Qed.

(** The route the router picked is one of its routes. *)
Lemma route_loop_in (routes : list route) (m p : string) (acc : option route) (r : route) :
  route_loop routes m p acc = DFull r \/ route_loop routes m p acc = DPartial r ->
  In r routes \/ acc = Some r.
Proof.
  revert acc. induction routes as [| r' rs IH]; intros acc H; cbn [route_loop] in H.
  - destruct acc; destruct H as [H | H]; inversion H; auto.
  - destruct (route_matches r' m p).
    + destruct (IH acc H); auto using in_cons.
    + destruct (IH _ H) as [Hin | E]; [auto using in_cons |].
      destruct acc as [a |]; injection E as ->; auto using in_eq.
    + destruct H as [H | H]; inversion H; subst; auto using in_eq.
Qed.

(** The side conditions of [wire_ok_intro] on a concrete response. *)
Ltac wire_side := first [reflexivity | apply small_lt_limit; cbn; lia | cbn; lia].

Section AppWire.
Context {S : Type} `{TimeSourceLaws S}.

(** Every response of the application that has bytes can be written by
    [send]. *)
Lemma app_wire_ok (req : request) (s : S) : wire_ok (app req s).
Proof.
  unfold app, handle_request.
  destruct (route_loop app_routes (req_method req) (req_path req) None) as [r | r |] eqn:E.
  - assert (Hin : In r app_routes)
      by (destruct (route_loop_in _ _ _ _ r (or_introl E)); [assumption | discriminate]).
    cbn in Hin. destruct Hin as [<- | [<- | [<- | [<- | [<- | []]]]]];
      cbn [route_endpoint run_endpoint]; try exact I.
    destruct (clock_read s) as [dt |] eqn:C.
    + rewrite (get_current_datetime_ok s dt C), bind_ok, encode_datetime_dict.
      apply json_response_wire_ok; [lia | reflexivity |].
      rewrite dumps_single_member by (reflexivity || apply iso_text_plain).
      fold (datetime_body (iso_text dt)). rewrite datetime_body_length, iso_text_length.
      destruct (_ =? 0); lia.
    + unfold get_current_datetime. rewrite C. cbn [bind].
      apply (wire_ok_intro _ "Internal Server Error" [] [("content-type", "text/plain; charset=utf-8")]);
        wire_side.
  - assert (Hin : In r app_routes)
      by (destruct (route_loop_in _ _ _ _ r (or_intror E)); [assumption | discriminate]).
    cbn in Hin. destruct Hin as [<- | [<- | [<- | [<- | [<- | []]]]]];
      (apply json_response_wire_ok; [lia | reflexivity | cbn; lia]).
  - destruct (_ && _).
    + apply (wire_ok_intro _ "" []
               [("location", quote redirect_safe (redirect_url req (toggle_slash (req_path req))))]);
        try wire_side.
      unfold plain_header. cbn [forallb fst snd].
      rewrite quote_clean by reflexivity. reflexivity.
    + apply json_response_wire_ok; [lia | reflexivity | cbn; lia].
Qed.
End AppWire.

(** ** The [date] header *)

Lemma check_date_args_ok (y m d : Z) :
  1 <= y <= 9999 -> valid_date y m d -> check_date_args y m d = Ok tt.
Proof.
  intros Hy [Hm Hd]. unfold check_date_args, MINYEAR, MAXYEAR.
  rewrite (proj2 (in_range_iff 1 y 9999) Hy), (proj2 (in_range_iff 1 m 12) Hm).
  rewrite (proj2 (in_range_iff 1 d (days_in_month y m)) Hd). reflexivity.
Qed.

Lemma check_date_args_year (y m d : Z) :
  ~ (1 <= y <= 9999) ->
  check_date_args y m d = Raise (ValueError ("year " ++ format_d0 0 y ++ " is out of range")).
Proof.
  intros Hy. unfold check_date_args, MINYEAR, MAXYEAR.
  destruct (in_range 1 y 9999) eqn:E; [apply in_range_iff in E; contradiction | reflexivity].
Qed.

Lemma nth_prop_lt {A} (P : A -> Prop) (l : list A) (d : A) (i : nat) :
  (i < length l)%nat -> Forall P l -> P (nth i l d).
Proof. intros Hi Hl. rewrite Forall_forall in Hl. apply Hl, nth_In, Hi. Qed.

Lemma format_d0_length (w : nat) (n : Z) :
  (1 <= w)%nat -> 0 <= n < 10 ^ Z.of_nat w -> String.length (format_d0 w n) = w.
Proof. intros Hw Hn. rewrite format_d0_fixed by assumption. apply digits_fixed_length. Qed.

(** Within years 1 to 9999, [formatdate] gives the 29 characters of
    [Www, DD Mon YYYY HH:MM:SS GMT]. *)
Lemma formatdate_ok (t : Z) :
  -62135596800 <= t < 253402300800 -> exists d, formatdate t = Ok d /\ String.length d = 29%nat.
Proof.
  intros Ht. unfold formatdate.
  destruct (ord2ymd (t / 86400 + EPOCH_ORDINAL)) as [[y m] d] eqn:E. cbv beta iota.
  pose proof (proj2 (local_year_range _ _ _ _ E) Ht) as Hy.
  destruct (ord2ymd_ok_spec _ _ _ _ E) as [[Hm Hd] _].
  pose proof (days_in_month_bounds y m Hm).
  rewrite check_date_args_ok by (exact Hy || (split; assumption)). rewrite bind_ok.
  eexists. split; [reflexivity |].
  assert (Hs : 0 <= t mod 86400 < 86400) by (apply Z.mod_pos_bound; lia).
  rewrite !string_length_app.
  rewrite (nth_prop_lt (fun s => String.length s = 3%nat) WEEKDAYS)
    by (try (apply Nat2Z.inj_lt; rewrite Z2Nat.id; cbn; [apply Z.mod_pos_bound | apply Z.mod_pos_bound]; lia);
        repeat constructor).
  rewrite (nth_prop_lt (fun s => String.length s = 3%nat) MONTHS)
    by (try (apply Nat2Z.inj_lt; rewrite Z2Nat.id by lia; cbn; lia); repeat constructor).
  assert (0 <= t mod 86400 / 3600 < 24)
    by (split; [apply Z.div_pos | apply Z.div_lt_upper_bound]; lia).
  assert (0 <= (t mod 86400) mod 3600 < 3600) by (apply Z.mod_pos_bound; lia).
  assert (0 <= (t mod 86400) mod 3600 / 60 < 60)
    by (split; [apply Z.div_pos | apply Z.div_lt_upper_bound]; lia).
  assert (0 <= (t mod 86400) mod 60 < 60) by (apply Z.mod_pos_bound; lia).
  rewrite !format_d0_length by (cbn; lia).
  reflexivity.
Qed.

Lemma formatdate_error (t : Z) :
  ~ (-62135596800 <= t < 253402300800) -> exists msg, formatdate t = Raise (ValueError msg).
Proof.
  intros Ht. unfold formatdate.
  destruct (ord2ymd (t / 86400 + EPOCH_ORDINAL)) as [[y m] d] eqn:E. cbv beta iota.
  rewrite check_date_args_year by (intros Hy; apply Ht, (local_year_range _ _ _ _ E), Hy).
  eexists. reflexivity.
Qed.

(** ** The invariant of the cycle *)

(** The fields of a cycle after the start of the response: started, and
    neither completed nor closed by it. *)
Lemma send_start_fields (cy : cycle) (code : Z) (hs : list (string * string)) :
  cy_response_started (fst (send_start cy code hs)) = true
  /\ cy_response_complete (fst (send_start cy code hs)) = cy_response_complete cy
  /\ cy_closed (fst (send_start cy code hs)) = cy_closed cy.
Proof.
  unfold send_start. destruct (STATUS_LINE code); [| repeat split].
  destruct (write_headers _ _ _) as [[[ch ex] kp] [c |]]; [| repeat split].
  destruct (_ && _); repeat split.
Qed.

(** After the body: the response completes only with nothing left of its
    declared length, and the connection closes only when it completes. *)
Lemma send_body_fields (cy : cycle) (b : string) (more : bool) :
  let cy' := fst (send_body cy b more) in
  cy_response_started cy' = cy_response_started cy
  /\ (cy_response_complete cy' = true ->
      cy_response_complete cy = true \/ cy_expected_content_length cy' = 0)
  /\ (cy_closed cy' = true -> cy_closed cy = true \/ cy_response_complete cy' = true).
Proof.
  cbv zeta. unfold send_body, finish.
  destruct (String.eqb (cy_method cy) "HEAD"); [| destruct (match cy_chunked_encoding cy with
    | Some true => true | _ => false end); [| destruct (_ <? _)]];
  destruct more; cbn [fst];
  repeat match goal with
         | |- context [negb (?x =? 0)] => destruct (Z.eqb_spec x 0)
         | |- context [if cy_keep_alive ?c then _ else _] => destruct (cy_keep_alive c)
         end; cbn; repeat split; auto.
Qed.

Lemma send_inv (cy : cycle) (m : asgi_message) : cycle_inv cy -> cycle_inv (fst (send cy m)).
Proof.
  intros H. pose proof H as (I1 & I2 & I3). unfold send.
  destruct (cy_disconnected cy); [exact H |].
  destruct (cy_response_started cy) eqn:Hs; cbn [negb].
  - destruct (cy_response_complete cy) eqn:Hc; cbn [negb fst];
      [exact H |].
    destruct m as [code hs | b more]; cbn [fst]; [exact H |].
    destruct (send_body_fields cy b more) as (F1 & F2 & F3).
    unfold cycle_inv. rewrite F1, Hs. split; [discriminate |]. split.
    + intros Hf. destruct (F2 Hf) as [E | E]; [congruence | auto].
    + intros Hf. destruct (F3 Hf) as [E | E]; [| exact E]. specialize (I3 E). congruence.
  - destruct (I1 eq_refl) as [_ Hc].
    destruct m as [code hs | b more]; cbn [fst]; [| exact H].
    destruct (send_start_fields cy code hs) as (F1 & F2 & F3).
    unfold cycle_inv. rewrite F1, F2, F3, Hc. split; [discriminate |]. split; [discriminate |].
    intros Hf. specialize (I3 Hf). congruence.
Qed.

Lemma send_all_inv (cy : cycle) (ms : list asgi_message) :
  cycle_inv cy -> cycle_inv (fst (send_all cy ms)).
Proof.
  revert cy. induction ms as [| m ms IH]; intros cy H; [exact H |].
  cbn [send_all]. pose proof (send_inv cy m H) as H'.
  destruct (send cy m) as [cy' [u | e]]; [apply IH |]; exact H'.
Qed.

Lemma new_cycle_inv (m : string) (ck ka e100 : bool) (dh : list (string * string)) :
  cycle_inv (new_cycle m ck dh ka e100).
Proof. unfold cycle_inv. cbn. repeat split; discriminate. Qed.

(** [send] only appends to what the transport was given. *)
Lemma send_written_grows (cy : cycle) (m : asgi_message) :
  exists w, cy_written (fst (send cy m)) = cy_written cy ++ w.
Proof.
  unfold send, send_start, send_body, finish, write, set_expected, set_framing, start, complete,
    close.
  repeat match goal with
         | |- context [if ?b then _ else _] => destruct b
         | |- context [match ?x with Ok _ => _ | Raise _ => _ end] => destruct x
         | |- context [match write_headers ?a ?b ?c with _ => _ end] =>
             destruct (write_headers a b c) as [[[? ?] ?] [? | ?]]
         | |- context [match ?m with ResponseStart _ _ => _ | ResponseBody _ _ => _ end] =>
             destruct m
         end;
  cbn; first [exists ""; symmetry; apply string_app_nil_r | eexists; reflexivity
             | eexists; rewrite !string_app_assoc; reflexivity].
Qed.

Lemma send_all_written_grows (cy : cycle) (ms : list asgi_message) :
  exists w, cy_written (fst (send_all cy ms)) = cy_written cy ++ w.
Proof.
  revert cy. induction ms as [| m ms IH]; intros cy.
  - exists "". symmetry. apply string_app_nil_r.
  - cbn [send_all]. destruct (send_written_grows cy m) as [w1 E1].
    destruct (send cy m) as [cy' [u | e]]; cbn [fst] in *.
    + destruct (IH cy') as [w2 E2]. exists (w1 ++ w2). rewrite E2, E1, string_app_assoc. reflexivity.
    + exists w1. exact E1.
Qed.

(** ** The application on the wire *)

Section ServeLemmas.
Context {S : Type} `{TimeSourceLaws S}.

(** A request served with plain default headers. *)
Lemma serve_wire_plain (req : request) (s : S) (dh : list (string * string)) (ck ka : bool)
    (b : string) :
  forallb plain_header dh = true -> resp_body (app req s) = Bytes b ->
  exists cy, serve req s ck ka dh = Some cy
    /\ cy_written cy = wire_bytes (req_method req) dh ck (app req s) b
    /\ cy_response_complete cy = true /\ cy_closed cy = (ck || negb ka || app_raises req s).
Proof.
  intros Hd Hb. unfold serve, response_messages. rewrite Hb. eexists. split; [reflexivity |].
  apply run_asgi_wire; [exact Hd | apply app_wire_ok | exact Hb].
Qed.

Lemma serve_wire (req : request) (s : S) (now : SystemClock) (dh : list (string * string)) (ck ka : bool)
    (b : string) :
  default_headers now = Ok dh -> resp_body (app req s) = Bytes b ->
  exists cy, serve req s ck ka dh = Some cy
    /\ cy_written cy = wire_bytes (req_method req) dh ck (app req s) b
    /\ cy_response_complete cy = true /\ cy_closed cy = (ck || negb ka || app_raises req s).
Proof. intros Hd. apply serve_wire_plain, (default_headers_plain now dh Hd). Qed.
End ServeLemmas.

(** The length checks of a body sent under [content-length] framing. *)
Lemma send_body_length_checks (cy : cycle) (b : string) (more : bool) :
  cy_disconnected cy = false -> cy_response_started cy = true -> cy_response_complete cy = false ->
  String.eqb (cy_method cy) "HEAD" = false -> cy_chunked_encoding cy = Some false ->
  (cy_expected_content_length cy < Z.of_nat (String.length b) ->
   send cy (ResponseBody b more)
   = (cy, Raise (RuntimeError "Response content longer than Content-Length")))
  /\ (Z.of_nat (String.length b) < cy_expected_content_length cy ->
      snd (send cy (ResponseBody b false))
      = Raise (RuntimeError "Response content shorter than Content-Length")
      /\ cy_written (fst (send cy (ResponseBody b false))) = cy_written cy ++ b).
Proof.
  intros Hd Hs Hc Hm Hch. unfold send. rewrite Hd, Hs, Hc. cbn [negb]. unfold send_body.
  rewrite Hm, Hch. split; intros Hl.
  - rewrite (proj2 (Z.ltb_lt _ _) Hl). reflexivity.
  - rewrite (proj2 (Z.ltb_ge _ _)) by lia. unfold finish.
    replace (cy_expected_content_length (write (set_expected cy _) b) =? 0) with false.
    + split; reflexivity.
    + symmetry. apply Z.eqb_neq. cbn. lia.
Qed.

(** A complete response takes no more messages. *)
Lemma send_after_complete (cy : cycle) (m : asgi_message) :
  cy_disconnected cy = false -> cy_response_started cy = true -> cy_response_complete cy = true ->
  send cy m = (cy, Raise (RuntimeError ("Unexpected ASGI message '" ++ message_type m
                                         ++ "' sent, after response already completed."))).
Proof. intros Hd Hs Hc. unfold send. rewrite Hd, Hs, Hc. reflexivity. Qed.

(** The [date] header within and outside years 1 to 9999. *)
Lemma default_headers_spec (c : SystemClock) :
  (PyTime_lowest <= clock_ns c <= PyTime_MAX ->
   exists d, default_headers c = Ok [("date", d); ("server", "uvicorn")]
             /\ String.length d = 29%nat)
  /\ (~ (PyTime_lowest <= clock_ns c <= PyTime_MAX) ->
      default_headers c = Raise pytime_overflow).
Proof.
  unfold default_headers. rewrite PyTime_Time_spec.
  destruct (Z.leb_spec PyTime_lowest (clock_ns c)), (Z.leb_spec (clock_ns c) PyTime_MAX);
    cbn [andb]; split; intros Ht; try lia; try reflexivity.
  rewrite bind_ok. rewrite PyTime_MAX_value in *. unfold PyTime_lowest, SEC_TO_NS in *.
  destruct (formatdate_ok (clock_ns c / 1000000000)) as (d & E & L).
  - split; [apply Z.div_le_lower_bound | apply Z.div_lt_upper_bound]; lia.
  - rewrite E. exists d. split; [reflexivity | exact L].
Qed.

(** ** Theorems *)

Section ServeTheorems.
Context {S : Type} `{TimeSourceLaws S}.

(** C16 (refinement): the bytes uvicorn writes for a request are the
    HTTP/1.1 message of the response value the application returns: the
    status line, the [date] and [server] headers, the response's headers
    (and [connection: close] when the client sent it), a blank line, and
    the body unless the request is [HEAD]; the response completes, and
    the connection is closed exactly when the client asked for it, when
    it is not kept alive, or when the handler raised (the 500 case). *)
Theorem app_served_wire (req : request) (s : S) (now : SystemClock)
    (dh : list (string * string)) (ck ka : bool) (b : string) :
  default_headers now = Ok dh -> resp_body (app req s) = Bytes b ->
  exists cy, serve req s ck ka dh = Some cy
    /\ cy_written cy = wire_bytes (req_method req) dh ck (app req s) b
    /\ cy_response_complete cy = true /\ cy_closed cy = (ck || negb ka || app_raises req s).
Proof. apply serve_wire. Qed.
End ServeTheorems.

(** C38 (roundtrip): the [content-length] value Starlette writes,
    [str(len(body))], read back by the cycle's [int()], frames exactly
    [len(body)] bytes, for every length a [bytes] object can have; the
    header line is written as it is. *)
Theorem content_length_framing (n : Z) (ex : Z) (kp : bool) (c : string) :
  0 <= n <= 9223372036854775807 ->
  write_headers [("content-length", str_int n)] (None, ex, kp) c
  = ((Some false, n, kp), Ok (c ++ "content-length: " ++ str_int n ++ crlf)).
Proof. apply write_headers_content_length_ssize. Qed.

(** C17 (error): under [content-length] framing, a body longer than the
    declared length raises [RuntimeError] before anything is written, and
    a last body shorter than it is written and then raises
    [RuntimeError]. *)
Theorem send_length_errors (cy : cycle) (b : string) (more : bool) :
  cy_disconnected cy = false -> cy_response_started cy = true -> cy_response_complete cy = false ->
  String.eqb (cy_method cy) "HEAD" = false -> cy_chunked_encoding cy = Some false ->
  (cy_expected_content_length cy < Z.of_nat (String.length b) ->
   send cy (ResponseBody b more)
   = (cy, Raise (RuntimeError "Response content longer than Content-Length")))
  /\ (Z.of_nat (String.length b) < cy_expected_content_length cy ->
      snd (send cy (ResponseBody b false))
      = Raise (RuntimeError "Response content shorter than Content-Length")
      /\ cy_written (fst (send cy (ResponseBody b false))) = cy_written cy ++ b).
Proof. apply send_body_length_checks. Qed.

(** C27 (invariant): whatever messages an application sends, in whatever
    order, the cycle keeps its invariant: nothing is written before the
    response starts, a response completes only after exactly its
    declared length was sent, and the connection is closed only after a
    complete response. *)
Theorem cycle_invariant (m : string) (ck ka e100 : bool) (dh : list (string * string))
    (ms : list asgi_message) :
  cycle_inv (fst (send_all (new_cycle m ck dh ka e100) ms)).
Proof. apply send_all_inv, new_cycle_inv. Qed.

(** C40 (bounds): on every reading [time.time()] accepts (the int64
    range of [PyTime_t] nanoseconds, with [pytime_mul]'s truncated lower
    bound) the [date] header is the 29 characters
    [Www, DD Mon YYYY HH:MM:SS GMT]; outside it [on_tick] raises
    [time.time()]'s [OverflowError] and no header is made. *)
Theorem default_headers_date (c : SystemClock) :
  (PyTime_lowest <= clock_ns c <= PyTime_MAX ->
   exists d, default_headers c = Ok [("date", d); ("server", "uvicorn")]
             /\ String.length d = 29%nat)
  /\ (~ (PyTime_lowest <= clock_ns c <= PyTime_MAX) ->
      default_headers c = Raise pytime_overflow).
Proof. apply default_headers_spec. Qed.

(** ** Witnesses *)

(** [HEAD /datetime] at 2024-01-15T10:30:00Z on a connection the client
    closes: a 405 whose headers are written without its body. *)
Lemma app_served_wire_witness :
  (default_headers scenario_reading
     = Ok [("date", "Mon, 15 Jan 2024 10:30:00 GMT"); ("server", "uvicorn")]
   /\ resp_body (app (mk_request "HEAD" "/datetime" "" SchemeHttp None (Some ("127.0.0.1", 8000))) scenario_reading)
      = Bytes (dumps (JObj [("detail", JStr "Method Not Allowed")])))
  /\ exists cy,
       serve (mk_request "HEAD" "/datetime" "" SchemeHttp None (Some ("127.0.0.1", 8000))) scenario_reading true true
         [("date", "Mon, 15 Jan 2024 10:30:00 GMT"); ("server", "uvicorn")] = Some cy
       /\ cy_written cy
          = wire_bytes "HEAD" [("date", "Mon, 15 Jan 2024 10:30:00 GMT"); ("server", "uvicorn")]
              true (app (mk_request "HEAD" "/datetime" "" SchemeHttp None (Some ("127.0.0.1", 8000))) scenario_reading)
              (dumps (JObj [("detail", JStr "Method Not Allowed")]))
       /\ cy_response_complete cy = true
       /\ cy_closed cy
          = (true || negb true || app_raises (mk_request "HEAD" "/datetime" "" SchemeHttp None (Some ("127.0.0.1", 8000)))
                                    scenario_reading).
Proof.
  split; [split; vm_compute; reflexivity |].
  apply (app_served_wire (mk_request "HEAD" "/datetime" "" SchemeHttp None (Some ("127.0.0.1", 8000))) scenario_reading
           scenario_reading); vm_compute; reflexivity.
Defined.

Lemma send_length_errors_witness :
  send (mk_cycle "GET" false [] false false true false (Some false) 3 true "" false)
    (ResponseBody "abcd" false)
  = (mk_cycle "GET" false [] false false true false (Some false) 3 true "" false,
     Raise (RuntimeError "Response content longer than Content-Length"))
  /\ snd (send (mk_cycle "GET" false [] false false true false (Some false) 3 true "" false)
            (ResponseBody "ab" false))
     = Raise (RuntimeError "Response content shorter than Content-Length").
Proof.
  split.
  - apply (send_length_errors (mk_cycle "GET" false [] false false true false (Some false) 3 true "" false)
             "abcd" false); reflexivity.
  - apply (send_length_errors (mk_cycle "GET" false [] false false true false (Some false) 3 true "" false)
             "ab" false); reflexivity.
Defined.

(** A reading of 2024 gets its date; the first nanosecond past
    2262-04-11T23:47:16.854775807Z gets [time.time()]'s [OverflowError]. *)
Lemma default_headers_date_witness :
  (exists d, default_headers scenario_reading = Ok [("date", d); ("server", "uvicorn")]
             /\ String.length d = 29%nat)
  /\ default_headers (mk_clock 9223372036854775808 (fixed_zone 0)) = Raise pytime_overflow.
Proof.
  split.
  - apply (default_headers_date scenario_reading). vm_compute. split; discriminate.
  - apply (default_headers_date (mk_clock 9223372036854775808 (fixed_zone 0))).
    rewrite PyTime_MAX_value. cbn [clock_ns]. lia.
Defined.

(** The 42 bytes of a [/datetime] body without microseconds. *)
Lemma content_length_framing_witness :
  0 <= 42 <= 9223372036854775807
  /\ write_headers [("content-length", str_int 42)] (None, 0, true) ""
     = ((Some false, 42, true), Ok ("" ++ "content-length: " ++ str_int 42 ++ crlf)).
Proof. split; [lia | apply (content_length_framing 42 0 true ""); lia]. Defined.
