(* ===== verification/JsonDecode.v ===== *)
(** * JsonDecode: the client reads the body back with [json.loads]

    The spec's properties speak of the body as a JSON object "whose value
    parses": the client side is Python's [json.loads] ([Lib/json/decoder.py]
    and [scanner.py]; the C accelerator behaves the same).  It is not code
    of the repository, so it is modelled from the spec and from Python's
    decoder: [skip_ws] is the [WHITESPACE] pattern, [scanstring] the string
    scanner with its escapes, [parse_number] the [NUMBER_RE] match of an
    int, and the mutually recursive [parse_value], [parse_elems] and
    [parse_members] are [scan_once], [JSONArray] and [JSONObject]; objects
    are built as [dict(pairs)] would ([dict_set]).  A [JSONDecodeError] is
    [None].

    The decoder recurses on the input, not on a structure: the fuel
    [2 * length s + 2] of [loads] is enough, and more fuel changes nothing
    ([parse_value_fuel_enough]).  Out of scope: floats ([NaN], [Infinity],
    fractions and exponents give [None]), [\uXXXX] escapes of characters
    beyond ASCII, and the UTF-8 decoding of non-ASCII bodies ([loads]
    gives [None] on them). *)

From Stdlib Require Import ZArith String Ascii List Bool Lia.
From S2P Require Import Prelude PyInt DateTime IsoFormat Clock Json App.
Import ListNotations.

Local Open Scope string_scope.
Local Open Scope Z_scope.

(** ** The scanner *)

Definition dq_char : ascii := ascii_of_nat 34.

(** [WHITESPACE = r'[ \t\n\r]*']. *)
Definition is_ws (c : ascii) : bool :=
  Ascii.eqb c " " || Ascii.eqb c (ascii_of_nat 9) || Ascii.eqb c (ascii_of_nat 10)
  || Ascii.eqb c (ascii_of_nat 13).

Fixpoint skip_ws (s : string) : string :=
  match s with
  | String c s' => if is_ws c then skip_ws s' else s
  | EmptyString => EmptyString
  end.

(** [s.startswith(p)], and what follows. *)
Fixpoint strip_prefix (p s : string) : option string :=
  match p, s with
  | EmptyString, _ => Some s
  | String a p', String b s' => if Ascii.eqb a b then strip_prefix p' s' else None
  | String _ _, EmptyString => None
  end.

(** One digit of [HEXDIGITS = r'[0-9A-Fa-f]{4}']. *)
Definition hex_value (c : ascii) : option Z :=
  let n := Z.of_N (N_of_ascii c) in
  if (48 <=? n) && (n <=? 57) then Some (n - 48)
  else if (65 <=? n) && (n <=? 70) then Some (n - 55)
  else if (97 <=? n) && (n <=? 102) then Some (n - 87)
  else None.

(** [_decode_uXXXX]: [int(esc, 16)] of four hex digits. *)
Definition decode_uXXXX (h1 h2 h3 h4 : ascii) : option Z :=
  match hex_value h1, hex_value h2, hex_value h3, hex_value h4 with
  | Some a, Some b, Some c, Some d => Some (((a * 16 + b) * 16 + c) * 16 + d)
  | _, _, _, _ => None
  end.

(** [BACKSLASH]: the one-character escapes. *)
Definition simple_escape (e : ascii) : option ascii :=
  if Ascii.eqb e dq_char then Some dq_char
  else if Ascii.eqb e "\" then Some "\"%char
  else if Ascii.eqb e "/" then Some "/"%char
  else if Ascii.eqb e "b" then Some (ascii_of_nat 8)
  else if Ascii.eqb e "f" then Some (ascii_of_nat 12)
  else if Ascii.eqb e "n" then Some (ascii_of_nat 10)
  else if Ascii.eqb e "r" then Some (ascii_of_nat 13)
  else if Ascii.eqb e "t" then Some (ascii_of_nat 9)
  else None.

Definition cons_result (c : ascii) (o : option (string * string)) : option (string * string) :=
  match o with
  | Some (t, r) => Some (String c t, r)
  | None => None
  end.

(** [scanstring(s, end, strict=True)] after the opening quote: the string
    up to the closing quote, and what follows it.  A control character, an
    unknown escape or a missing quote is an error. *)
Fixpoint scanstring (s : string) : option (string * string) :=
  match s with
  | EmptyString => None
  | String c s' =>
      if Ascii.eqb c dq_char then Some (EmptyString, s')
      else if Ascii.eqb c "\" then
        match s' with
        | EmptyString => None
        | String e s'' =>
            if Ascii.eqb e "u" then
              match s'' with
              | String h1 (String h2 (String h3 (String h4 r))) =>
                  match decode_uXXXX h1 h2 h3 h4 with
                  | Some u => if u <? 128 then cons_result (ascii_of_N (Z.to_N u)) (scanstring r)
                              else None
                  | None => None
                  end
              | _ => None
              end
            else
              match simple_escape e with
              | Some ch => cons_result ch (scanstring s'')
              | None => None
              end
        end
      else if (N_of_ascii c <? 32)%N then None
      else cons_result c (scanstring s')
  end.

(** The digits [\d*] of [NUMBER_RE], read onto [acc]. *)
Fixpoint digit_run (acc : Z) (s : string) : Z * string :=
  match s with
  | String c s' => if is_digit c then digit_run (acc * 10 + digit_value c) s' else (acc, s)
  | EmptyString => (acc, EmptyString)
  end.

(** A fraction ([.] and a digit) or an exponent ([e] or [E], an optional
    sign, a digit) follows: the number is a float. *)
Definition starts_float (s : string) : bool :=
  match s with
  | String c (String d _) =>
      (Ascii.eqb c "." && is_digit d)
      || ((Ascii.eqb c "e" || Ascii.eqb c "E")
          && (is_digit d
              || ((Ascii.eqb d "+" || Ascii.eqb d "-")
                  && match s with
                     | String _ (String _ (String x _)) => is_digit x
                     | _ => false
                     end)))
  | _ => false
  end.

(** The [NUMBER_RE] match read as an [int]: an optional minus, then [0]
    or a non-zero digit followed by digits; a fraction or an exponent
    after them makes a float. *)
Definition parse_int (neg : bool) (s : string) : option (json * string) :=
  match s with
  | String c r =>
      if Ascii.eqb c "0" then
        if starts_float r then None else Some (JInt 0, r)
      else if is_digit c then
        let '(n, r') := digit_run (digit_value c) r in
        if starts_float r' then None else Some (JInt (if neg then - n else n), r')
      else None
  | EmptyString => None
  end.

Definition parse_number (s : string) : option (json * string) :=
  match s with
  | String c s' => if Ascii.eqb c "-" then parse_int true s' else parse_int false s
  | EmptyString => None
  end.

(** ** [scan_once], [JSONArray], [JSONObject] *)

Fixpoint parse_value (fuel : nat) (s : string) {struct fuel} : option (json * string) :=
  match fuel with
  | O => None
  | S f =>
      match s with
      | EmptyString => None
      | String c r =>
          if Ascii.eqb c dq_char then
            match scanstring r with
            | Some (t, r') => Some (JStr t, r')
            | None => None
            end
          else if Ascii.eqb c "{" then
            match skip_ws r with
            | String c' r' =>
                if Ascii.eqb c' "}" then Some (JObj [], r') else parse_members f [] (skip_ws r)
            | EmptyString => None
            end
          else if Ascii.eqb c "[" then
            match skip_ws r with
            | String c' r' =>
                if Ascii.eqb c' "]" then Some (JArr [], r') else parse_elems f [] (skip_ws r)
            | EmptyString => None
            end
          else
            match strip_prefix "null" s with
            | Some r' => Some (JNull, r')
            | None =>
                match strip_prefix "true" s with
                | Some r' => Some (JBool true, r')
                | None =>
                    match strip_prefix "false" s with
                    | Some r' => Some (JBool false, r')
                    | None => parse_number s
                    end
                end
            end
      end
  end
with parse_elems (fuel : nat) (acc : list json) (s : string) {struct fuel}
    : option (json * string) :=
  match fuel with
  | O => None
  | S f =>
      match parse_value f s with
      | Some (v, r) =>
          match skip_ws r with
          | String c r' =>
              if Ascii.eqb c "]" then Some (JArr (acc ++ [v]), r')
              else if Ascii.eqb c "," then parse_elems f (acc ++ [v]) (skip_ws r')
              else None
          | EmptyString => None
          end
      | None => None
      end
  end
with parse_members (fuel : nat) (acc : list (string * json)) (s : string) {struct fuel}
    : option (json * string) :=
  match fuel with
  | O => None
  | S f =>
      match s with
      | String c r =>
          if Ascii.eqb c dq_char then
            match scanstring r with
            | Some (k, r1) =>
                match skip_ws r1 with
                | String c1 r2 =>
                    if Ascii.eqb c1 ":" then
                      match parse_value f (skip_ws r2) with
                      | Some (v, r3) =>
                          match skip_ws r3 with
                          | String c3 r4 =>
                              if Ascii.eqb c3 "}" then Some (JObj (dict_set k v acc), r4)
                              else if Ascii.eqb c3 "," then
                                parse_members f (dict_set k v acc) (skip_ws r4)
                              else None
                          | EmptyString => None
                          end
                      | None => None
                      end
                    else None
                | EmptyString => None
                end
            | None => None
            end
          else None
      | EmptyString => None
      end
  end.

(** Characters below 128. *)
Definition is_ascii7 (c : ascii) : bool := (N_of_ascii c <? 128)%N.

(** [json.loads(s)]: one value between optional whitespace, nothing
    after it ("Extra data"). *)
Definition loads (s : string) : option json :=
  if negb (all_chars is_ascii7 s) then None
  else
    match parse_value (2 * String.length s + 2) (skip_ws s) with
    | Some (j, r) => if String.eqb (skip_ws r) "" then Some j else None
    | None => None
    end.

(** ** What the round trip needs of a value *)

(** The items and members [dumps] writes between the brackets. *)
Fixpoint dumps_items (l : list json) : string :=
  match l with
  | [] => ""
  | [x] => dumps x
  | x :: xs => dumps x ++ "," ++ dumps_items xs
  end.

Fixpoint dumps_members (m : list (string * json)) : string :=
  match m with
  | [] => ""
  | [(k, x)] => encode_basestring k ++ ":" ++ dumps x
  | (k, x) :: ms => encode_basestring k ++ ":" ++ dumps x ++ "," ++ dumps_members ms
  end.

(** No key appears twice. *)
Fixpoint keys_distinct (m : list (string * json)) : bool :=
  match m with
  | [] => true
  | (k, _) :: m' => negb (existsb (fun kv => String.eqb k (fst kv)) m') && keys_distinct m'
  end.

(** The values [dumps] writes and [loads] reads back: ASCII strings, and
    objects with distinct keys (a Python dict has no other). *)
Fixpoint wf_json (j : json) : bool :=
  match j with
  | JStr s => all_chars is_ascii7 s
  | JArr l => forallb wf_json l
  | JObj m =>
      forallb (fun kv => all_chars is_ascii7 (fst kv) && wf_json (snd kv)) m && keys_distinct m
  | _ => true
  end.

(** What may follow a value inside the text [dumps] writes. *)
Definition delimited (rest : string) : Prop :=
  match rest with
  | EmptyString => True
  | String c _ => c = ","%char \/ c = "]"%char \/ c = "}"%char
  end.

(** [dumps j] followed by a delimiter is read back as [j], with enough
    fuel. *)
Definition reads_back (j : json) : Prop :=
  forall rest, delimited rest -> exists f, parse_value f (dumps j ++ rest) = Some (j, rest).

(** Text that does not start with a digit. *)
Definition no_digit_start (s : string) : Prop :=
  match s with
  | String c _ => is_digit c = false
  | EmptyString => True
  end.

(** Induction on [json] through the lists of arrays and objects. *)
Section JsonInd.
Variable P : json -> Prop.
Hypothesis HNull : P JNull.
Hypothesis HBool : forall b, P (JBool b).
Hypothesis HInt : forall n, P (JInt n).
Hypothesis HStr : forall s, P (JStr s).
Hypothesis HArr : forall l, Forall P l -> P (JArr l).
Hypothesis HObj : forall m, Forall (fun kv => P (snd kv)) m -> P (JObj m).

Fixpoint json_nested_ind (j : json) : P j :=
  match j with
  | JNull => HNull
  | JBool b => HBool b
  | JInt n => HInt n
  | JStr s => HStr s
  | JArr l =>
      HArr l ((fix go (l : list json) : Forall P l :=
                 match l with
                 | [] => Forall_nil P
                 | x :: xs => Forall_cons x (json_nested_ind x) (go xs)
                 end) l)
  | JObj m =>
      HObj m ((fix go (m : list (string * json)) : Forall (fun kv => P (snd kv)) m :=
                 match m with
                 | [] => Forall_nil _
                 | kv :: ms => Forall_cons kv (json_nested_ind (snd kv)) (go ms)
                 end) m)
  end.
End JsonInd.

Example loads_examples :
  loads ("{" ++ dq ++ "current_datetime" ++ dq ++ ": " ++ dq ++ "2024-01-15T10:30:00.123456" ++ dq ++ "}")
    = Some (JObj [("current_datetime", JStr "2024-01-15T10:30:00.123456")])
  /\ loads " [1, -20 ,null,true, false, []]  " = Some (JArr [JInt 1; JInt (-20); JNull; JBool true; JBool false; JArr []])
  /\ loads ("{" ++ dq ++ "a" ++ dq ++ ":1," ++ dq ++ "b" ++ dq ++ ":2," ++ dq ++ "a" ++ dq ++ ":3}")
    = Some (JObj [("a", JInt 3); ("b", JInt 2)])
  /\ loads (dq ++ "\nA\" ++ dq ++ dq) = Some (JStr (String (ascii_of_nat 10) (String "A" dq)))
  /\ loads "[1,]" = None /\ loads "01" = None /\ loads "1.5" = None /\ loads "[1] x" = None
  /\ loads (dq ++ String (ascii_of_nat 10) dq) = None.
Proof. repeat split; vm_compute; reflexivity. Qed.

(** ** The decoder unfolded one step *)

Lemma parse_value_S (f : nat) (s : string) :
  parse_value (S f) s =
      match s with
      | EmptyString => None
      | String c r =>
          if Ascii.eqb c dq_char then
            match scanstring r with
            | Some (t, r') => Some (JStr t, r')
            | None => None
            end
          else if Ascii.eqb c "{" then
            match skip_ws r with
            | String c' r' =>
                if Ascii.eqb c' "}" then Some (JObj [], r') else parse_members f [] (skip_ws r)
            | EmptyString => None
            end
          else if Ascii.eqb c "[" then
            match skip_ws r with
            | String c' r' =>
                if Ascii.eqb c' "]" then Some (JArr [], r') else parse_elems f [] (skip_ws r)
            | EmptyString => None
            end
          else
            match strip_prefix "null" s with
            | Some r' => Some (JNull, r')
            | None =>
                match strip_prefix "true" s with
                | Some r' => Some (JBool true, r')
                | None =>
                    match strip_prefix "false" s with
                    | Some r' => Some (JBool false, r')
                    | None => parse_number s
                    end
                end
            end
      end.
Proof. reflexivity. Qed.

Lemma parse_elems_S (f : nat) (acc : list json) (s : string) :
  parse_elems (S f) acc s =
      match parse_value f s with
      | Some (v, r) =>
          match skip_ws r with
          | String c r' =>
              if Ascii.eqb c "]" then Some (JArr (acc ++ [v]), r')
              else if Ascii.eqb c "," then parse_elems f (acc ++ [v]) (skip_ws r')
              else None
          | EmptyString => None
          end
      | None => None
      end.
Proof. reflexivity. Qed.

Lemma parse_members_S (f : nat) (acc : list (string * json)) (s : string) :
  parse_members (S f) acc s =
      match s with
      | String c r =>
          if Ascii.eqb c dq_char then
            match scanstring r with
            | Some (k, r1) =>
                match skip_ws r1 with
                | String c1 r2 =>
                    if Ascii.eqb c1 ":" then
                      match parse_value f (skip_ws r2) with
                      | Some (v, r3) =>
                          match skip_ws r3 with
                          | String c3 r4 =>
                              if Ascii.eqb c3 "}" then Some (JObj (dict_set k v acc), r4)
                              else if Ascii.eqb c3 "," then
                                parse_members f (dict_set k v acc) (skip_ws r4)
                              else None
                          | EmptyString => None
                          end
                      | None => None
                      end
                    else None
                | EmptyString => None
                end
            | None => None
            end
          else None
      | EmptyString => None
      end.
Proof. reflexivity. Qed.

(** ** Lemmas: what each scanner consumes *)

Lemma skip_ws_length (s : string) : (String.length (skip_ws s) <= String.length s)%nat.
Proof. induction s as [| c s IH]; simpl; [lia |]. destruct (is_ws c); simpl; lia. Qed.

Lemma strip_prefix_length (p s r : string) :
  strip_prefix p s = Some r -> String.length s = (String.length p + String.length r)%nat.
Proof.
  revert s. induction p as [| a p IH]; intros [| b s] H; simpl in H; try discriminate.
  - injection H as <-. reflexivity.
  - injection H as <-. reflexivity.
  - destruct (Ascii.eqb a b); [| discriminate]. simpl. rewrite (IH s H). reflexivity.
Qed.

Lemma cons_result_length (c : ascii) (o : option (string * string)) (t r : string) (n : nat) :
  (forall t' r', o = Some (t', r') -> (String.length r' < n)%nat) ->
  cons_result c o = Some (t, r) -> (String.length r < n)%nat.
Proof. intros H E. destruct o as [[t' r'] |]; [| discriminate]. injection E as _ <-. eauto. Qed.

Lemma scanstring_length (s t r : string) :
  scanstring s = Some (t, r) -> (String.length r < String.length s)%nat.
Proof.
  revert t r. induction s as [s IH] using (well_founded_induction
    (Wf_nat.well_founded_ltof _ String.length)); intros t r H.
  destruct s as [| c s']; [discriminate |]. simpl in H |- *.
  destruct (Ascii.eqb c dq_char); [injection H as _ <-; lia |].
  destruct (Ascii.eqb c "\").
  - destruct s' as [| e s'']; [discriminate |].
    destruct (Ascii.eqb e "u").
    + destruct s'' as [| h1 [| h2 [| h3 [| h4 r0]]]]; try discriminate.
      destruct (decode_uXXXX h1 h2 h3 h4) as [u |]; [| discriminate].
      destruct (u <? 128); [| discriminate].
      apply (cons_result_length _ _ _ _ _ (fun t' r' E => IH r0 ltac:(unfold ltof; simpl; lia) t' r' E)) in H.
      simpl. lia.
    + destruct (simple_escape e); [| discriminate].
      apply (cons_result_length _ _ _ _ _ (fun t' r' E => IH s'' ltac:(unfold ltof; simpl; lia) t' r' E)) in H.
      simpl. lia.
  - destruct (N_of_ascii c <? 32)%N; [discriminate |].
    apply (cons_result_length _ _ _ _ _ (fun t' r' E => IH s' ltac:(unfold ltof; simpl; lia) t' r' E)) in H.
    lia.
Qed.

Lemma digit_run_length (acc : Z) (s : string) :
  (String.length (snd (digit_run acc s)) <= String.length s)%nat.
Proof.
  revert acc. induction s as [| c s IH]; intros acc; simpl; [lia |].
  destruct (is_digit c); simpl; [specialize (IH (acc * 10 + digit_value c)); lia | lia].
Qed.

Lemma parse_int_length (neg : bool) (s : string) (v : json) (r : string) :
  parse_int neg s = Some (v, r) -> (String.length r < String.length s)%nat.
Proof.
  unfold parse_int. intros H. destruct s as [| c r0]; [discriminate |].
  destruct (Ascii.eqb c "0").
  - destruct (starts_float r0); [discriminate |]. injection H as _ <-. simpl. lia.
  - destruct (is_digit c); [| discriminate].
    pose proof (digit_run_length (digit_value c) r0) as Hr.
    destruct (digit_run (digit_value c) r0) as [n r'].
    destruct (starts_float r'); [discriminate |]. injection H as _ <-. simpl in Hr |- *. lia.
Qed.

Lemma parse_number_length (s : string) (v : json) (r : string) :
  parse_number s = Some (v, r) -> (String.length r < String.length s)%nat.
Proof.
  unfold parse_number. intros H. destruct s as [| c s']; [discriminate |].
  destruct (Ascii.eqb c "-"); apply parse_int_length in H; simpl in *; lia.
Qed.

(** The length facts the equations of a scanner run give. *)
Ltac length_facts :=
  repeat match goal with
  | E : scanstring _ = Some (_, _) |- _ => apply scanstring_length in E
  | E : parse_number _ = Some (_, _) |- _ => apply parse_number_length in E
  | E : strip_prefix _ _ = Some _ |- _ => apply strip_prefix_length in E
  | E : skip_ws ?x = _ |- _ =>
      let L := fresh "L" in pose proof (skip_ws_length x) as L; rewrite E in L; clear E
  | H : context [String.length (skip_ws ?x)] |- _ =>
      lazymatch goal with
      | _ : (String.length (skip_ws x) <= String.length x)%nat |- _ => fail
      | _ => pose proof (skip_ws_length x)
      end
  end.

(** Each successful parse consumes input. *)
Lemma parse_consumes (f : nat) :
  (forall s v r, parse_value f s = Some (v, r) -> (String.length r < String.length s)%nat)
  /\ (forall acc s v r, parse_elems f acc s = Some (v, r) -> (String.length r < String.length s)%nat)
  /\ (forall acc s v r, parse_members f acc s = Some (v, r) -> (String.length r < String.length s)%nat).
Proof.
  induction f as [| f (IHv & IHe & IHm)]; [repeat split; intros; discriminate |].
  repeat split; intros;
    [rewrite parse_value_S in H | rewrite parse_elems_S in H | rewrite parse_members_S in H];
    repeat (break_match_hyp; try discriminate);
    repeat match goal with
           | H : Some _ = Some _ |- _ => injection H as <- <-
           | H : parse_value f _ = Some _ |- _ => apply IHv in H
           | H : parse_elems f _ _ = Some _ |- _ => apply IHe in H
           | H : parse_members f _ _ = Some _ |- _ => apply IHm in H
           end;
    length_facts; simpl in *; lia.
Qed.

(** One more unit of fuel keeps every successful parse. *)
Lemma parse_fuel_succ (f : nat) :
  (forall s x, parse_value f s = Some x -> parse_value (S f) s = Some x)
  /\ (forall acc s x, parse_elems f acc s = Some x -> parse_elems (S f) acc s = Some x)
  /\ (forall acc s x, parse_members f acc s = Some x -> parse_members (S f) acc s = Some x).
Proof.
  induction f as [| f (IHv & IHe & IHm)]; [repeat split; intros; discriminate |].
  repeat split; intros *;
    [rewrite (parse_value_S f), (parse_value_S (S f)) | rewrite (parse_elems_S f), (parse_elems_S (S f))
    | rewrite (parse_members_S f), (parse_members_S (S f))];
    intros H; repeat (break_match_hyp; try discriminate);
    repeat match goal with
           | E : parse_value f _ = Some _ |- _ => rewrite (IHv _ _ E); clear E
           | E : ?X = _ |- context [?X] => rewrite E
           end; cbv beta iota;
    first [ reflexivity | assumption | apply IHe; assumption | apply IHm; assumption ].
Qed.

Lemma parse_fuel_mono (f f' : nat) (s : string) (x : json * string) :
  (f <= f')%nat -> parse_value f s = Some x -> parse_value f' s = Some x.
Proof.
  intros Hle. induction Hle as [| f' _ IH]; [auto |]. intros H. apply parse_fuel_succ, IH, H.
Qed.

(** Past twice the length of the input, more fuel changes nothing: every
    call consumes a character before the calls it makes with less fuel,
    except [parse_elems], which calls [parse_value] on the same input. *)
Lemma parse_fuel_stable (f : nat) :
  (forall s, (2 * String.length s < f)%nat -> parse_value f s = parse_value (S f) s)
  /\ (forall acc s, (2 * String.length s + 1 < f)%nat -> parse_elems f acc s = parse_elems (S f) acc s)
  /\ (forall acc s, (2 * String.length s + 1 < f)%nat -> parse_members f acc s = parse_members (S f) acc s).
Proof.
  induction f as [| f (IHv & IHe & IHm)]; [repeat split; intros; lia |].
  repeat split.
  - intros s Hs. rewrite (parse_value_S f), (parse_value_S (S f)).
    destruct s as [| c r]; [reflexivity |]. simpl in Hs. pose proof (skip_ws_length r).
    rewrite <- (IHm [] (skip_ws r)), <- (IHe [] (skip_ws r)) by lia. reflexivity.
  - intros acc s Hs. rewrite (parse_elems_S f), (parse_elems_S (S f)).
    rewrite <- (IHv s) by lia.
    destruct (parse_value f s) as [[v r] |] eqn:E; [| reflexivity].
    pose proof (proj1 (parse_consumes f) _ _ _ E).
    destruct (skip_ws r) as [| c r'] eqn:W; [reflexivity |].
    destruct (Ascii.eqb c "]"); [reflexivity |]. destruct (Ascii.eqb c ","); [| reflexivity].
    apply IHe. pose proof (skip_ws_length r'). length_facts. simpl in *. lia.
  - intros acc s Hs. rewrite (parse_members_S f), (parse_members_S (S f)).
    destruct s as [| c r]; [reflexivity |]. destruct (Ascii.eqb c dq_char); [| reflexivity].
    destruct (scanstring r) as [[k r1] |] eqn:E1; [| reflexivity].
    destruct (skip_ws r1) as [| c1 r2] eqn:W1; [reflexivity |].
    destruct (Ascii.eqb c1 ":"); [| reflexivity].
    pose proof (skip_ws_length r2). length_facts. simpl in *.
    rewrite <- (IHv (skip_ws r2)) by lia.
    destruct (parse_value f (skip_ws r2)) as [[v r3] |] eqn:E2; [| reflexivity].
    pose proof (proj1 (parse_consumes f) _ _ _ E2).
    destruct (skip_ws r3) as [| c3 r4] eqn:W3; [reflexivity |].
    destruct (Ascii.eqb c3 "}"); [reflexivity |]. destruct (Ascii.eqb c3 ","); [| reflexivity].
    apply IHm. pose proof (skip_ws_length r4). length_facts. simpl in *. lia.
Qed.

(** ** Lemmas: strings and numbers read back *)

(** [scanstring] undoes [encode_basestring]'s replacement of each of the
    256 characters. *)
Lemma scanstring_escape_char (c : ascii) (t : string) :
  scanstring (escape_char c ++ t) = cons_result c (scanstring t).
Proof. destruct c as [[] [] [] [] [] [] [] []]; reflexivity. Qed.

Lemma scanstring_escape_string (s t : string) :
  scanstring (escape_string s ++ dq ++ t) = Some (s, t).
Proof.
  induction s as [| c s IH]; [reflexivity |].
  cbn [escape_string]. rewrite string_app_assoc, scanstring_escape_char, IH. reflexivity.
Qed.

Lemma delimited_no_digit (rest : string) : delimited rest -> no_digit_start rest.
Proof. destruct rest as [| c r]; simpl; [auto |]. intros [-> | [-> | ->]]; reflexivity. Qed.

Lemma delimited_not_float (rest : string) : delimited rest -> starts_float rest = false.
Proof.
  destruct rest as [| c [| d r]]; simpl; [reflexivity | reflexivity |].
  intros [-> | [-> | ->]]; reflexivity.
Qed.

Lemma digit_run_digits (w : nat) (acc n : Z) (rest : string) :
  no_digit_start rest ->
  digit_run acc (digits_fixed w n ++ rest) = (acc * 10 ^ Z.of_nat w + n mod 10 ^ Z.of_nat w, rest).
Proof.
  intros Hr. revert acc. induction w as [| w IH]; intros acc.
  - cbn [digits_fixed]. destruct rest as [| c r]; simpl in *.
    + f_equal. rewrite Z.mod_1_r. ring.
    + rewrite Hr. f_equal. rewrite Z.mod_1_r. ring.
  - cbn [digits_fixed]. simpl (String _ _ ++ _). cbn [digit_run].
    pose proof (Z.mod_pos_bound (n / 10 ^ Z.of_nat w) 10 ltac:(lia)).
    rewrite digit_char_is_digit, digit_char_value, IH by lia.
    pose proof (pow10_pos w). rewrite pow10_succ, mod_mul_split by lia. f_equal. ring.
Qed.

(** The digits of a positive [m] as [int(...)] reads them. *)
Lemma parse_int_digits (neg : bool) (m : Z) (rest : string) :
  1 <= m -> delimited rest ->
  parse_int neg (digits_fixed (ndigits m) m ++ rest) = Some (JInt (if neg then - m else m), rest).
Proof.
  intros Hm Hr. destruct (ndigits_spec m Hm) as (Hk & Hlo & Hhi).
  destruct (ndigits m) as [| k] eqn:K; [lia |].
  rewrite Nat2Z.inj_succ in Hlo. replace (Z.succ (Z.of_nat k) - 1) with (Z.of_nat k) in Hlo by lia.
  rewrite pow10_succ in Hhi. pose proof (pow10_pos k).
  assert (H9 : m / 10 ^ Z.of_nat k < 10) by (apply Z.div_lt_upper_bound; lia).
  assert (H1 : 1 <= m / 10 ^ Z.of_nat k) by (apply Z.div_le_lower_bound; lia).
  assert (Hd : (m / 10 ^ Z.of_nat k) mod 10 = m / 10 ^ Z.of_nat k) by (apply Z.mod_small; lia).
  cbn [digits_fixed]. rewrite Hd. simpl (String _ _ ++ _). unfold parse_int.
  replace (Ascii.eqb (digit_char (m / 10 ^ Z.of_nat k)) "0") with false.
  2: { symmetry. apply Ascii.eqb_neq. intros E. apply (f_equal digit_value) in E.
       rewrite digit_char_value in E by lia. change (digit_value "0") with 0 in E. lia. }
  rewrite digit_char_is_digit, digit_char_value by lia.
  rewrite digit_run_digits by (apply delimited_no_digit; exact Hr).
  rewrite delimited_not_float by exact Hr.
  rewrite Z.mul_comm, <- Z.div_mod by lia. reflexivity.
Qed.

(** [dumps] of an int ([int.__repr__]) is read back as that int. *)
Lemma parse_number_format (n : Z) (rest : string) :
  delimited rest -> parse_number (format_d0 0 n ++ rest) = Some (JInt n, rest).
Proof.
  intros Hr. unfold format_d0.
  destruct (Z.ltb_spec n 0) as [Hn | Hn].
  - rewrite Nat.max_r by lia. unfold parse_number. cbn [String.append].
    change (Ascii.eqb "-" "-") with true. cbv iota.
    rewrite parse_int_digits by (lia || exact Hr). do 3 f_equal. lia.
  - rewrite Nat.max_r by lia. destruct (Z.eq_dec n 0) as [-> | Hn0].
    + simpl. rewrite delimited_not_float by exact Hr. reflexivity.
    + destruct (ndigits_spec n ltac:(lia)) as (Hk & _).
      destruct (ndigits n) as [| k] eqn:K; [lia |].
      unfold parse_number. rewrite <- K.
      assert (Hc : exists c t, digits_fixed (ndigits n) n ++ rest = String c t /\ is_digit c = true).
      { rewrite K. cbn [digits_fixed]. eexists _, _. split; [reflexivity |].
        apply digit_char_is_digit. apply Z.mod_pos_bound. lia. }
      destruct Hc as (c & t & E & Hc). rewrite E.
      replace (Ascii.eqb c "-") with false
        by (symmetry; apply Ascii.eqb_neq; intros ->; discriminate Hc).
      rewrite <- E. apply parse_int_digits; [lia | exact Hr].
Qed.

(** ** Lemmas: the shape of [dumps] *)

Lemma digits_fixed_head (k : nat) (n : Z) :
  (1 <= k)%nat -> exists c t, digits_fixed k n = String c t /\ is_digit c = true.
Proof.
  intros Hk. destruct k as [| k]; [lia |]. cbn [digits_fixed]. eexists _, _.
  split; [reflexivity |]. apply digit_char_is_digit, Z.mod_pos_bound. lia.
Qed.

(** An int is written from a minus sign or a digit. *)
Lemma format_d0_head (n : Z) :
  exists c t, format_d0 0 n = String c t /\ (Ascii.eqb c "-" || is_digit c)%bool = true.
Proof.
  unfold format_d0. destruct (Z.ltb_spec n 0).
  - eexists _, _. split; [reflexivity | reflexivity].
  - assert (Hk : (1 <= Nat.max 0 (ndigits n))%nat).
    { destruct (Z.eq_dec n 0) as [-> | Hn]; [vm_compute; lia |].
      pose proof (proj1 (ndigits_spec n ltac:(lia))). lia. }
    destruct (digits_fixed_head _ n Hk) as (c & t & E & Hc). rewrite E.
    exists c, t. split; [reflexivity | rewrite Hc, orb_true_r; reflexivity].
Qed.

Lemma number_start_not_special (c : ascii) :
  (Ascii.eqb c "-" || is_digit c)%bool = true ->
  is_ws c = false /\ c <> "]"%char /\ c <> "}"%char.
Proof. destruct c as [[] [] [] [] [] [] [] []]; intros H; try discriminate H; repeat split; discriminate. Qed.

(** What [dumps] writes starts with a character that begins a value. *)
Lemma dumps_head (j : json) :
  exists c t, dumps j = String c t /\ is_ws c = false /\ c <> "]"%char /\ c <> "}"%char.
Proof.
  destruct j as [| [] | n | s | l | m]; try (eexists _, _; split; [reflexivity | repeat split; discriminate]).
  destruct (format_d0_head n) as (c & t & E & Hc). exists c, t.
  split; [exact E | apply number_start_not_special, Hc].
Qed.

Lemma skip_ws_dumps (j : json) (rest : string) : skip_ws (dumps j ++ rest) = dumps j ++ rest.
Proof. destruct (dumps_head j) as (c & t & -> & Hc & _). simpl. rewrite Hc. reflexivity. Qed.

(** On a minus sign or a digit, [scan_once] tries the literals in vain and
    reads a number. *)
Lemma parse_value_number_start (f : nat) (c : ascii) (r : string) :
  (Ascii.eqb c "-" || is_digit c)%bool = true ->
  parse_value (S f) (String c r) = parse_number (String c r).
Proof. destruct c as [[] [] [] [] [] [] [] []]; intros H; try discriminate H; reflexivity. Qed.

Lemma dumps_arr (l : list json) : dumps (JArr l) = "[" ++ dumps_items l ++ "]".
Proof. reflexivity. Qed.

Lemma dumps_obj (m : list (string * json)) : dumps (JObj m) = "{" ++ dumps_members m ++ "}".
Proof. reflexivity. Qed.

(** [d[k] = v] on a key not yet in the dict appends it. *)
Lemma dict_set_fresh {V} (k : string) (v : V) (acc : list (string * V)) :
  existsb (fun kv => String.eqb k (fst kv)) acc = false -> dict_set k v acc = (acc ++ [(k, v)])%list.
Proof.
  induction acc as [| [k' v'] acc IH]; [reflexivity |]. cbn [existsb dict_set fst].
  intros H. apply orb_false_iff in H as [H1 H2]. rewrite H1, IH by exact H2. reflexivity.
Qed.

Lemma keys_distinct_app_cons (acc m : list (string * json)) (k : string) (v : json) :
  keys_distinct (acc ++ (k, v) :: m)%list = true ->
  existsb (fun kv => String.eqb k (fst kv)) acc = false.
Proof.
  induction acc as [| [k' v'] acc IH]; [reflexivity |]. cbn [Datatypes.app keys_distinct existsb fst].
  intros H. apply andb_prop in H as [H1 H2]. rewrite IH by exact H2. rewrite orb_false_r.
  apply negb_true_iff in H1. destruct (String.eqb_spec k k') as [-> | Hne]; [| reflexivity].
  rewrite existsb_app in H1. cbn in H1. rewrite String.eqb_refl, orb_true_r in H1. discriminate.
Qed.

Lemma parse_fuel_le (f f' : nat) :
  (f <= f')%nat ->
  (forall s x, parse_value f s = Some x -> parse_value f' s = Some x)
  /\ (forall acc s x, parse_elems f acc s = Some x -> parse_elems f' acc s = Some x)
  /\ (forall acc s x, parse_members f acc s = Some x -> parse_members f' acc s = Some x).
Proof.
  induction 1 as [| f' _ (IHv & IHe & IHm)]; [repeat split; auto |].
  destruct (parse_fuel_succ f') as (Sv & Se & Sm). repeat split; auto.
Qed.

(** ** Lemmas: the round trip *)

Lemma dumps_items_cons (x : json) (l : list json) :
  exists t, dumps_items (x :: l) = dumps x ++ t.
Proof. destruct l; [exists ""; rewrite string_app_nil_r; reflexivity |]. eexists. reflexivity. Qed.

Lemma dumps_members_one (k : string) (x : json) :
  dumps_members [(k, x)] = String dq_char (escape_string k ++ dq ++ ":" ++ dumps x).
Proof.
  change (dumps_members [(k, x)]) with (encode_basestring k ++ ":" ++ dumps x).
  unfold encode_basestring. rewrite !string_app_assoc. reflexivity.
Qed.

Lemma dumps_members_more (k : string) (x : json) (kv : string * json) (m : list (string * json)) :
  dumps_members ((k, x) :: kv :: m)
  = String dq_char (escape_string k ++ dq ++ ":" ++ dumps x ++ "," ++ dumps_members (kv :: m)).
Proof.
  change (dumps_members ((k, x) :: kv :: m))
    with (encode_basestring k ++ ":" ++ dumps x ++ "," ++ dumps_members (kv :: m)).
  unfold encode_basestring. rewrite !string_app_assoc. reflexivity.
Qed.

Lemma dumps_members_cons (k : string) (x : json) (m : list (string * json)) :
  exists t, dumps_members ((k, x) :: m) = String dq_char (escape_string k ++ dq ++ ":" ++ dumps x ++ t).
Proof.
  destruct m as [| kv m].
  - exists "". rewrite dumps_members_one, string_app_nil_r. reflexivity.
  - eexists. apply dumps_members_more.
Qed.

Lemma skip_ws_items (l : list json) (rest : string) :
  l <> [] -> skip_ws (dumps_items l ++ rest) = dumps_items l ++ rest.
Proof.
  destruct l as [| x l]; [congruence |]. intros _.
  destruct (dumps_items_cons x l) as [t ->]. rewrite string_app_assoc. apply skip_ws_dumps.
Qed.

Lemma skip_ws_members (m : list (string * json)) (rest : string) :
  m <> [] -> skip_ws (dumps_members m ++ rest) = dumps_members m ++ rest.
Proof.
  destruct m as [| [k x] m]; [congruence |]. intros _.
  destruct (dumps_members_cons k x m) as [t ->]. reflexivity.
Qed.

Lemma parse_elems_dumps (l : list json) :
  Forall (fun x => wf_json x = true -> reads_back x) l -> forallb wf_json l = true -> l <> [] ->
  forall acc rest, delimited rest ->
  exists f, parse_elems f acc (dumps_items l ++ "]" ++ rest) = Some (JArr (acc ++ l), rest).
Proof.
  induction l as [| x l IH]; intros Hall Hwf Hne acc rest Hr; [congruence |].
  apply Forall_cons_iff in Hall as [Hx Hl]. cbn [forallb] in Hwf. apply andb_prop in Hwf as [Wx Wl].
  destruct l as [| y l].
  - destruct (Hx Wx ("]" ++ rest) ltac:(simpl; auto)) as [fx Ex].
    exists (S fx). cbn [dumps_items]. rewrite parse_elems_S, Ex. reflexivity.
  - destruct (Hx Wx ("," ++ dumps_items (y :: l) ++ "]" ++ rest) ltac:(simpl; auto)) as [fx Ex].
    destruct (IH Hl Wl ltac:(discriminate) (acc ++ [x])%list rest Hr) as [fl El].
    exists (S (Nat.max fx fl)).
    change (dumps_items (x :: y :: l)) with (dumps x ++ "," ++ dumps_items (y :: l)).
    rewrite !string_app_assoc, parse_elems_S.
    rewrite (proj1 (parse_fuel_le fx (Nat.max fx fl) ltac:(lia)) _ _ Ex).
    change (skip_ws ("," ++ ?D)) with (String "," D). cbv beta iota.
    change (Ascii.eqb "," "]") with false. change (Ascii.eqb "," ",") with true. cbv iota.
    rewrite skip_ws_items by discriminate.
    rewrite (proj1 (proj2 (parse_fuel_le fl (Nat.max fx fl) ltac:(lia))) _ _ _ El).
    rewrite <- app_assoc. reflexivity.
Qed.

Lemma parse_members_dumps (m : list (string * json)) :
  Forall (fun kv => wf_json (snd kv) = true -> reads_back (snd kv)) m ->
  forallb (fun kv => all_chars is_ascii7 (fst kv) && wf_json (snd kv)) m = true -> m <> [] ->
  forall acc rest, keys_distinct (acc ++ m)%list = true -> delimited rest ->
  exists f, parse_members f acc (dumps_members m ++ "}" ++ rest) = Some (JObj (acc ++ m), rest).
Proof.
  induction m as [| [k x] m IH]; intros Hall Hwf Hne acc rest Hd Hr; [congruence |].
  apply Forall_cons_iff in Hall as [Hx Hm]. cbn [forallb fst snd] in Hwf, Hx.
  apply andb_prop in Hwf as [Wkx Wm]. apply andb_prop in Wkx as [_ Wx].
  pose proof (dict_set_fresh k x acc (keys_distinct_app_cons acc m k x Hd)) as Ed.
  destruct m as [| kv m].
  - destruct (Hx Wx ("}" ++ rest) ltac:(simpl; auto)) as [fx Ex]. exists (S fx).
    rewrite dumps_members_one. change (String ?c ?X ++ ?Y) with (String c (X ++ Y)).
    rewrite !string_app_assoc, parse_members_S.
    change (Ascii.eqb dq_char dq_char) with true. cbv iota.
    rewrite scanstring_escape_string. change (skip_ws (":" ++ ?D)) with (String ":" D). cbv beta iota.
    change (Ascii.eqb ":" ":") with true. cbv iota. rewrite skip_ws_dumps, Ex.
    change (skip_ws ("}" ++ ?D)) with (String "}" D). cbv beta iota.
    change (Ascii.eqb "}" "}") with true. cbv iota. rewrite Ed. reflexivity.
  - destruct (Hx Wx ("," ++ dumps_members (kv :: m) ++ "}" ++ rest) ltac:(simpl; auto)) as [fx Ex].
    destruct (IH Hm Wm ltac:(discriminate) (acc ++ [(k, x)])%list rest
                 ltac:(rewrite <- app_assoc; exact Hd) Hr) as [fm Em].
    exists (S (Nat.max fx fm)).
    rewrite dumps_members_more. change (String ?c ?X ++ ?Y) with (String c (X ++ Y)).
    rewrite !string_app_assoc, parse_members_S.
    change (Ascii.eqb dq_char dq_char) with true. cbv iota.
    rewrite scanstring_escape_string. change (skip_ws (":" ++ ?D)) with (String ":" D). cbv beta iota.
    change (Ascii.eqb ":" ":") with true. cbv iota. rewrite skip_ws_dumps.
    rewrite (proj1 (parse_fuel_le fx (Nat.max fx fm) ltac:(lia)) _ _ Ex).
    change (skip_ws ("," ++ ?D)) with (String "," D). cbv beta iota.
    change (Ascii.eqb "," "}") with false. change (Ascii.eqb "," ",") with true. cbv iota.
    rewrite skip_ws_members, Ed by discriminate.
    rewrite (proj2 (proj2 (parse_fuel_le fm (Nat.max fx fm) ltac:(lia))) _ _ _ Em).
    rewrite <- app_assoc. reflexivity.
Qed.

(** [scan_once] on [\[] and [{] followed by a value or a key. *)
Lemma parse_value_arr (f : nat) (r : string) :
  skip_ws r = r -> (exists c u, r = String c u /\ c <> "]"%char) ->
  parse_value (S f) (String "[" r) = parse_elems f [] r.
Proof.
  intros Hs (c & u & -> & Hc). rewrite parse_value_S.
  change (Ascii.eqb "[" dq_char) with false. change (Ascii.eqb "[" "{") with false.
  change (Ascii.eqb "[" "[") with true. cbv iota. rewrite Hs.
  rewrite (proj2 (Ascii.eqb_neq c "]") Hc). reflexivity.
Qed.

Lemma parse_value_obj (f : nat) (u : string) :
  skip_ws (String dq_char u) = String dq_char u ->
  parse_value (S f) (String "{" (String dq_char u)) = parse_members f [] (String dq_char u).
Proof.
  intros Hs. rewrite parse_value_S.
  change (Ascii.eqb "{" dq_char) with false. change (Ascii.eqb "{" "{") with true. cbv iota.
  rewrite Hs. reflexivity.
Qed.

(** Every value [dumps] writes of a well-formed [json] is read back. *)
Lemma parse_dumps (j : json) : wf_json j = true -> reads_back j.
Proof.
  induction j as [| b | n | s | l IHl | m IHm] using json_nested_ind; intros Hwf rest Hr.
  - exists 1%nat. reflexivity.
  - exists 1%nat. destruct b; reflexivity.
  - exists 1%nat. cbn [dumps]. destruct (format_d0_head n) as (c & t & E & Hc).
    pose proof (parse_number_format n rest Hr) as Hn. rewrite E in Hn |- *.
    change (String c t ++ rest) with (String c (t ++ rest)) in Hn |- *.
    rewrite parse_value_number_start by exact Hc. exact Hn.
  - exists 1%nat. cbn [dumps]. unfold encode_basestring. rewrite !string_app_assoc.
    change (parse_value 1 (dq ++ ?X)) with (parse_value 1 (String dq_char X)).
    rewrite parse_value_S. change (Ascii.eqb dq_char dq_char) with true. cbv iota.
    rewrite scanstring_escape_string. reflexivity.
  - cbn [wf_json] in Hwf. rewrite dumps_arr. destruct l as [| x l]; [exists 1%nat; reflexivity |].
    destruct (parse_elems_dumps (x :: l) IHl Hwf ltac:(discriminate) [] rest Hr) as [f Ef].
    exists (S f). rewrite !string_app_assoc. change ("[" ++ ?X) with (String "[" X).
    rewrite parse_value_arr; [exact Ef | apply skip_ws_items; discriminate |].
    destruct (dumps_items_cons x l) as [t ->]. destruct (dumps_head x) as (c & u & -> & _ & Hc & _).
    eexists _, _. split; [reflexivity | exact Hc].
  - cbn [wf_json] in Hwf. apply andb_prop in Hwf as [Wm Dm]. rewrite dumps_obj.
    destruct m as [| [k x] m]; [exists 1%nat; reflexivity |].
    destruct (parse_members_dumps ((k, x) :: m) IHm Wm ltac:(discriminate) [] rest Dm Hr) as [f Ef].
    exists (S f). rewrite !string_app_assoc. change ("{" ++ ?X) with (String "{" X).
    pose proof (skip_ws_members ((k, x) :: m) ("}" ++ rest) ltac:(discriminate)) as Hs.
    destruct (dumps_members_cons k x m) as [t Et]. rewrite Et in Ef, Hs |- *.
    change (String dq_char ?X ++ ?Y) with (String dq_char (X ++ Y)) in Ef, Hs |- *.
    rewrite parse_value_obj by exact Hs. exact Ef.
Qed.

(** Fuel beyond twice the length of the input gives the result of
    [2 * length + 1]. *)
Lemma parse_value_fuel_from (s : string) (f : nat) :
  (2 * String.length s < f)%nat -> parse_value f s = parse_value (2 * String.length s + 1) s.
Proof.
  induction 1 as [| f Hf IH]; [rewrite Nat.add_1_r; reflexivity |].
  rewrite <- IH. symmetry. apply (proj1 (parse_fuel_stable f)). lia.
Qed.

(** A parse that succeeds with some fuel gives the same with [loads]'s. *)
Lemma parse_value_fuel_free (s : string) (f : nat) (x : json * string) :
  parse_value f s = Some x -> parse_value (2 * String.length s + 2) s = Some x.
Proof.
  intros H. destruct (Nat.le_gt_cases f (2 * String.length s + 2)) as [Hle | Hgt].
  - exact (proj1 (parse_fuel_le _ _ Hle) _ _ H).
  - rewrite parse_value_fuel_from by lia. rewrite parse_value_fuel_from in H by lia. exact H.
Qed.

(** ** Lemmas: [dumps] writes ASCII *)

Lemma digits_fixed_ascii7 (w : nat) (n : Z) : all_chars is_ascii7 (digits_fixed w n) = true.
Proof.
  induction w as [| w IH]; [reflexivity |]. cbn [digits_fixed all_chars]. rewrite IH, andb_true_r.
  pose proof (Z.mod_pos_bound (n / 10 ^ Z.of_nat w) 10 ltac:(lia)).
  unfold is_ascii7, digit_char. rewrite N_ascii_embedding by lia. apply N.ltb_lt. lia.
Qed.

Lemma format_d0_ascii7 (n : Z) : all_chars is_ascii7 (format_d0 0 n) = true.
Proof. unfold format_d0. destruct (n <? 0); cbn [String.append all_chars]; apply digits_fixed_ascii7. Qed.

Lemma escape_char_ascii7 (c : ascii) :
  is_ascii7 c = true -> all_chars is_ascii7 (escape_char c) = true.
Proof. destruct c as [[] [] [] [] [] [] [] []]; intros H; first [reflexivity | discriminate H]. Qed.

Lemma escape_string_ascii7 (s : string) :
  all_chars is_ascii7 s = true -> all_chars is_ascii7 (escape_string s) = true.
Proof.
  induction s as [| c s IH]; [reflexivity |]. cbn [all_chars escape_string].
  intros H. apply andb_prop in H as [Hc Hs]. rewrite all_chars_app, escape_char_ascii7, IH; auto.
Qed.

Lemma encode_basestring_ascii7 (s : string) :
  all_chars is_ascii7 s = true -> all_chars is_ascii7 (encode_basestring s) = true.
Proof. intros H. unfold encode_basestring. rewrite !all_chars_app, escape_string_ascii7; auto. Qed.

Lemma dumps_ascii7 (j : json) : wf_json j = true -> all_chars is_ascii7 (dumps j) = true.
Proof.
  induction j as [| b | n | s | l IHl | m IHm] using json_nested_ind; intros Hwf.
  - reflexivity.
  - destruct b; reflexivity.
  - apply format_d0_ascii7.
  - apply encode_basestring_ascii7, Hwf.
  - cbn [wf_json] in Hwf. rewrite dumps_arr, !all_chars_app.
    change (all_chars is_ascii7 "[") with true. change (all_chars is_ascii7 "]") with true.
    rewrite andb_true_r. cbn [andb].
    induction l as [| x l IH]; [reflexivity |].
    apply Forall_cons_iff in IHl as [Hx Hl]. cbn [forallb] in Hwf. apply andb_prop in Hwf as [Wx Wl].
    destruct l as [| y l]; [apply Hx, Wx |].
    change (dumps_items (x :: y :: l)) with (dumps x ++ "," ++ dumps_items (y :: l)).
    rewrite !all_chars_app, Hx, IH; auto.
  - cbn [wf_json] in Hwf. apply andb_prop in Hwf as [Wm _].
    rewrite dumps_obj, !all_chars_app.
    change (all_chars is_ascii7 "{") with true. change (all_chars is_ascii7 "}") with true.
    rewrite andb_true_r. cbn [andb].
    induction m as [| [k x] m IH]; [reflexivity |].
    apply Forall_cons_iff in IHm as [Hx Hm]. cbn [forallb fst snd] in Wm, Hx.
    apply andb_prop in Wm as [Wkx Wm]. apply andb_prop in Wkx as [Wk Wx].
    destruct m as [| kv m].
    + change (dumps_members [(k, x)]) with (encode_basestring k ++ ":" ++ dumps x).
      rewrite !all_chars_app, encode_basestring_ascii7, Hx; auto.
    + change (dumps_members ((k, x) :: kv :: m))
        with (encode_basestring k ++ ":" ++ dumps x ++ "," ++ dumps_members (kv :: m)).
      rewrite !all_chars_app, encode_basestring_ascii7, Hx, IH; auto.
Qed.

Lemma iso_text_ascii7 (dt : datetime) : all_chars is_ascii7 (iso_text dt) = true.
Proof.
  unfold iso_text, iso_date_time, iso_fraction.
  rewrite !all_chars_app, !digits_fixed_ascii7.
  destruct (microsecond dt =? 0); rewrite ?all_chars_app, ?digits_fixed_ascii7; reflexivity.
Qed.

Lemma loads_dumps_wf (j : json) : wf_json j = true -> loads (dumps j) = Some j.
Proof.
  intros Hwf. unfold loads. rewrite dumps_ascii7 by exact Hwf. cbn [negb].
  pose proof (skip_ws_dumps j "") as Hs. rewrite string_app_nil_r in Hs. rewrite Hs.
  destruct (parse_dumps j Hwf "" I) as [f Ef]. rewrite string_app_nil_r in Ef.
  rewrite (parse_value_fuel_free _ _ _ Ef). reflexivity.
Qed.

(** ** Theorems *)

(** C37 (roundtrip): [json.loads] reads back what [json.dumps] writes:
    every value with ASCII strings and distinct keys. *)
Theorem loads_dumps (j : json) : wf_json j = true -> loads (dumps j) = Some j.
Proof. apply loads_dumps_wf. Qed.

(** Termination of the decoder: it needs no more fuel than twice the
    length of its input: any larger fuel gives the result [loads] computes
    with. *)
Theorem parse_value_fuel_enough (s : string) (f : nat) :
  (2 * String.length s < f)%nat -> parse_value f s = parse_value (2 * String.length s + 2) s.
Proof.
  intros Hf. rewrite (parse_value_fuel_from s f Hf), (parse_value_fuel_from s (2 * String.length s + 2))
    by lia. reflexivity.
Qed.

Section EndToEnd.
Context {S : Type} `{TimeSourceLaws S}.

(** C39 (functional): the spec's first testable property, end to end: the
    response to [GET /datetime] is a 200 whose body [json.loads] reads as
    an object with the one key [current_datetime], whose value the ISO
    parser reads back as the datetime the clock gave. *)
Theorem datetime_body_loads (req : request) (s : S) (dt : datetime) :
  req_method req = "GET" -> req_path req = "/datetime" -> clock_read s = Ok dt ->
  status (app req s) = 200
  /\ exists b, resp_body (app req s) = Bytes b
     /\ loads b = Some (JObj [("current_datetime", JStr (iso_text dt))])
     /\ parse_iso (iso_text dt) = Some dt.
Proof.
  intros Hm Hp E. rewrite (datetime_endpoint req s dt Hm Hp E).
  split; [reflexivity |]. eexists. split; [reflexivity |]. split.
  - unfold datetime_body. rewrite <- (dumps_single_member "current_datetime" (iso_text dt))
      by (reflexivity || apply iso_text_plain).
    apply loads_dumps_wf. cbn [wf_json forallb fst snd keys_distinct].
    rewrite iso_text_ascii7. reflexivity.
  - apply parse_iso_text. eapply read_valid. exact E.
Qed.
End EndToEnd.

(** ** Witnesses *)

Lemma loads_dumps_witness :
  wf_json (JObj [("current_datetime", JStr "2024-01-15T10:30:00.123456"); ("n", JArr [JInt (-7)])]) = true
  /\ loads (dumps (JObj [("current_datetime", JStr "2024-01-15T10:30:00.123456"); ("n", JArr [JInt (-7)])]))
     = Some (JObj [("current_datetime", JStr "2024-01-15T10:30:00.123456"); ("n", JArr [JInt (-7)])]).
Proof.
  assert (H : wf_json (JObj [("current_datetime", JStr "2024-01-15T10:30:00.123456");
                             ("n", JArr [JInt (-7)])]) = true) by reflexivity.
  split; [exact H | exact (loads_dumps _ H)].
Defined.

Lemma parse_value_fuel_enough_witness :
  (2 * String.length "[1, [2]]" < 100)%nat
  /\ parse_value 100 "[1, [2]]" = parse_value (2 * String.length "[1, [2]]" + 2) "[1, [2]]".
Proof.
  assert (H : (2 * String.length "[1, [2]]" < 100)%nat) by (simpl; lia).
  split; [exact H | exact (parse_value_fuel_enough _ _ H)].
Defined.

Lemma datetime_body_loads_witness :
  req_method (get "/datetime") = "GET" /\ req_path (get "/datetime") = "/datetime"
  /\ clock_read scenario_clock = Ok scenario_dt
  /\ status (app (get "/datetime") scenario_clock) = 200
  /\ exists b, resp_body (app (get "/datetime") scenario_clock) = Bytes b
     /\ loads b = Some (JObj [("current_datetime", JStr (iso_text scenario_dt))])
     /\ parse_iso (iso_text scenario_dt) = Some scenario_dt.
Proof.
  assert (E : clock_read scenario_clock = Ok scenario_dt) by (vm_compute; reflexivity).
  split; [reflexivity | split; [reflexivity | split; [exact E |]]].
  exact (datetime_body_loads (get "/datetime") scenario_clock scenario_dt eq_refl eq_refl E).
Defined.
