(* ===== verification/Server.v ===== *)
(** * Server: uvicorn serving the application

    [src/python-API/app.py] lines 11-13: when the file runs as a script,
    [uvicorn.run(app, host="0.0.0.0", port=8000)] binds a listening socket
    and serves requests until the process is stopped.  uvicorn's
    [Server.startup] exits the process with status 1 when the bind fails
    (an [OSError], e.g. the port is in use); a port outside [0..65535] is
    refused by [socket.bind] with [OverflowError].

    Serving is modelled as a step relation on the server's state: the
    clock ([SystemClock] of [Clock]), the requests accepted and not yet
    handled, the responses computed and not yet sent (both [gmap]s keyed
    by a connection id), and the log of responses sent, in order.  The
    steps interleave freely: a request arrives, the clock advances, a
    worker handles a request (one call of [app] in the current clock
    state: the sync handler runs in a thread of the pool, and the
    protocol's [RequestResponseCycle] writes the response through
    [Http.serve] with the server's current default headers), a response
    is sent, or uvicorn's [Server.on_tick] (once a second) refreshes the
    default headers [date] and [server] from the clock.  The flag [adj] allows steps that set the clock to any value
    (an administrator or NTP stepping it back).

    Theorems, by induction on the steps: every response is [app] applied
    to its own request and to the clock at the moment it was handled
    (no cross-contamination, whatever the interleaving), and its bytes
    on the wire are the HTTP/1.1 message of that response with the
    default headers of a tick no later than its handling, or none before
    the first tick ([sent_bytes_on_wire]); the bookkeeping of
    connection ids ([ids_ok]) makes every request answered at most once
    ([request_answered_once]), and from every reachable state the
    requests in flight and handled can all be answered
    ([all_requests_answered], by induction on the maps); without clock
    adjustments and in a zone whose offset never falls, a request issued
    after another's response was sent gets a datetime, and an ISO text,
    that is not earlier.  The zone condition is needed: in every zone that
    falls back there is a run without clock adjustment in which the second
    response is earlier than the first ([fall_back_requests_go_back]). *)

From Stdlib Require Import ZArith String Lia.
From stdpp Require Import base gmap.
From S2P Require Import Prelude DateTime IsoFormat Clock Json App Http.

Local Open Scope string_scope.
Local Open Scope Z_scope.

(** ** Startup *)

Record config : Type := mk_config { cfg_host : string; cfg_port : Z }.

(** [uvicorn.run(app, host="0.0.0.0", port=8000)]. *)
Definition main_config : config := mk_config "0.0.0.0" 8000.

Inductive startup : Type :=
| Listening (cfg : config)
| StartupFailed (exit_code : Z) (message : string).

(** [Server.startup]: bind, or exit with status 1. [in_use] are the ports
    other sockets already hold on the address. *)
Definition uvicorn_startup (cfg : config) (in_use : list Z) : startup :=
  if negb ((0 <=? cfg_port cfg) && (cfg_port cfg <=? 65535))
  then StartupFailed 1 "OverflowError: bind(): port must be 0-65535."
  else if existsb (Z.eqb (cfg_port cfg)) in_use
  then StartupFailed 1 ("[Errno 98] error while attempting to bind on address ('"
                         ++ cfg_host cfg ++ "', " ++ str_int (cfg_port cfg)
                         ++ "): address already in use")
  else Listening cfg.

(** [if __name__ == "__main__": uvicorn.run(...)]: nothing is started when
    the module is imported (by [uvicorn app:app], for instance). *)
Definition main (module_name : string) (in_use : list Z) : option startup :=
  if String.eqb module_name "__main__" then Some (uvicorn_startup main_config in_use) else None.

(** ** Serving *)

(** A request accepted on a connection: its scope, when it arrived,
    whether it carried [connection: close], and whether the connection is
    kept alive (HTTP/1.1). *)
Record pending : Type := mk_pending {
  p_req : request; p_arrival : Z; p_close : bool; p_keep_alive : bool
}.

(** A request handled: the response value, the default headers its cycle
    had, and the cycle after [run_asgi] ([None] for a documentation page,
    whose body is not modelled). *)
Record handled : Type := mk_handled {
  h_req : request; h_arrival : Z; h_handled : Z; h_resp : response;
  h_close : bool; h_keep_alive : bool; h_headers : list (string * string); h_wire : option cycle
}.

Record sent : Type := mk_sent {
  s_id : nat; s_req : request; s_arrival : Z; s_handled : Z; s_sent : Z; s_resp : response;
  s_close : bool; s_keep_alive : bool; s_headers : list (string * string); s_wire : option cycle
}.

(** The server: the clock, the requests in flight and handled (keyed by a
    connection id), the log of responses sent, and
    [server_state.default_headers], which [Server.on_tick] refreshes. *)
Record server_state : Type := mk_state {
  st_clock : SystemClock;
  st_inflight : gmap nat pending;
  st_done : gmap nat handled;
  st_log : list sent;
  st_headers : list (string * string)
}.

Definition now_ns (st : server_state) : Z := clock_ns (st_clock st).

Definition set_ns (c : SystemClock) (ns : Z) : SystemClock := mk_clock ns (tz c).

(** An id not used by any request of the state. *)
Definition fresh_id (st : server_state) (id : nat) : Prop :=
  st_inflight st !! id = None /\ st_done st !! id = None
  /\ Forall (fun e => s_id e <> id) (st_log st).

(** A worker runs [app] on a request in the current clock state, through
    a cycle holding the server's current default headers: the start and
    the body are written while the application runs. *)
Definition handle_pending (st : server_state) (p : pending) : handled :=
  mk_handled (p_req p) (p_arrival p) (now_ns st) (app (p_req p) (st_clock st))
    (p_close p) (p_keep_alive p) (st_headers st)
    (serve (p_req p) (st_clock st) (p_close p) (p_keep_alive p) (st_headers st)).

(** The response of a handled request leaves, at the current time. *)
Definition send_handled (st : server_state) (id : nat) (h : handled) : sent :=
  mk_sent id (h_req h) (h_arrival h) (h_handled h) (now_ns st) (h_resp h)
    (h_close h) (h_keep_alive h) (h_headers h) (h_wire h).

Inductive step (adj : bool) : server_state -> server_state -> Prop :=
| step_arrive st id req ck ka :
    fresh_id st id ->
    step adj st (mk_state (st_clock st)
                          (<[id := mk_pending req (now_ns st) ck ka]> (st_inflight st))
                          (st_done st) (st_log st) (st_headers st))
| step_tick st d :
    0 <= d ->
    step adj st (mk_state (set_ns (st_clock st) (now_ns st + d)) (st_inflight st)
                          (st_done st) (st_log st) (st_headers st))
| step_adjust st ns :
    adj = true ->
    step adj st (mk_state (set_ns (st_clock st) ns) (st_inflight st) (st_done st) (st_log st)
                          (st_headers st))
(* When [time.time()] raises (a reading past the int64 range), the
   exception leaves [Server.main_loop] and [uvicorn.run]: the process
   ends.  There is no step for it, so the runs of the process are the
   runs of [step] cut where such a tick falls due. *)
| step_on_tick st dh :
    default_headers (st_clock st) = Ok dh ->
    step adj st (mk_state (st_clock st) (st_inflight st) (st_done st) (st_log st) dh)
| step_handle st id p :
    st_inflight st !! id = Some p ->
    step adj st (mk_state (st_clock st) (delete id (st_inflight st))
                          (<[id := handle_pending st p]> (st_done st)) (st_log st)
                          (st_headers st))
| step_send st id h :
    st_done st !! id = Some h ->
    step adj st (mk_state (st_clock st) (st_inflight st) (delete id (st_done st))
                          (st_log st ++ [send_handled st id h]) (st_headers st)).

(** The process starts with nothing in flight and no default headers
    before the first tick. *)
Definition init_state (c : SystemClock) : server_state := mk_state c ∅ ∅ [] [].

Inductive reachable (adj : bool) (c0 : SystemClock) : server_state -> Prop :=
| reach_init : reachable adj c0 (init_state c0)
| reach_step st st' : reachable adj c0 st -> step adj st st' -> reachable adj c0 st'.

(** ** The invariant *)

(** The response computed for [req] when the clock read [t] nanoseconds. *)
Definition answer (z : zone) (req : request) (t : Z) : response := app req (mk_clock t z).

(** Default headers a cycle can hold at time [t]: none before the first
    tick, else the headers of a tick no later than [t] (when the clock is
    not adjusted); they are plain. *)
Definition tick_headers (adj : bool) (hs : list (string * string)) (t : Z) : Prop :=
  forallb plain_header hs = true
  /\ (hs = [] \/ exists u, default_headers u = Ok hs /\ (adj = false -> clock_ns u <= t)).

(** What holds of a handled request: its response is [app] of its own
    request at its handling time, written through a cycle with the
    headers it had; and its times are in order. *)
Record handled_ok (adj : bool) (off : zone) (now : Z) (h : handled) : Prop := {
  ho_resp : h_resp h = answer off (h_req h) (h_handled h);
  ho_wire : h_wire h = serve (h_req h) (mk_clock (h_handled h) off) (h_close h) (h_keep_alive h)
                         (h_headers h);
  ho_headers : tick_headers adj (h_headers h) (h_handled h);
  ho_times : adj = false -> h_arrival h <= h_handled h <= now
}.

Record sent_ok (adj : bool) (off : zone) (now : Z) (e : sent) : Prop := {
  so_resp : s_resp e = answer off (s_req e) (s_handled e);
  so_wire : s_wire e = serve (s_req e) (mk_clock (s_handled e) off) (s_close e) (s_keep_alive e)
                         (s_headers e);
  so_headers : tick_headers adj (s_headers e) (s_handled e);
  so_times : adj = false -> s_arrival e <= s_handled e /\ s_handled e <= s_sent e /\ s_sent e <= now
}.

Definition server_inv (adj : bool) (off : zone) (st : server_state) : Prop :=
  tz (st_clock st) = off
  /\ map_Forall (fun _ p => adj = false -> p_arrival p <= now_ns st) (st_inflight st)
  /\ map_Forall (fun _ h => handled_ok adj off (now_ns st) h) (st_done st)
  /\ Forall (sent_ok adj off (now_ns st)) (st_log st)
  /\ tick_headers adj (st_headers st) (now_ns st).

(** The bookkeeping of request ids: no id is answered twice, an id in
    flight is neither handled nor answered, and a handled id is not yet
    answered. *)
Definition ids_ok (st : server_state) : Prop :=
  NoDup (map s_id (st_log st))
  /\ (forall id p, st_inflight st !! id = Some p ->
                   st_done st !! id = None /\ ~ In id (map s_id (st_log st)))
  /\ (forall id h, st_done st !! id = Some h -> ~ In id (map s_id (st_log st))).

Lemma clock_eta (c : SystemClock) : c = mk_clock (clock_ns c) (tz c).
Proof. destruct c. reflexivity. Qed.

(** The clock only moves forward, unless adjusting it is allowed. *)
Lemma step_clock_forward (adj : bool) (st st' : server_state) :
  step adj st st' -> adj = false -> now_ns st <= now_ns st'.
Proof.
  intros Hs Ha. destruct Hs; unfold now_ns in *; simpl; try lia; congruence.
Qed.

Lemma step_offset (adj : bool) (st st' : server_state) :
  step adj st st' -> tz (st_clock st') = tz (st_clock st).
Proof. intros Hs. destruct Hs; reflexivity. Qed.

Lemma tick_headers_mono (adj : bool) (hs : list (string * string)) (t t' : Z) :
  (adj = false -> t <= t') -> tick_headers adj hs t -> tick_headers adj hs t'.
Proof.
  intros Ht [Hp [E | (u & Hu & Hle)]]; split; auto.
  right. exists u. split; [exact Hu |]. intros Ha. specialize (Ht Ha). specialize (Hle Ha). lia.
Qed.

Lemma handled_ok_mono (adj : bool) (off : zone) (now now' : Z) (h : handled) :
  (adj = false -> now <= now') -> handled_ok adj off now h -> handled_ok adj off now' h.
Proof.
  intros Ht [Hr Hw Hh Hti]. split; auto.
  intros Ha. specialize (Ht Ha). specialize (Hti Ha). lia.
Qed.

Lemma sent_ok_mono (adj : bool) (off : zone) (now now' : Z) (e : sent) :
  (adj = false -> now <= now') -> sent_ok adj off now e -> sent_ok adj off now' e.
Proof.
  intros Ht [Hr Hw Hh Hti]. split; auto.
  intros Ha. specialize (Ht Ha). specialize (Hti Ha). lia.
Qed.

(** The parts of the state a step does not touch keep their invariant as
    the clock moves forward. *)
Lemma inv_mono (adj : bool) (off : zone) (st st' : server_state) :
  (adj = false -> now_ns st <= now_ns st') ->
  map_Forall (fun _ p => adj = false -> p_arrival p <= now_ns st) (st_inflight st) ->
  map_Forall (fun _ h => handled_ok adj off (now_ns st) h) (st_done st) ->
  Forall (sent_ok adj off (now_ns st)) (st_log st) ->
  tick_headers adj (st_headers st) (now_ns st) ->
  map_Forall (fun _ p => adj = false -> p_arrival p <= now_ns st') (st_inflight st)
  /\ map_Forall (fun _ h => handled_ok adj off (now_ns st') h) (st_done st)
  /\ Forall (sent_ok adj off (now_ns st')) (st_log st)
  /\ tick_headers adj (st_headers st) (now_ns st').
Proof.
  intros Ht Hin Hdone Hlog Hhd. split; [| split; [| split]].
  - eapply map_Forall_impl; [exact Hin |]. intros i p Hp Ha. specialize (Ht Ha). specialize (Hp Ha). lia.
  - eapply map_Forall_impl; [exact Hdone |]. intros i h. apply handled_ok_mono, Ht.
  - eapply Forall_impl; [exact Hlog |]. intros e. apply sent_ok_mono, Ht.
  - eapply tick_headers_mono; [exact Ht | exact Hhd].
Qed.

Lemma step_preserves_inv (adj : bool) (off : zone) (st st' : server_state) :
  step adj st st' -> server_inv adj off st -> server_inv adj off st'.
Proof.
  intros Hs (Ho & Hin & Hdone & Hlog & Hhd).
  pose proof (step_offset adj st st' Hs) as Ho'.
  pose proof (step_clock_forward adj st st' Hs) as Hf.
  destruct (inv_mono adj off st st' Hf Hin Hdone Hlog Hhd) as (Hin' & Hdone' & Hlog' & Hhd').
  destruct Hs as [st id req ck ka Hfresh | st d Hd | st ns Ha | st dh Hdh | st id p Hp | st id h Hh];
    unfold server_inv; cbn [st_clock st_inflight st_done st_log st_headers] in *;
    (split; [congruence |]).
  - split; [apply map_Forall_insert_2; [intros _; unfold now_ns; simpl; lia | exact Hin] |]. auto.
  - auto.
  - auto.
  - split; [exact Hin |]. split; [exact Hdone |]. split; [exact Hlog |].
    split; [exact (default_headers_plain _ _ Hdh) |]. right. exists (st_clock st).
    split; [exact Hdh | intros _; unfold now_ns; simpl; lia].
  - split; [apply map_Forall_delete; exact Hin |]. split; [| auto].
    apply map_Forall_insert_2; [| exact Hdone].
    unfold handle_pending, answer. rewrite (clock_eta (st_clock st)), Ho. split; cbn; auto.
    intros Ha. split; [| unfold now_ns; lia]. exact (map_Forall_lookup_1 _ _ _ _ Hin Hp Ha).
  - split; [exact Hin |]. split; [apply map_Forall_delete; exact Hdone |]. split; [| exact Hhd].
    apply Forall_app_2; [exact Hlog |]. constructor; [| constructor].
    destruct (map_Forall_lookup_1 _ _ _ _ Hdone Hh) as [Hr Hw Hhh Ht].
    split; cbn; auto. intros Ha. specialize (Ht Ha). unfold now_ns in *. simpl. lia.
Qed.

Lemma reachable_inv (adj : bool) (c0 : SystemClock) (st : server_state) :
  reachable adj c0 st -> server_inv adj (tz c0) st.
Proof.
  induction 1 as [| st st' Hr IH Hs].
  - refine (conj eq_refl (conj _ (conj _ (conj _ _))));
      [apply map_Forall_empty | apply map_Forall_empty | constructor | split; auto].
  - exact (step_preserves_inv adj _ st st' Hs IH).
Qed.

(** Each step keeps the bookkeeping of ids. *)
Lemma step_ids_ok (adj : bool) (st st' : server_state) : step adj st st' -> ids_ok st -> ids_ok st'.
Proof.
  intros Hs (Hnd & Hin & Hdn). unfold ids_ok.
  destruct Hs as [st id req ck ka Hf | st d _ | st ns _ | st dh _ | st id p Hp | st id h Hh];
    cbn [st_log st_inflight st_done]; try (split; [exact Hnd | split; assumption]).
  - destruct Hf as (Hfi & Hfd & Hfl). split; [exact Hnd | split; [| exact Hdn]].
    intros id' p'. rewrite lookup_insert. case_decide as E; [subst id'; intros _ | apply Hin].
    split; [exact Hfd |]. rewrite in_map_iff. intros (e & He & Hin').
    exact (proj1 (List.Forall_forall _ _) Hfl e Hin' He).
  - split; [exact Hnd | split].
    + intros id' p'. rewrite lookup_delete. case_decide as E; [discriminate | intros Hp'].
      rewrite lookup_insert. case_decide; [contradiction | exact (Hin _ _ Hp')].
    + intros id' h'. rewrite lookup_insert. case_decide as E; [subst id'; intros _ | apply Hdn].
      exact (proj2 (Hin _ _ Hp)).
  - rewrite map_app. cbn [map send_handled s_id]. split.
    { apply NoDup_app. split; [exact Hnd |]. split; [| apply NoDup_singleton].
      intros x Hx Hx'. apply list_elem_of_singleton in Hx' as ->.
      apply (Hdn _ _ Hh), list_elem_of_In, Hx. }
    split.
    + intros id' p' Hp'. rewrite lookup_delete, in_app_iff. destruct (Hin _ _ Hp') as [Hd Hl].
      case_decide as E; [subst id'; congruence |]. split; [exact Hd |].
      intros [H | [E' | []]]; [exact (Hl H) | congruence].
    + intros id' h'. rewrite lookup_delete, in_app_iff. case_decide as E; [discriminate |].
      intros Hd [H | [E' | []]]; [exact (Hdn _ _ Hd H) | congruence].
Qed.

Lemma reachable_ids_ok (adj : bool) (c0 : SystemClock) (st : server_state) :
  reachable adj c0 st -> ids_ok st.
Proof.
  induction 1 as [| st st' Hr IH Hs]; [| exact (step_ids_ok adj st st' Hs IH)].
  split; [apply NoDup_nil_2 | split; intros id x; cbn [st_inflight st_done init_state];
                               rewrite lookup_empty; discriminate].
Qed.

(** A request is answered at most once, and not before it is handled. *)
Lemma reachable_answered_once (adj : bool) (c0 : SystemClock) (st : server_state) :
  reachable adj c0 st ->
  NoDup (map s_id (st_log st))
  /\ (forall id p, st_inflight st !! id = Some p -> ~ In id (map s_id (st_log st)))
  /\ (forall id h, st_done st !! id = Some h -> ~ In id (map s_id (st_log st))).
Proof.
  intros Hr. destruct (reachable_ids_ok adj c0 st Hr) as (Hnd & Hin & Hdn).
  split; [exact Hnd | split; [intros id p Hp; exact (proj2 (Hin _ _ Hp)) | exact Hdn]].
Qed.

(** The handled requests can all be sent, one step each, in any order
    the map gives; nothing else changes but the log, which grows. *)
Lemma drain_done (adj : bool) (m : gmap nat handled) :
  forall st, st_done st = m ->
  exists st', rtc (step adj) st st' /\ st_inflight st' = st_inflight st /\ st_done st' = ∅
    /\ (exists l, st_log st' = (st_log st ++ l)%list)
    /\ (forall id h, m !! id = Some h ->
          exists e, In e (st_log st') /\ s_id e = id /\ s_resp e = h_resp h).
Proof.
  induction m as [| i x m Hi IH] using map_ind; intros st Hm.
  - exists st. split; [apply rtc_refl |]. split; [reflexivity |]. split; [exact Hm |].
    split; [exists []; rewrite app_nil_r; reflexivity |]. intros id h. rewrite lookup_empty.
    discriminate.
  - set (st1 := mk_state (st_clock st) (st_inflight st) (delete i (st_done st))
                         (st_log st ++ [send_handled st i x])%list (st_headers st)).
    assert (Hs : step adj st st1).
    { apply step_send. rewrite Hm. apply lookup_insert_Some. left. split; reflexivity. }
    destruct (IH st1) as (st' & Hr & Hi' & Hd' & (l & Hl) & Hall).
    { cbn [st1 st_done]. rewrite Hm. apply delete_insert_id, Hi. }
    exists st'. split; [exact (rtc_l _ _ _ _ Hs Hr) |]. split; [exact Hi' |]. split; [exact Hd' |].
    split; [exists ([send_handled st i x] ++ l)%list; rewrite Hl; cbn [st1 st_log];
            rewrite app_assoc; reflexivity |].
    intros id h. rewrite lookup_insert_Some. intros [[<- <-] | [_ Hh]]; [| exact (Hall _ _ Hh)].
    exists (send_handled st i x). split; [| split; reflexivity].
    rewrite Hl. cbn [st1 st_log]. apply in_app_iff. left. apply in_app_iff. right. left. reflexivity.
Qed.

(** The requests in flight can all be handled and sent, two steps each;
    the handled ones stay as they are. *)
Lemma drain_inflight (adj : bool) (m : gmap nat pending) :
  forall st, st_inflight st = m -> ids_ok st ->
  exists st', rtc (step adj) st st' /\ st_inflight st' = ∅ /\ st_done st' = st_done st
    /\ (exists l, st_log st' = (st_log st ++ l)%list)
    /\ (forall id p, m !! id = Some p ->
          exists e, In e (st_log st') /\ s_id e = id /\ s_req e = p_req p).
Proof.
  induction m as [| i x m Hi IH] using map_ind; intros st Hm Hok.
  - exists st. split; [apply rtc_refl |]. split; [exact Hm |]. split; [reflexivity |].
    split; [exists []; rewrite app_nil_r; reflexivity |]. intros id p. rewrite lookup_empty.
    discriminate.
  - assert (Hx : st_inflight st !! i = Some x)
      by (rewrite Hm; apply lookup_insert_Some; left; split; reflexivity).
    set (st1 := mk_state (st_clock st) (delete i (st_inflight st))
                         (<[i := handle_pending st x]> (st_done st)) (st_log st) (st_headers st)).
    set (st2 := mk_state (st_clock st1) (st_inflight st1) (delete i (st_done st1))
                         (st_log st1 ++ [send_handled st1 i (handle_pending st x)])%list (st_headers st1)).
    assert (Hs1 : step adj st st1) by (apply step_handle, Hx).
    assert (Hs2 : step adj st1 st2)
      by (apply step_send; cbn [st1 st_done]; apply lookup_insert_Some; left; split; reflexivity).
    destruct (IH st2) as (st' & Hr & Hi' & Hd' & (l & Hl) & Hall).
    { cbn [st2 st1 st_inflight]. rewrite Hm. apply delete_insert_id, Hi. }
    { exact (step_ids_ok _ _ _ Hs2 (step_ids_ok _ _ _ Hs1 Hok)). }
    assert (Hd2 : st_done st2 = st_done st).
    { cbn [st2 st1 st_done]. apply delete_insert_id. destruct Hok as (_ & Hin & _).
      exact (proj1 (Hin _ _ Hx)). }
    exists st'. split; [exact (rtc_l _ _ _ _ Hs1 (rtc_l _ _ _ _ Hs2 Hr)) |].
    split; [exact Hi' |]. split; [rewrite Hd'; exact Hd2 |].
    split; [exists ([send_handled st1 i (handle_pending st x)] ++ l)%list; rewrite Hl;
            cbn [st2 st1 st_log]; rewrite app_assoc; reflexivity |].
    intros id p. rewrite lookup_insert_Some. intros [[<- <-] | [_ Hp]]; [| exact (Hall _ _ Hp)].
    exists (send_handled st1 i (handle_pending st x)). split; [| split; reflexivity].
    rewrite Hl. cbn [st2 st_log]. apply in_app_iff. left. apply in_app_iff. right. left. reflexivity.
Qed.

(** From a reachable state the server can answer every request it holds:
    the requests in flight are handled and sent, then the handled ones
    are sent. *)
Lemma reachable_drain (adj : bool) (c0 : SystemClock) (st : server_state) :
  reachable adj c0 st ->
  exists st', rtc (step adj) st st' /\ st_inflight st' = ∅ /\ st_done st' = ∅
    /\ (exists l, st_log st' = (st_log st ++ l)%list)
    /\ (forall id p, st_inflight st !! id = Some p ->
          exists e, In e (st_log st') /\ s_id e = id /\ s_req e = p_req p)
    /\ (forall id h, st_done st !! id = Some h ->
          exists e, In e (st_log st') /\ s_id e = id /\ s_resp e = h_resp h).
Proof.
  intros Hr.
  destruct (drain_inflight adj (st_inflight st) st eq_refl (reachable_ids_ok adj c0 st Hr))
    as (st1 & R1 & Hi1 & Hd1 & (l1 & Hl1) & Hall1).
  destruct (drain_done adj (st_done st1) st1 eq_refl) as (st2 & R2 & Hi2 & Hd2 & (l2 & Hl2) & Hall2).
  exists st2. split; [etrans; [exact R1 | exact R2] |].
  split; [rewrite Hi2; exact Hi1 |]. split; [exact Hd2 |].
  split; [exists (l1 ++ l2)%list; rewrite Hl2, Hl1, app_assoc; reflexivity |]. split.
  - intros id p Hp. destruct (Hall1 _ _ Hp) as (e & He & E). exists e. split; [| exact E].
    rewrite Hl2. apply in_app_iff. left. exact He.
  - intros id h Hh. rewrite <- Hd1 in Hh. exact (Hall2 _ _ Hh).
Qed.

(** ** Theorems *)

(** Every response in the log of a reachable state meets [sent_ok]. *)
Lemma sent_ok_reachable (adj : bool) (c0 : SystemClock) (st : server_state) (e : sent) :
  reachable adj c0 st -> In e (st_log st) -> sent_ok adj (tz c0) (now_ns st) e.
Proof.
  intros Hr Hin. destruct (reachable_inv adj c0 st Hr) as (_ & _ & _ & Hlog & _).
  rewrite List.Forall_forall in Hlog. exact (Hlog e Hin).
Qed.

Lemma sent_entry_inv (adj : bool) (c0 : SystemClock) (st : server_state) (e : sent) :
  reachable adj c0 st -> In e (st_log st) ->
  s_resp e = answer (tz c0) (s_req e) (s_handled e)
  /\ (adj = false -> s_arrival e <= s_handled e /\ s_handled e <= s_sent e).
Proof.
  intros Hr Hin. destruct (sent_ok_reachable adj c0 st e Hr Hin) as [He _ _ Ht].
  split; [exact He |]. intros Ha. specialize (Ht Ha). lia.
Qed.

(** What went on the wire for a response of the log: the HTTP/1.1
    message of the response, with the default headers of a tick no later
    than its handling. *)
Lemma sent_wire_inv (adj : bool) (c0 : SystemClock) (st : server_state) (e : sent) (b : string) :
  reachable adj c0 st -> In e (st_log st) -> resp_body (s_resp e) = Bytes b ->
  (exists cy, s_wire e = Some cy
     /\ cy_written cy = wire_bytes (req_method (s_req e)) (s_headers e) (s_close e) (s_resp e) b
     /\ cy_response_complete cy = true)
  /\ (s_headers e = [] \/ exists u, default_headers u = Ok (s_headers e) /\ (adj = false -> clock_ns u <= s_handled e)).
Proof.
  intros Hr Hin Hb. destruct (sent_ok_reachable adj c0 st e Hr Hin) as [He Hw [Hp Hh] _].
  split; [| exact Hh]. rewrite He in Hb |- *. unfold answer in *. rewrite Hw.
  destruct (serve_wire_plain (s_req e) (mk_clock (s_handled e) (tz c0)) (s_headers e) (s_close e)
              (s_keep_alive e) b Hp Hb) as (cy & E & W & C & _).
  exists cy. auto.
Qed.

(** C3 (safety): whatever the interleaving of arrivals, clock changes,
    handling and sending, every response sent is [app] applied to its own
    request and to the clock at the moment that request was handled: no
    response carries another request's value. *)
Theorem sent_response_is_own_answer (adj : bool) (c0 : SystemClock) (st : server_state) (e : sent) :
  reachable adj c0 st -> In e (st_log st) ->
  s_resp e = app (s_req e) (mk_clock (s_handled e) (tz c0)).
Proof. intros Hr Hin. exact (proj1 (sent_entry_inv adj c0 st e Hr Hin)). Qed.

(** C2 (functional): under any interleaving, each [GET /datetime] sent is a
    200 whose body is [{"current_datetime":"<ISO text>"}] of the local
    time at which it was handled. *)
Theorem concurrent_datetime_response (adj : bool) (c0 : SystemClock) (st : server_state)
    (e : sent) (dt : datetime) :
  reachable adj c0 st -> In e (st_log st) ->
  req_method (s_req e) = "GET" -> req_path (s_req e) = "/datetime" ->
  datetime_now (mk_clock (s_handled e) (tz c0)) = Ok dt ->
  s_resp e = mk_response 200
               [("content-length", if microsecond dt =? 0 then "42" else "49");
                ("content-type", "application/json")]
               (Bytes (datetime_body (iso_text dt))).
Proof.
  intros Hr Hin Hm Hp Hd. rewrite (proj1 (sent_entry_inv adj c0 st e Hr Hin)).
  apply datetime_endpoint; assumption.
Qed.

(** C4 (invariant): when the clock is not set back and the zone's offset
    never falls, a [GET /datetime] issued after another one's response was
    sent gets a datetime that is not earlier, and an ISO text that is not
    smaller as a string. *)
Theorem sequential_requests_monotone (c0 : SystemClock) (st : server_state) (e1 e2 : sent)
    (dt1 dt2 : datetime) :
  no_fall_back (tz c0) ->
  reachable false c0 st -> In e1 (st_log st) -> In e2 (st_log st) ->
  s_sent e1 <= s_arrival e2 ->
  datetime_now (mk_clock (s_handled e1) (tz c0)) = Ok dt1 ->
  datetime_now (mk_clock (s_handled e2) (tz c0)) = Ok dt2 ->
  dt_le dt1 dt2 /\ String.compare (iso_text dt1) (iso_text dt2) <> Gt.
Proof.
  intros Hm Hr H1 H2 Horder Hd1 Hd2.
  destruct (sent_entry_inv false c0 st e1 Hr H1) as [_ T1].
  destruct (sent_entry_inv false c0 st e2 Hr H2) as [_ T2].
  specialize (T1 eq_refl). specialize (T2 eq_refl).
  assert (Hle : dt_le dt1 dt2).
  { eapply (read_monotone (mk_clock (s_handled e1) (tz c0))
                          (mk_clock (s_handled e2) (tz c0))); [| exact Hd1 | exact Hd2].
    simpl. split; [reflexivity | split; [exact Hm | lia]]. }
  split; [exact Hle |].
  rewrite iso_text_compare by (eapply read_valid; eassumption). exact Hle.
Qed.

(** C24 (safety): no request is answered twice: under every
    interleaving, the connection ids of the responses sent are distinct,
    and a request in flight or handled and not yet sent has no response
    in the log. *)
Theorem request_answered_once (adj : bool) (c0 : SystemClock) (st : server_state) :
  reachable adj c0 st ->
  NoDup (map s_id (st_log st))
  /\ (forall id p, st_inflight st !! id = Some p -> ~ In id (map s_id (st_log st)))
  /\ (forall id h, st_done st !! id = Some h -> ~ In id (map s_id (st_log st))).
Proof. apply reachable_answered_once. Qed.

(** C25 (liveness): from every reachable state the server can answer
    every request it holds: there is a run of steps after which nothing is
    in flight or waiting to be sent, the log has only grown, each request
    that was in flight has a response for its own request in it, and each
    handled one has its computed response in it. *)
Theorem all_requests_answered (adj : bool) (c0 : SystemClock) (st : server_state) :
  reachable adj c0 st ->
  exists st', rtc (step adj) st st' /\ st_inflight st' = ∅ /\ st_done st' = ∅
    /\ (exists l, st_log st' = (st_log st ++ l)%list)
    /\ (forall id p, st_inflight st !! id = Some p ->
          exists e, In e (st_log st') /\ s_id e = id /\ s_req e = p_req p)
    /\ (forall id h, st_done st !! id = Some h ->
          exists e, In e (st_log st') /\ s_id e = id /\ s_resp e = h_resp h).
Proof. apply reachable_drain. Qed.

(** C26 (refinement): whatever the interleaving of arrivals, clock
    changes, ticks, handling and sending, every response sent went on the
    wire as the HTTP/1.1 message of that response (status line, default
    headers, its own headers, blank line, body unless [HEAD]), completed;
    and its default headers are none (before the first tick) or the
    [date] and [server] headers of a tick no later than its handling,
    when the clock is not adjusted. *)
Theorem sent_bytes_on_wire (adj : bool) (c0 : SystemClock) (st : server_state) (e : sent)
    (b : string) :
  reachable adj c0 st -> In e (st_log st) -> resp_body (s_resp e) = Bytes b ->
  (exists cy, s_wire e = Some cy
     /\ cy_written cy = wire_bytes (req_method (s_req e)) (s_headers e) (s_close e) (s_resp e) b
     /\ cy_response_complete cy = true)
  /\ (s_headers e = [] \/ exists u, default_headers u = Ok (s_headers e) /\ (adj = false -> clock_ns u <= s_handled e)).
Proof. apply sent_wire_inv. Qed.

(** Run as a script, the program listens on 0.0.0.0:8000
    when the port is free. *)
Theorem main_listens (in_use : list Z) :
  ~ In 8000 in_use -> main "__main__" in_use = Some (Listening main_config).
Proof.
  intros Hfree. unfold main, uvicorn_startup. simpl.
  replace (existsb (Z.eqb 8000) in_use) with false; [reflexivity |].
  symmetry. apply not_true_iff_false. intros E. apply existsb_exists in E as [x [Hx E]].
  apply Z.eqb_eq in E. subst. contradiction.
Qed.

(** C28 (error): when the port is taken, startup fails and the process exits
    with status 1. *)
Theorem main_port_in_use (in_use : list Z) :
  In 8000 in_use ->
  main "__main__" in_use
  = Some (StartupFailed 1 "[Errno 98] error while attempting to bind on address ('0.0.0.0', 8000): address already in use").
Proof.
  intros Hin. unfold main, uvicorn_startup. simpl.
  replace (existsb (Z.eqb 8000) in_use) with true; [reflexivity |].
  symmetry. apply existsb_exists. exists 8000. split; [exact Hin | apply Z.eqb_refl].
Qed.

(** ** Witnesses *)

(** A run from the clock [c0]: request 0 arrives, is handled and sent;
    the clock advances by [d] nanoseconds; request 1 arrives, is handled
    and sent. *)
Section Run.
Variable c0 : SystemClock.
Variable dh0 : list (string * string).
Hypothesis dh0_tick : default_headers c0 = Ok dh0.
Variable d : Z.
Hypothesis d_nonneg : 0 <= d.

Definition w_req : request := get "/datetime".
(** The first tick sets the default headers. *)
Definition w_st0 : server_state := mk_state c0 ∅ ∅ [] dh0.
Definition w_p0 : pending := mk_pending w_req (now_ns w_st0) false true.
Definition w_st1 : server_state :=
  mk_state (st_clock w_st0) (<[0%nat := w_p0]> (st_inflight w_st0))
           (st_done w_st0) (st_log w_st0) (st_headers w_st0).
Definition w_h0 : handled := handle_pending w_st1 w_p0.
Definition w_st2 : server_state :=
  mk_state (st_clock w_st1) (delete 0%nat (st_inflight w_st1))
           (<[0%nat := w_h0]> (st_done w_st1)) (st_log w_st1) (st_headers w_st1).
Definition w_e0 : sent := send_handled w_st2 0 w_h0.
Definition w_st3 : server_state :=
  mk_state (st_clock w_st2) (st_inflight w_st2) (delete 0%nat (st_done w_st2))
           (st_log w_st2 ++ [w_e0]) (st_headers w_st2).
Definition w_st4 : server_state :=
  mk_state (set_ns (st_clock w_st3) (now_ns w_st3 + d)) (st_inflight w_st3)
           (st_done w_st3) (st_log w_st3) (st_headers w_st3).
Definition w_p1 : pending := mk_pending w_req (now_ns w_st4) false true.
Definition w_st5 : server_state :=
  mk_state (st_clock w_st4) (<[1%nat := w_p1]> (st_inflight w_st4))
           (st_done w_st4) (st_log w_st4) (st_headers w_st4).
Definition w_h1 : handled := handle_pending w_st5 w_p1.
Definition w_st6 : server_state :=
  mk_state (st_clock w_st5) (delete 1%nat (st_inflight w_st5))
           (<[1%nat := w_h1]> (st_done w_st5)) (st_log w_st5) (st_headers w_st5).
Definition w_e1 : sent := send_handled w_st6 1 w_h1.
Definition w_st7 : server_state :=
  mk_state (st_clock w_st6) (st_inflight w_st6) (delete 1%nat (st_done w_st6))
           (st_log w_st6 ++ [w_e1]) (st_headers w_st6).

Lemma w_fresh0 : fresh_id w_st0 0.
Proof. split; [reflexivity | split; [reflexivity | constructor]]. Qed.

Lemma w_fresh1 : fresh_id w_st4 1.
Proof.
  split; [reflexivity | split; [reflexivity |]].
  constructor; [discriminate | constructor].
Qed.

(** The state after the first tick and the first arrival. *)
Lemma w_reachable1 : reachable false c0 w_st1.
Proof.
  pose proof (reach_step _ _ _ _ (reach_init false c0)
                (step_on_tick false (init_state c0) dh0 dh0_tick)) as R0.
  exact (reach_step _ _ _ _ R0 (step_arrive false w_st0 0 w_req false true w_fresh0)).
Qed.

Lemma w_reachable : reachable false c0 w_st7.
Proof.
  pose proof w_reachable1 as R1.
  pose proof (reach_step _ _ _ _ R1 (step_handle false w_st1 0 w_p0 eq_refl)) as R2.
  pose proof (reach_step _ _ _ _ R2 (step_send false w_st2 0 w_h0 eq_refl)) as R3.
  pose proof (reach_step _ _ _ _ R3 (step_tick false w_st3 d d_nonneg)) as R4.
  pose proof (reach_step _ _ _ _ R4 (step_arrive false w_st4 1 w_req false true w_fresh1)) as R5.
  pose proof (reach_step _ _ _ _ R5 (step_handle false w_st5 1 w_p1 eq_refl)) as R6.
  exact (reach_step _ _ _ _ R6 (step_send false w_st6 1 w_h1 eq_refl)).
Qed.

Lemma w_e0_in : In w_e0 (st_log w_st7).
Proof. left. reflexivity. Qed.

Lemma w_e1_in : In w_e1 (st_log w_st7).
Proof. right. left. reflexivity. Qed.
(** The times of the run: request 0 at the start, request 1 [d] later. *)
Lemma w_times :
  s_handled w_e0 = clock_ns c0 /\ s_sent w_e0 = clock_ns c0
  /\ s_arrival w_e1 = clock_ns c0 + d /\ s_handled w_e1 = clock_ns c0 + d.
Proof. repeat split; reflexivity. Qed.
End Run.

(** The default headers of the first tick at a clock's reading. *)
Definition headers_at (c : SystemClock) : list (string * string) :=
  match default_headers c with Ok dh => dh | Raise _ => [] end.

(** The run from the spec's scenario, with 1.5 seconds between the
    requests. *)
Definition sc_dh : list (string * string) := headers_at scenario_clock.
Definition sc_st : server_state := w_st7 scenario_clock sc_dh 1500000000.
Definition sc_e0 : sent := w_e0 scenario_clock sc_dh.
Definition sc_e1 : sent := w_e1 scenario_clock sc_dh 1500000000.

Lemma sc_reachable : reachable false scenario_clock sc_st.
Proof. apply w_reachable; [vm_compute; reflexivity | lia]. Qed.

Lemma sc_e0_in : In sc_e0 (st_log sc_st).
Proof. apply w_e0_in. Qed.

Lemma sc_e1_in : In sc_e1 (st_log sc_st).
Proof. apply w_e1_in. Qed.

(** Across a fall-back of the zone between two readings less than
    [o1 - o2] seconds apart, the run of two sequential requests without
    any adjustment of the clock answers the second one with an earlier
    datetime and a smaller ISO text. *)
Lemma fall_back_run_goes_back (T o1 o2 ns d : Z) :
  zone_bounded (fall_back T o1 o2) -> PyTime_lowest <= ns -> ns + d <= PyTime_MAX ->
  ns < T * 1000000000 <= ns + d -> (ns + d) / 1000 < ns / 1000 + (o1 - o2) * 1000000 ->
  exists st e1 e2 dt1 dt2,
    reachable false (mk_clock ns (fall_back T o1 o2)) st /\ In e1 (st_log st) /\ In e2 (st_log st)
    /\ s_sent e1 <= s_arrival e2
    /\ datetime_now (mk_clock (s_handled e1) (fall_back T o1 o2)) = Ok dt1
    /\ datetime_now (mk_clock (s_handled e2) (fall_back T o1 o2)) = Ok dt2
    /\ dt_lt dt2 dt1 /\ String.compare (iso_text dt2) (iso_text dt1) = Lt.
Proof.
  intros Hz Hlo Hhi Hns Hlt.
  set (c0 := mk_clock ns (fall_back T o1 o2)).
  assert (Hmax : PyTime_lowest <= clock_ns c0 <= PyTime_MAX) by (cbn; lia).
  destruct (proj1 (default_headers_spec c0) Hmax) as (h & Eh & _).
  destruct (datetime_now_ok c0 Hz Hmax) as [dt1 E1].
  destruct (datetime_now_ok (mk_clock (ns + d) (fall_back T o1 o2)) Hz ltac:(cbn; lia))
    as [dt2 E2].
  assert (Hd : 0 <= d) by lia.
  exists (w_st7 c0 [("date", h); ("server", "uvicorn")] d),
    (w_e0 c0 [("date", h); ("server", "uvicorn")]), (w_e1 c0 [("date", h); ("server", "uvicorn")] d),
    dt1, dt2.
  destruct (w_times c0 [("date", h); ("server", "uvicorn")] d) as (-> & -> & -> & ->).
  assert (Hb : dt_lt dt2 dt1)
    by (apply (datetime_now_fall_back_lt c0 (mk_clock (ns + d) (fall_back T o1 o2)) T o1 o2 dt1 dt2);
        cbn; auto; lia).
  split; [exact (w_reachable c0 _ Eh d Hd) |]. split; [apply w_e0_in |]. split; [apply w_e1_in |].
  split; [cbn; lia |]. split; [exact E1 |]. split; [exact E2 |]. split; [exact Hb |].
  apply datetime_now_key in E1 as [V1 _]. apply datetime_now_key in E2 as [V2 _].
  rewrite iso_text_compare by assumption. exact Hb.
Qed.

(** C35 (safety): the hypothesis of C4 on the zone cannot be dropped: in
    every zone that falls back by [o1 - o2] seconds at [T], from every
    reading before [T] whose successor less than [o1 - o2] seconds later is
    after [T], the server has a run without any clock adjustment in which
    a request issued after another one's response was sent gets an
    earlier datetime and a smaller ISO text. *)
Theorem fall_back_requests_go_back (T o1 o2 ns d : Z) :
  zone_bounded (fall_back T o1 o2) -> PyTime_lowest <= ns -> ns + d <= PyTime_MAX ->
  ns < T * 1000000000 <= ns + d -> (ns + d) / 1000 < ns / 1000 + (o1 - o2) * 1000000 ->
  exists st e1 e2 dt1 dt2,
    reachable false (mk_clock ns (fall_back T o1 o2)) st /\ In e1 (st_log st) /\ In e2 (st_log st)
    /\ s_sent e1 <= s_arrival e2
    /\ datetime_now (mk_clock (s_handled e1) (fall_back T o1 o2)) = Ok dt1
    /\ datetime_now (mk_clock (s_handled e2) (fall_back T o1 o2)) = Ok dt2
    /\ dt_lt dt2 dt1 /\ String.compare (iso_text dt2) (iso_text dt1) = Lt.
Proof. apply fall_back_run_goes_back. Qed.

Definition w_dt1 : datetime := mk_datetime 2024 1 15 10 30 1 623456.

Lemma sent_response_is_own_answer_witness :
  reachable false scenario_clock sc_st /\ In sc_e1 (st_log sc_st)
  /\ s_resp sc_e1 = app (s_req sc_e1) (mk_clock (s_handled sc_e1) (tz scenario_clock)).
Proof.
  split; [exact sc_reachable | split; [exact sc_e1_in |]].
  exact (sent_response_is_own_answer false scenario_clock sc_st sc_e1 sc_reachable sc_e1_in).
Defined.

Lemma concurrent_datetime_response_witness :
  reachable false scenario_clock sc_st /\ In sc_e1 (st_log sc_st)
  /\ datetime_now (mk_clock (s_handled sc_e1) (tz scenario_clock)) = Ok w_dt1
  /\ s_resp sc_e1 = mk_response 200
       [("content-length", if microsecond w_dt1 =? 0 then "42" else "49");
        ("content-type", "application/json")]
       (Bytes (datetime_body (iso_text w_dt1))).
Proof.
  assert (Hd : datetime_now (mk_clock (s_handled sc_e1) (tz scenario_clock)) = Ok w_dt1)
    by reflexivity.
  split; [exact sc_reachable | split; [exact sc_e1_in | split; [exact Hd |]]].
  exact (concurrent_datetime_response false scenario_clock sc_st sc_e1 w_dt1
           sc_reachable sc_e1_in eq_refl eq_refl Hd).
Defined.

Lemma sequential_requests_monotone_witness :
  no_fall_back (tz scenario_clock) /\ reachable false scenario_clock sc_st /\ In sc_e0 (st_log sc_st) /\ In sc_e1 (st_log sc_st)
  /\ s_sent sc_e0 <= s_arrival sc_e1
  /\ datetime_now (mk_clock (s_handled sc_e0) (tz scenario_clock)) = Ok scenario_dt
  /\ datetime_now (mk_clock (s_handled sc_e1) (tz scenario_clock)) = Ok w_dt1
  /\ dt_le scenario_dt w_dt1 /\ String.compare (iso_text scenario_dt) (iso_text w_dt1) <> Gt.
Proof.
  assert (Ho : s_sent sc_e0 <= s_arrival sc_e1).
  { destruct (w_times scenario_clock sc_dh 1500000000) as (_ & E1 & E2 & _).
    unfold sc_e0, sc_e1. rewrite E1, E2. vm_compute. discriminate. }
  assert (H0 : datetime_now (mk_clock (s_handled sc_e0) (tz scenario_clock))
               = Ok scenario_dt) by reflexivity.
  assert (H1 : datetime_now (mk_clock (s_handled sc_e1) (tz scenario_clock))
               = Ok w_dt1) by reflexivity.
  assert (Hm : no_fall_back (tz scenario_clock))
    by (unfold no_fall_back; intros; cbv; discriminate).
  split; [exact Hm |].
  split; [exact sc_reachable |]. split; [exact sc_e0_in |]. split; [exact sc_e1_in |].
  split; [exact Ho |]. split; [exact H0 |]. split; [exact H1 |].
  exact (sequential_requests_monotone scenario_clock sc_st sc_e0 sc_e1 scenario_dt w_dt1
           Hm sc_reachable sc_e0_in sc_e1_in Ho H0 H1).
Defined.

Lemma request_answered_once_witness :
  reachable false scenario_clock sc_st
  /\ NoDup (map s_id (st_log sc_st))
  /\ (forall id p, st_inflight sc_st !! id = Some p -> ~ In id (map s_id (st_log sc_st)))
  /\ (forall id h, st_done sc_st !! id = Some h -> ~ In id (map s_id (st_log sc_st))).
Proof. split; [exact sc_reachable | exact (request_answered_once _ _ _ sc_reachable)]. Defined.

(** After the first request of the scenario arrived, it can be answered. *)
Lemma all_requests_answered_witness :
  reachable false scenario_clock (w_st1 scenario_clock sc_dh)
  /\ st_inflight (w_st1 scenario_clock sc_dh) !! 0%nat = Some (w_p0 scenario_clock sc_dh)
  /\ exists st', rtc (step false) (w_st1 scenario_clock sc_dh) st'
     /\ st_inflight st' = ∅ /\ st_done st' = ∅
     /\ (exists l, st_log st' = (st_log (w_st1 scenario_clock sc_dh) ++ l)%list)
     /\ (forall id p, st_inflight (w_st1 scenario_clock sc_dh) !! id = Some p ->
           exists e, In e (st_log st') /\ s_id e = id /\ s_req e = p_req p)
     /\ (forall id h, st_done (w_st1 scenario_clock sc_dh) !! id = Some h ->
           exists e, In e (st_log st') /\ s_id e = id /\ s_resp e = h_resp h).
Proof.
  assert (R : reachable false scenario_clock (w_st1 scenario_clock sc_dh))
    by (apply w_reachable1; vm_compute; reflexivity).
  split; [exact R | split; [reflexivity | exact (all_requests_answered _ _ _ R)]].
Defined.

(** The second response of the scenario's run went on the wire with the
    [date] of the first tick, 1.5 seconds before it was handled. *)
Lemma sent_bytes_on_wire_witness :
  reachable false scenario_clock sc_st /\ In sc_e1 (st_log sc_st)
  /\ resp_body (s_resp sc_e1) = Bytes (datetime_body (iso_text w_dt1))
  /\ sc_dh = [("date", "Mon, 15 Jan 2024 10:30:00 GMT"); ("server", "uvicorn")]
  /\ (exists cy, s_wire sc_e1 = Some cy
       /\ cy_written cy
          = wire_bytes (req_method (s_req sc_e1)) (s_headers sc_e1) (s_close sc_e1) (s_resp sc_e1)
              (datetime_body (iso_text w_dt1))
       /\ cy_response_complete cy = true)
  /\ (s_headers sc_e1 = [] \/ exists u, default_headers u = Ok (s_headers sc_e1)
                                      /\ (false = false -> clock_ns u <= s_handled sc_e1)).
Proof.
  assert (Hb : resp_body (s_resp sc_e1) = Bytes (datetime_body (iso_text w_dt1)))
    by (vm_compute; reflexivity).
  split; [exact sc_reachable |]. split; [exact sc_e1_in |]. split; [exact Hb |].
  split; [vm_compute; reflexivity |].
  exact (sent_bytes_on_wire false scenario_clock sc_st sc_e1 _ sc_reachable sc_e1_in Hb).
Defined.

Lemma main_listens_witness :
  ~ In 8000 [] /\ main "__main__" [] = Some (Listening main_config).
Proof. split; [intros [] | apply main_listens; intros []]. Defined.

Lemma main_port_in_use_witness :
  In 8000 [8000]
  /\ main "__main__" [8000]
     = Some (StartupFailed 1 "[Errno 98] error while attempting to bind on address ('0.0.0.0', 8000): address already in use").
Proof. split; [left; reflexivity | apply main_port_in_use; left; reflexivity]. Defined.

(** In Paris, one second before the 2024 fall-back transition, with 1.5
    seconds between the requests. *)
Lemma fall_back_requests_go_back_witness :
  zone_bounded (fall_back 1729990800 7200 3600)
  /\ exists st e1 e2 dt1 dt2,
    reachable false (mk_clock 1729990799000000000 (fall_back 1729990800 7200 3600)) st
    /\ In e1 (st_log st) /\ In e2 (st_log st) /\ s_sent e1 <= s_arrival e2
    /\ datetime_now (mk_clock (s_handled e1) (fall_back 1729990800 7200 3600)) = Ok dt1
    /\ datetime_now (mk_clock (s_handled e2) (fall_back 1729990800 7200 3600)) = Ok dt2
    /\ dt_lt dt2 dt1 /\ String.compare (iso_text dt2) (iso_text dt1) = Lt.
Proof.
  assert (Hz : zone_bounded (fall_back 1729990800 7200 3600))
    by (intros u; unfold fall_back; destruct (u <? 1729990800); lia).
  split; [exact Hz |].
  apply (fall_back_requests_go_back 1729990800 7200 3600 1729990799000000000 1500000000 Hz);
    rewrite ?PyTime_MAX_value; unfold PyTime_lowest, SEC_TO_NS; [lia | lia | lia | reflexivity].
Defined.
